(** * Machine pool creation of the rosa CLI: a shallow embedding

    The development follows [pkg/machinepool/machinepool.go].  The Go
    functions [CreateMachinePool] and [CreateNodePools] are embedded as
    computations of a small state-and-error monad; the control-plane
    client, the cloud SDK client, the interactive prompts and the helper
    packages that the file imports are collaborators, gathered in one
    record over which every statement is quantified. *)

From Stdlib Require Import ZArith String Ascii List Bool Lia.
From Stdlib Require Import Floats DecimalString DecimalPos DecimalZ.
From stdpp Require Import base option strings gmap.
Import ListNotations.

Local Open Scope string_scope.
Local Open Scope Z_scope.

(** ** Go runtime values *)

(** A Go [error] is kept as its message, the only part of it the callers
    of this package look at. *)
Definition error := string.

(** [nil] or an error: the result of a function returning only [error]. *)
Definition err_or_nil := option error.

(** A Go [int] on the 64-bit platforms the CLI is built for. *)
Definition int_min : Z := - 2 ^ 63.
Definition int_max : Z := 2 ^ 63 - 1.
Definition is_int (n : Z) : Prop := int_min <= n <= int_max.

(** Values that travel through [interface{}] parameters of validators. *)
Inductive value :=
| VInt (n : Z)
| VStr (s : string)
| VBool (b : bool)
| VStrs (l : list string).

(** The type [interactive.Validator]. *)
Definition Validator := value -> err_or_nil.

(** ** The parts of [strings], [strconv] and [fmt] that the file calls *)

Module Go.

Definition dquote : ascii := ascii_of_nat 34.

Fixpoint IndexByte (cutset : string) (c : ascii) : bool :=
  match cutset with
  | EmptyString => false
  | String d rest => Ascii.eqb c d || IndexByte rest c
  end.

Fixpoint TrimLeft (s cutset : string) : string :=
  match s with
  | EmptyString => EmptyString
  | String c rest => if IndexByte cutset c then TrimLeft rest cutset else s
  end.

(** The string without its trailing bytes of [cutset]: a suffix is
    dropped when everything after the current byte is dropped too. *)
Fixpoint TrimRight (s cutset : string) : string :=
  match s with
  | EmptyString => EmptyString
  | String c rest =>
      match TrimRight rest cutset with
      | EmptyString => if IndexByte cutset c then EmptyString
                       else String c EmptyString
      | kept => String c kept
      end
  end.

(** [strings.Trim(s, cutset)], for the ASCII cutsets the file uses. *)
Definition Trim (s cutset : string) : string :=
  TrimRight (TrimLeft s cutset) cutset.

(** [strings.Split(s, sep)] for a separator of one byte: the pieces
    between the separators, an empty input giving one empty piece. *)
Fixpoint Split (s : string) (sep : ascii) : list string :=
  match s with
  | EmptyString => [EmptyString]
  | String c rest =>
      if Ascii.eqb c sep then EmptyString :: Split rest sep
      else match Split rest sep with
           | piece :: more => String c piece :: more
           | [] => [String c EmptyString]
           end
  end.

(** [strconv.FormatInt(n, 10)], which is what [%v] prints for an int. *)
Definition FormatInt (n : Z) : string :=
  NilZero.string_of_int (Z.to_int n).

Definition Join (l : list string) (sep : string) : string :=
  match l with
  | [] => EmptyString
  | x :: rest => fold_left (fun acc y => acc +:+ sep +:+ y) rest x
  end.

(** [fmt.Sprintf("%v", val)] on the values validators receive. *)
Definition Sprintf_v (val : value) : string :=
  match val with
  | VInt n => FormatInt n
  | VStr s => s
  | VBool true => "true"
  | VBool false => "false"
  | VStrs l => "[" +:+ Join l " " +:+ "]"
  end.

Definition Quote (s : string) : string :=
  String dquote (s +:+ String dquote EmptyString).

Definition syntaxError (fn s : string) : error :=
  "strconv." +:+ fn +:+ ": parsing " +:+ Quote s +:+ ": invalid syntax".

Definition rangeError (fn s : string) : error :=
  "strconv." +:+ fn +:+ ": parsing " +:+ Quote s +:+ ": value out of range".

(** [strconv.Atoi]: an optional sign, then one or more decimal digits,
    and the value has to fit an [int]. *)
Definition Atoi (s : string) : error + Z :=
  let '(neg, body) :=
    match s with
    | String "+" rest => (false, rest)
    | String "-" rest => (true, rest)
    | _ => (false, s)
    end in
  match body with
  | EmptyString => inl (syntaxError "Atoi" s)
  | _ =>
      match NilEmpty.uint_of_string body with
      | None => inl (syntaxError "Atoi" s)
      | Some d =>
          let n := if neg : bool then - Z.of_uint d else Z.of_uint d in
          if (int_min <=? n) && (n <=? int_max) then inr n
          else inl (rangeError "Atoi" s)
      end
  end.

End Go.

(** ** Regular expressions: the fragment of RE2 syntax the file uses *)

Module Regexp.

Inductive regex :=
| Eps
| Class (ranges : list (ascii * ascii))
| Cat (r1 r2 : regex)
| Alt (r1 r2 : regex)
| Star (r : regex)
| Quest (r : regex).

(** A compiled expression: its source text, whether it starts with [^]
    and ends with [$] (begin and end of text, no flag being set), and
    the expression in between. *)
Record t := mk {
  expr : string;
  anchorBegin : bool;
  anchorEnd : bool;
  body : regex;
}.

(** *** Parsing *)

Definition among (c : ascii) (set : string) : bool := Go.IndexByte set c.

(** The items of a bracket expression up to the closing bracket: [a-b]
    is a range, a byte on its own (a leading or trailing [-] also) is
    itself.  Negation and escapes are outside the fragment. *)
Fixpoint parseClass (s : string) (acc : list (ascii * ascii))
  : option (regex * string) :=
  match s with
  | EmptyString => None
  | String c rest =>
      if among c "]" then Some (Class (rev acc), rest)
      else if among c "\[^" then None
      else match rest with
           | String dash (String hi rest') =>
               if among dash "-" && negb (among hi "]") then
                 if among hi "\[" || negb (Ascii.leb c hi) then None
                 else parseClass rest' ((c, hi) :: acc)
               else parseClass rest ((c, c) :: acc)
           | _ => parseClass rest ((c, c) :: acc)
           end
  end.

(** The postfix operators that follow an atom. *)
Fixpoint parseRepeat (r : regex) (s : string) : regex * string :=
  match s with
  | String c rest =>
      if among c "*" then parseRepeat (Star r) rest
      else if among c "?" then parseRepeat (Quest r) rest
      else if among c "+" then parseRepeat (Cat r (Star r)) rest
      else (r, s)
  | EmptyString => (r, s)
  end.

Inductive level := Alternation | Concatenation | Atom.

Definition cat (r1 r2 : regex) : regex :=
  match r2 with Eps => r1 | _ => Cat r1 r2 end.

(** Recursive descent, the fuel bounding the nesting by the length of
    the pattern. *)
Fixpoint parse (fuel : nat) (lvl : level) (s : string)
  : option (regex * string) :=
  match fuel with
  | O => None
  | S fuel =>
      match lvl with
      | Alternation =>
          match parse fuel Concatenation s with
          | Some (r1, String c rest) =>
              if among c "|" then
                match parse fuel Alternation rest with
                | Some (r2, rest') => Some (Alt r1 r2, rest')
                | None => None
                end
              else Some (r1, String c rest)
          | other => other
          end
      | Concatenation =>
          match s with
          | EmptyString => Some (Eps, s)
          | String c _ =>
              if among c "|)" then Some (Eps, s)
              else match parse fuel Atom s with
                   | Some (r1, rest) =>
                       match parse fuel Concatenation rest with
                       | Some (r2, rest') => Some (cat r1 r2, rest')
                       | None => None
                       end
                   | None => None
                   end
          end
      | Atom =>
          match s with
          | EmptyString => None
          | String c rest =>
              if among c "(" then
                match parse fuel Alternation rest with
                | Some (r, String c' rest') =>
                    if among c' ")" then Some (parseRepeat r rest') else None
                | _ => None
                end
              else if among c "[" then
                match parseClass rest [] with
                | Some (r, rest') => Some (parseRepeat r rest')
                | None => None
                end
              else if among c "\.+*?)|]{}^$" then None
              else Some (parseRepeat (Class [(c, c)]) rest)
          end
      end
  end.

Definition stripBegin (s : string) : bool * string :=
  match s with
  | String c rest => if among c "^" then (true, rest) else (false, s)
  | EmptyString => (false, s)
  end.

Fixpoint stripEnd (s : string) : bool * string :=
  match s with
  | EmptyString => (false, s)
  | String c EmptyString =>
      if among c "$" then (true, EmptyString) else (false, s)
  | String c rest => let '(b, rest') := stripEnd rest in (b, String c rest')
  end.

(** [regexp.Compile]: [None] where the pattern is outside the fragment
    (and [MustCompile] would panic where it is not a pattern at all). *)
Definition Compile (pattern : string) : option t :=
  let '(b, s1) := stripBegin pattern in
  let '(e, s2) := stripEnd s1 in
  match parse (2 * S (String.length s2)) Alternation s2 with
  | Some (r, EmptyString) => Some (mk pattern b e r)
  | _ => None
  end.

Definition MustCompile (pattern : string) : t :=
  match Compile pattern with
  | Some re => re
  | None => mk pattern true true (Class [])
  end.

(** *** Matching, with Brzozowski derivatives on the bytes of the text *)

Definition inClass (ranges : list (ascii * ascii)) (c : ascii) : bool :=
  existsb (fun '(lo, hi) => Ascii.leb lo c && Ascii.leb c hi) ranges.

Fixpoint nullable (r : regex) : bool :=
  match r with
  | Eps => true
  | Class _ => false
  | Cat r1 r2 => nullable r1 && nullable r2
  | Alt r1 r2 => nullable r1 || nullable r2
  | Star _ => true
  | Quest _ => true
  end.

Definition Void : regex := Class [].

Fixpoint deriv (c : ascii) (r : regex) : regex :=
  match r with
  | Eps => Void
  | Class ranges => if inClass ranges c then Eps else Void
  | Cat r1 r2 =>
      if nullable r1 then Alt (Cat (deriv c r1) r2) (deriv c r2)
      else Cat (deriv c r1) r2
  | Alt r1 r2 => Alt (deriv c r1) (deriv c r2)
  | Star r1 => Cat (deriv c r1) (Star r1)
  | Quest r1 => deriv c r1
  end.

(** The whole text matches. *)
Fixpoint matchAll (r : regex) (s : list ascii) : bool :=
  match s with
  | [] => nullable r
  | c :: rest => matchAll (deriv c r) rest
  end.

(** Some prefix of the text matches. *)
Fixpoint matchPrefix (r : regex) (s : list ascii) : bool :=
  nullable r ||
  match s with
  | [] => false
  | c :: rest => matchPrefix (deriv c r) rest
  end.

Fixpoint suffixes (s : list ascii) : list (list ascii) :=
  s :: match s with [] => [] | _ :: rest => suffixes rest end.

(** [re.MatchString(s)]: a match anywhere in [s], the anchors pinning
    its ends. *)
Definition MatchString (re : t) (s : string) : bool :=
  let text := list_ascii_of_string s in
  existsb (if anchorEnd re then matchAll (body re) else matchPrefix (body re))
          (if anchorBegin re then [text] else suffixes text).

(** *** The texts an expression denotes *)

Inductive lang : regex -> list ascii -> Prop :=
| lang_Eps : lang Eps []
| lang_Class ranges c : inClass ranges c = true -> lang (Class ranges) [c]
| lang_Cat r1 r2 s1 s2 :
    lang r1 s1 -> lang r2 s2 -> lang (Cat r1 r2) (s1 ++ s2)
| lang_Alt_l r1 r2 s : lang r1 s -> lang (Alt r1 r2) s
| lang_Alt_r r1 r2 s : lang r2 s -> lang (Alt r1 r2) s
| lang_Star_nil r : lang (Star r) []
| lang_Star_app r s1 s2 :
    lang r s1 -> lang (Star r) s2 -> lang (Star r) (s1 ++ s2)
| lang_Quest_nil r : lang (Quest r) []
| lang_Quest r s : lang r s -> lang (Quest r) s.

(** [re.String()]: the source text of the expression. *)
Definition String (re : t) : string := expr re.

End Regexp.

(** Regular expression to used to make sure that the identifier given by
    the user is safe and that it there is no risk of SQL injection. *)
Definition machinePoolKeyRE : Regexp.t :=
  Regexp.MustCompile "^[a-z]([-a-z0-9]*[a-z0-9])?$".

(** The identifiers spelled out, for comparison with the expression. *)
Module Key.

Definition firstChar : ascii -> bool := Regexp.inClass [("a", "z")]%char.
Definition innerChar : ascii -> bool :=
  Regexp.inClass [("-", "-"); ("a", "z"); ("0", "9")]%char.
Definition lastChar : ascii -> bool := Regexp.inClass [("a", "z"); ("0", "9")]%char.

(** Inner characters closed by a last one. *)
Fixpoint keyTail (l : list ascii) : bool :=
  match l with
  | [] => false
  | [c] => lastChar c
  | c :: rest => innerChar c && keyTail rest
  end.

(** A lower-case letter, alone or followed by letters, digits and
    dashes of which the last is not a dash. *)
Definition keyShape (l : list ascii) : bool :=
  match l with
  | [] => false
  | c :: rest =>
      firstChar c && match rest with [] => true | _ => keyTail rest end
  end.

End Key.

(** ** Data model *)

Record CreateMachinepoolUserOptions := {
  Name : string;
  InstanceType : string;
  Replicas : Z;
  AutoscalingEnabled : bool;
  MinReplicas : Z;
  MaxReplicas : Z;
  Labels : string;
  Taints : string;
  UseSpotInstances : bool;
  SpotMaxPrice : string;
  MultiAvailabilityZone : bool;
  AvailabilityZone : string;
  Subnet : string;
  Version : string;
  Autorepair : bool;
  TuningConfigs : string;
  KubeletConfigs : string;
  RootDiskSize : string;
  SecurityGroupIds : list string;
  NodeDrainGracePeriod : string;
  Tags : list string;
}.

(** The assignment [args.MultiAvailabilityZone = false]. *)
Definition set_MultiAvailabilityZone (b : bool)
    (args : CreateMachinepoolUserOptions) : CreateMachinepoolUserOptions :=
  {| Name := Name args; InstanceType := InstanceType args;
     Replicas := Replicas args; AutoscalingEnabled := AutoscalingEnabled args;
     MinReplicas := MinReplicas args; MaxReplicas := MaxReplicas args;
     Labels := Labels args; Taints := Taints args;
     UseSpotInstances := UseSpotInstances args;
     SpotMaxPrice := SpotMaxPrice args;
     MultiAvailabilityZone := b;
     AvailabilityZone := AvailabilityZone args; Subnet := Subnet args;
     Version := Version args; Autorepair := Autorepair args;
     TuningConfigs := TuningConfigs args;
     KubeletConfigs := KubeletConfigs args;
     RootDiskSize := RootDiskSize args;
     SecurityGroupIds := SecurityGroupIds args;
     NodeDrainGracePeriod := NodeDrainGracePeriod args; Tags := Tags args |}.

(** What the file reads of a [*cmv1.Cluster]. *)
Record Cluster := {
  cluster_ID : string;
  cluster_MultiAZ : bool;
  cluster_Version_RawID : string;
  cluster_Version_ChannelGroup : string;
  cluster_Nodes_AvailabilityZones : list string;
  cluster_Region_ID : string;
  cluster_AWS_STS_RoleARN : string;
  cluster_AWS_SubnetIDs : list string;
  cluster_Flavour_ID : string;
  cluster_Hypershift_Enabled : bool;
}.

(** The flag set of a [*cobra.Command]: the registered flags by name. *)
Record Flag := { Usage : string; flag_Changed : bool }.
Definition Command := gmap string Flag.

Definition Lookup (cmd : Command) (name : string) : option Flag := cmd !! name.

(** [cmd.Flags().Changed(name)]: a flag that does not exist was not
    changed. *)
Definition Changed (cmd : Command) (name : string) : bool :=
  match Lookup cmd name with
  | Some flag => flag_Changed flag
  | None => false
  end.

(** [interactive.Input]. *)
Record Input := {
  Question : string;
  Help : string;
  Options : list string;
  Default : value;
  Required : bool;
  Validators : list Validator;
}.

(** The objects built for the control plane ([cmv1] builders, read back
    through the getters of the built object). *)
Module cmv1.

Record Taint := { Key : string; Value : string; Effect : string }.

Record MachinePoolAutoscaling := { MinReplicas : Z; MaxReplicas : Z }.

Record AWSSpotMarketOptions := { MaxPrice : option float }.

Record AWSMachinePool := {
  SpotMarketOptions : option AWSSpotMarketOptions;
  AdditionalSecurityGroupIds : list string;
  Tags : gmap string string;
}.

Record MachinePool := {
  ID : string;
  InstanceType : string;
  Labels : gmap string string;
  Taints : list Taint;
  Autoscaling : option MachinePoolAutoscaling;
  Replicas : option Z;
  AWS : AWSMachinePool;
  AvailabilityZones : list string;
  Subnets : list string;
  RootVolume : option Z;
}.

Record NodePoolAutoscaling := { MinReplica : Z; MaxReplica : Z }.

Record AWSNodePool := {
  np_InstanceType : string;
  np_AdditionalSecurityGroupIds : list string;
  np_Tags : gmap string string;
}.

Record NodePool := {
  np_ID : string;
  np_Labels : gmap string string;
  np_Taints : list Taint;
  np_Autoscaling : option NodePoolAutoscaling;
  np_Replicas : option Z;
  np_Subnet : option string;
  np_AutoRepair : option bool;
  np_TuningConfigs : list string;
  np_KubeletConfigs : list string;
  np_AWSNodePool : option AWSNodePool;
  np_NodeDrainGracePeriod : option (Z * string);
  np_Version : option string;
}.

End cmv1.

(** A private subnet of the VPC as the cloud SDK lists it. *)
Record AwsSubnet := { SubnetId : string; subnet_AvailabilityZone : string }.

(** The answer of [GetAvailableMachineTypesInRegion]: the identifiers of
    its items and its two methods. *)
Record MachineTypeList := {
  Items : list string;
  GetAvailableIDs : bool -> list string;
  ValidateMachineType : string -> bool -> err_or_nil;
}.

(** ** Effects *)

(** How a call ends: with a value, with a returned [error], or with the
    process stopping (a panic, or [os.Exit] inside a helper). *)
Inductive outcome (A : Type) : Type :=
| Ret (a : A)
| Fail (err : error)
| Halt (why : string).
Arguments Ret {A} a.
Arguments Fail {A} err.
Arguments Halt {A} why.

(** What a run leaves behind, in order. *)
Inductive Event :=
| Infof (msg : string)
| Warnf (msg : string)
| SpinnerStart
| SpinnerStop
| Asked (question : string)
| Request (operation : string) (arguments : list string)
| CreateMachinePoolRequest (clusterID : string) (machinePool : cmv1.MachinePool)
| CreateNodePoolRequest (clusterID : string) (nodePool : cmv1.NodePool)
| PrintMachinePool (machinePool : cmv1.MachinePool)
| PrintNodePool (nodePool : cmv1.NodePool).

Definition isCreate (e : Event) : bool :=
  match e with
  | CreateMachinePoolRequest _ _ | CreateNodePoolRequest _ _ => true
  | _ => false
  end.

(** The create calls among the events of a run. *)
Definition creations (trace : list Event) : list Event :=
  List.filter isCreate trace.

Section Runtime.

(** The state of everything outside the process: the person at the
    terminal, the control plane, the cloud account. *)
Context {U : Type}.

(** The state of a run: the global toggle of package [interactive],
    the events so far and the outside. *)
Record World := mkWorld {
  interactive_Enabled : bool;
  trace : list Event;
  outside : U;
}.

Definition M (A : Type) : Type := World -> outcome A * World.

Definition ret {A} (a : A) : M A := fun w => (Ret a, w).

Definition bind {A B} (m : M A) (k : A -> M B) : M B :=
  fun w =>
    match m w with
    | (Ret a, w') => k a w'
    | (Fail e, w') => (Fail e, w')
    | (Halt why, w') => (Halt why, w')
    end.

(** [return fmt.Errorf(...)]. *)
Definition fail {A} (e : error) : M A := fun w => (Fail e, w).

Definition panic {A} (why : string) : M A := fun w => (Halt why, w).

(** [if err != nil { return fmt.Errorf(..., err) }] around a call. *)
Definition wrap {A} (f : error -> error) (m : M A) : M A :=
  fun w =>
    match m w with
    | (Fail e, w') => (Fail (f e), w')
    | other => other
    end.

Definition emit (e : Event) : M unit :=
  fun w => (Ret tt, mkWorld (interactive_Enabled w) (trace w ++ [e]) (outside w)).

(** [interactive.Enabled()] and [interactive.Enable()]. *)
Definition Enabled : M bool := fun w => (Ret (interactive_Enabled w), w).
Definition Enable : M unit :=
  fun w => (Ret tt, mkWorld true (trace w) (outside w)).

(** A collaborator sees the toggle and the outside, and answers. *)
Definition ext (A : Type) : Type := bool -> U -> outcome A * U.

Definition call {A} (f : ext A) : M A :=
  fun w =>
    let '(r, u) := f (interactive_Enabled w) (outside w) in
    (r, mkWorld (interactive_Enabled w) (trace w) u).

(** [slice[0]]. *)
Definition first {A} (l : list A) : M A :=
  match l with
  | x :: _ => ret x
  | [] => panic "runtime error: index out of range [0] with length 0"
  end.

(** A returned [error] value carried over to the caller. *)
Definition check (e : err_or_nil) : M unit :=
  match e with
  | None => ret tt
  | Some err => fail err
  end.

Definition lift {A} (r : error + A) : M A :=
  match r with
  | inr a => ret a
  | inl err => fail err
  end.

(** [m] creates nothing: whatever its outcome, the create calls of the
    trace are those that were there. *)
Definition quiet {A} (m : M A) : Prop :=
  forall w r w', m w = (r, w') -> creations (trace w') = creations (trace w).

End Runtime.

Arguments World U : clear implicits.
Arguments M U A : clear implicits.
Arguments ext U A : clear implicits.
Arguments quiet {U A} m.

Declare Scope go_scope.
Delimit Scope go_scope with go.
Notation "x <- m ;; k" := (bind m (fun x => k))
  (at level 100, m at next level, right associativity) : go_scope.
Notation "m ;; k" := (bind m (fun _ => k))
  (at level 100, right associativity) : go_scope.
Local Open Scope go_scope.

(** ** Collaborators

    Everything the file calls that is not in it.  The functions of other
    packages keep their names, prefixed with the name of the package. *)

Record Collaborators {U : Type} := {
  (* Go standard library *)
  strconv_ParseFloat : string -> Z -> float * err_or_nil;
  strings_TrimSpace : string -> string;
  (* [fmt.Errorf(format)] without operands *)
  fmt_Errorf : string -> error;
  (* ocm-common *)
  commonUtils_MaxByteSize : Z;
  diskValidator_ValidateMachinePoolRootDiskSize : string -> Z -> err_or_nil;
  (* pkg/interactive *)
  interactive_GetString : Input -> ext U string;
  interactive_GetBool : Input -> ext U bool;
  interactive_GetInt : Input -> ext U Z;
  interactive_GetOption : Input -> ext U string;
  interactive_GetMultipleOptions : Input -> ext U (list string);
  interactive_RegExp : string -> Validator;
  interactive_MachinePoolRootDiskSizeValidator : string -> Validator;
  confirm_Yes : bool;
  securitygroups_MachinePoolSecurityGroupFlag : string;
  (* pkg/helper and its sub-packages *)
  helper_IsBYOVPC : Cluster -> bool;
  helper_Contains : list string -> string -> bool;
  helper_GigybyteStringer : Z -> string;
  features_AdditionalDay2SecurityGroupsHcpFeature : string;
  features_IsFeatureSupported : string -> string -> error + bool;
  versions_IsGreaterThanOrEqual : string -> string -> error + bool;
  versions_FormatMajorMinorPatch : string -> error + string;
  versions_MajorMinorPatchFormattedErrorOutput : error -> error;
  versions_GetVersionList : string -> ext U (list string);
  versions_GetMinimalHostedMachinePoolVersion : string -> error + string;
  versions_GetFilteredVersionList : list string -> string -> string -> list string;
  mpHelpers_HostedClusterOnlyFlag : Command -> string -> ext U unit;
  mpHelpers_GetLabelMap :
    Command -> gmap string string -> string -> ext U (gmap string string);
  mpHelpers_GetTaints :
    Command -> list cmv1.Taint -> string -> ext U (list cmv1.Taint);
  mpHelpers_GetAwsTags : Command -> list string -> ext U (gmap string string);
  mpHelpers_MinNodePoolReplicaValidator : bool -> Validator;
  mpHelpers_MaxNodePoolReplicaValidator : Z -> Validator;
  mpHelpers_ValidateNodeDrainGracePeriod : Validator;
  mpHelpers_CreateNodeDrainGracePeriodBuilder : string -> error + Z * string;
  (* pkg/ocm and the control-plane client *)
  ocm_MinVersionForAdditionalComputeSecurityGroupIdsDay2 : string;
  ocm_ParseDiskSizeToGigibyte : string -> error + Z;
  OCMClient_GetAvailableMachineTypesInRegion :
    string -> list string -> string -> ext U MachineTypeList;
  OCMClient_GetDefaultClusterFlavors : string -> U -> Z * U;
  OCMClient_CreateMachinePool :
    string -> cmv1.MachinePool -> ext U cmv1.MachinePool;
  OCMClient_ValidateVersion :
    string -> list string -> string -> ext U string;
  OCMClient_GetTuningConfigsName : string -> ext U (list string);
  OCMClient_ListKubeletConfigNames : string -> ext U (list string);
  OCMClient_CreateNodePool : string -> cmv1.NodePool -> ext U cmv1.NodePool;
  (* whether [Build] of the assembled builder reports an error *)
  cmv1_MachinePool_Build : cmv1.MachinePool -> err_or_nil;
  cmv1_NodePool_Build : cmv1.NodePool -> err_or_nil;
  (* the cloud SDK client *)
  AWSClient_GetSubnetAvailabilityZone : string -> ext U string;
  AWSClient_IsLocalAvailabilityZone : string -> ext U bool;
  AWSClient_GetVPCPrivateSubnets : string -> ext U (list AwsSubnet);
  (* reporter and pkg/output *)
  Reporter_IsTerminal : bool;
  output_HasFlag : bool;
  output_Print_MachinePool : cmv1.MachinePool -> ext U unit;
  output_Print_NodePool : cmv1.NodePool -> ext U unit;
  (* functions of package machinepool defined in its other files *)
  getSubnetFromUser :
    Command -> bool -> Cluster -> CreateMachinepoolUserOptions -> ext U string;
  getSecurityGroupsOption : Command -> Cluster -> ext U (list string);
  ValidateKubeletConfig : Validator;
  createAwsNodePoolBuilder :
    string -> list string -> gmap string string -> cmv1.AWSNodePool;
}.
Arguments Collaborators U : clear implicits.

(** ** The validators and [getMachinePoolAvailabilityZones] *)

Definition minReplicaValidator (multiAZMachinePool : bool) : Validator :=
  fun val =>
    match Go.Atoi (Go.Sprintf_v val) with
    | inl err => Some err
    | inr minReplicas =>
        if minReplicas <? 0 then
          Some "min-replicas must be a non-negative integer"
        else if multiAZMachinePool && negb (Z.rem minReplicas 3 =? 0) then
          Some "Multi AZ clusters require that the replicas be a multiple of 3"
        else None
    end.

Definition maxReplicaValidator (minReplicas : Z) (multiAZMachinePool : bool)
  : Validator :=
  fun val =>
    match Go.Atoi (Go.Sprintf_v val) with
    | inl err => Some err
    | inr maxReplicas =>
        if minReplicas >? maxReplicas then
          Some "max-replicas must be greater or equal to min-replicas"
        else if multiAZMachinePool && negb (Z.rem maxReplicas 3 =? 0) then
          Some "Multi AZ clusters require that the replicas be a multiple of 3"
        else None
    end.

Section Program.

Context {U : Type} (C : Collaborators U).

Definition spotMaxPriceValidator : Validator :=
  fun val =>
    let spotMaxPrice := Go.Sprintf_v val in
    if String.eqb spotMaxPrice "on-demand" then None
    else
      let '(price, err) :=
        strconv_ParseFloat C spotMaxPrice (commonUtils_MaxByteSize C) in
      match err with
      | Some _ => Some "Expected a numeric value for spot max price"
      | None =>
          if PrimFloat.leb price 0 then Some "Spot max price must be positive"
          else None
      end.

(** A prompt of package [interactive]. *)
Definition ask {A} (get : Input -> ext U A) (input : Input) : M U A :=
  emit (Asked (Question input)) ;; call (get input).

(** A call of one of the two clients. *)
Definition request {A} (operation : string) (arguments : list string)
    (f : ext U A) : M U A :=
  emit (Request operation arguments) ;; call f.

(** [cmd.Flags().Lookup(name).Usage]; [Lookup] gives [nil] for a flag
    that is not registered. *)
Definition usage (cmd : Command) (name : string) : M U string :=
  match Lookup cmd name with
  | Some flag => ret (Usage flag)
  | None => panic "runtime error: invalid memory address or nil pointer dereference"
  end.

(** getMachinePoolAvailabilityZones derives the availability zone from
    the user input or the cluster spec *)
Definition getMachinePoolAvailabilityZones (cluster : Cluster)
    (multiAZMachinePool : bool)
    (availabilityZoneUserInput subnetUserInput : string)
  : M U (list string) :=
  (* Single AZ machine pool for a multi-AZ cluster *)
  if cluster_MultiAZ cluster && negb multiAZMachinePool
     && negb (String.eqb availabilityZoneUserInput "")
  then ret [availabilityZoneUserInput]
  (* Single AZ machine pool for a BYOVPC cluster *)
  else if negb (String.eqb subnetUserInput "") then
    availabilityZone <-
      request "GetSubnetAvailabilityZone" [subnetUserInput]
        (AWSClient_GetSubnetAvailabilityZone C subnetUserInput) ;;
    ret [availabilityZone]
  (* Default option of cluster's nodes availability zones *)
  else ret (cluster_Nodes_AvailabilityZones cluster).

(** *** CreateMachinePool

    The body of the Go function is cut at the comments that head its
    parts; each part hands the locals that later parts read to the
    next one. *)

(** The cutset [" \t"]. *)
Definition spaceTab : string := String " " (String (ascii_of_nat 9) EmptyString).

Record FlagState := {
  isMultiAvailabilityZoneSet : bool;
  isAvailabilityZoneSet : bool;
  isSubnetSet : bool;
  isByoVpc : bool;
  isSecurityGroupIdsSet : bool;
  isVersionCompatibleComputeSgIds : bool;
}.

Definition conflictMessage : error :=
  "Setting both `subnet` and `availability-zone` flag is not supported." +:+
  " Please select `subnet` or `availability-zone` to create a single availability zone machine pool".

(** Lines 86-138: the flags against the cluster and against each
    other. *)
Definition validateFlags (cmd : Command) (cluster : Cluster)
    (args : CreateMachinepoolUserOptions) : M U FlagState :=
  (* Validate flags that are only allowed for multi-AZ clusters *)
  let isMultiAvailabilityZoneSet := Changed cmd "multi-availability-zone" in
  if isMultiAvailabilityZoneSet && negb (cluster_MultiAZ cluster) then
    fail "Setting the `multi-availability-zone` flag is only allowed for multi-AZ clusters"
  else
  let isAvailabilityZoneSet := Changed cmd "availability-zone" in
  if isAvailabilityZoneSet && negb (cluster_MultiAZ cluster) then
    fail "Setting the `availability-zone` flag is only allowed for multi-AZ clusters"
  else
  (* Validate flags that are only allowed for BYOVPC cluster *)
  let isSubnetSet := Changed cmd "subnet" in
  let isByoVpc := helper_IsBYOVPC C cluster in
  if negb isByoVpc && isSubnetSet then
    fail "Setting the `subnet` flag is only allowed for BYO VPC clusters"
  else
  let sgFlag := securitygroups_MachinePoolSecurityGroupFlag C in
  let minVersion := ocm_MinVersionForAdditionalComputeSecurityGroupIdsDay2 C in
  let isSecurityGroupIdsSet := Changed cmd sgFlag in
  isVersionCompatibleComputeSgIds <-
    wrap (fun err => "There was a problem checking version compatibility: " +:+ err)
      (lift (versions_IsGreaterThanOrEqual C (cluster_Version_RawID cluster)
               minVersion)) ;;
  (if isSecurityGroupIdsSet then
     if negb isByoVpc then
       fail ("Setting the `" +:+ sgFlag +:+ "` flag is only allowed for BYOVPC clusters")
     else if negb isVersionCompatibleComputeSgIds then
       formattedVersion <-
         wrap (versions_MajorMinorPatchFormattedErrorOutput C)
           (lift (versions_FormatMajorMinorPatch C minVersion)) ;;
       fail ("Parameter '" +:+ sgFlag +:+ "' is not supported prior to version '"
             +:+ formattedVersion +:+ "'")
     else ret tt
   else ret tt) ;;
  if isSubnetSet && isAvailabilityZoneSet then fail conflictMessage
  else
  (* Validate `subnet` or `availability-zone` flags are set for a single
     AZ machine pool *)
  if isAvailabilityZoneSet && isMultiAvailabilityZoneSet
     && MultiAvailabilityZone args then
    fail ("Setting the `availability-zone` flag is only supported for creating a single AZ " +:+
          "machine pool in a multi-AZ cluster")
  else
  if isSubnetSet && isMultiAvailabilityZoneSet && MultiAvailabilityZone args then
    fail "Setting the `subnet` flag is only supported for creating a single AZ machine pool"
  else
  ret {| isMultiAvailabilityZoneSet := isMultiAvailabilityZoneSet;
         isAvailabilityZoneSet := isAvailabilityZoneSet;
         isSubnetSet := isSubnetSet;
         isByoVpc := isByoVpc;
         isSecurityGroupIdsSet := isSecurityGroupIdsSet;
         isVersionCompatibleComputeSgIds := isVersionCompatibleComputeSgIds |}.

(** Lines 140-143. *)
Definition hostedClusterOnlyFlags (cmd : Command) : M U unit :=
  call (mpHelpers_HostedClusterOnlyFlag C cmd "version") ;;
  call (mpHelpers_HostedClusterOnlyFlag C cmd "autorepair") ;;
  call (mpHelpers_HostedClusterOnlyFlag C cmd "tuning-configs") ;;
  call (mpHelpers_HostedClusterOnlyFlag C cmd "kubelet-configs").

Definition invalidName : error := "Expected a valid name for the machine pool".

(** Lines 145-167 (and 663-685 of CreateNodePools, which are the
    same): the machine pool name. *)
Definition resolveName (args : CreateMachinepoolUserOptions) : M U string :=
  let name := Go.Trim (Name args) spaceTab in
  enabled <- Enabled ;;
  (if String.eqb name "" && negb enabled then
     Enable ;; emit (Infof "Enabling interactive mode")
   else ret tt) ;;
  enabled <- Enabled ;;
  name <-
    (if String.eqb name "" || enabled then
       wrap (fun err => invalidName +:+ ": " +:+ err)
         (ask (interactive_GetString C)
            {| Question := "Machine pool name";
               Help := "";
               Options := [];
               Default := VStr name;
               Required := true;
               Validators :=
                 [interactive_RegExp C (Regexp.String machinePoolKeyRE)] |})
     else ret name) ;;
  let name := Go.Trim name spaceTab in
  if negb (Regexp.MatchString machinePoolKeyRE name) then fail invalidName
  else ret name.

Record Placement := {
  subnet : string;
  multiAZMachinePool : bool;
  availabilityZone : string;
}.

(** Lines 169-235: where the pool goes. *)
Definition resolvePlacement (cmd : Command) (cluster : Cluster)
    (args : CreateMachinepoolUserOptions) (fl : FlagState) : M U Placement :=
  (* Allow the user to select subnet for a single AZ BYOVPC cluster *)
  subnet <-
    (if negb (cluster_MultiAZ cluster) && isByoVpc fl then
       call (getSubnetFromUser C cmd (isSubnetSet fl) cluster args)
     else ret "") ;;
  (* Single AZ machine pool for a multi-AZ cluster *)
  if cluster_MultiAZ cluster then
    (* Choosing a single AZ machine pool implicitly (providing
       availability zone or subnet) *)
    let implicit := isAvailabilityZoneSet fl || isSubnetSet fl in
    let isMultiAvailabilityZoneSet :=
      if implicit then true else isMultiAvailabilityZoneSet fl in
    let args := if implicit then set_MultiAvailabilityZone false args else args in
    enabled <- Enabled ;;
    multiAZMachinePool <-
      (if negb isMultiAvailabilityZoneSet && enabled && negb (confirm_Yes C) then
         help <- usage cmd "multi-availability-zone" ;;
         wrap (fun _ => "Expected a valid value for create multi-AZ machine pool")
           (ask (interactive_GetBool C)
              {| Question := "Create multi-AZ machine pool";
                 Help := help;
                 Options := [];
                 Default := VBool true;
                 Required := false;
                 Validators := [] |})
       else ret (MultiAvailabilityZone args)) ;;
    if negb multiAZMachinePool then
      (* Allow to create a single AZ machine pool providing the subnet *)
      subnet <-
        (if isByoVpc fl && String.eqb (AvailabilityZone args) "" then
           call (getSubnetFromUser C cmd (isSubnetSet fl) cluster args)
         else ret subnet) ;;
      (* Select availability zone if the user didn't select subnet *)
      if String.eqb subnet "" then
        availabilityZone <- first (cluster_Nodes_AvailabilityZones cluster) ;;
        enabled <- Enabled ;;
        availabilityZone <-
          (if negb (isAvailabilityZoneSet fl) && enabled then
             help <- usage cmd "availability-zone" ;;
             wrap (fun err => "Expected a valid AWS availability zone: " +:+ err)
               (ask (interactive_GetOption C)
                  {| Question := "AWS availability zone";
                     Help := help;
                     Options := cluster_Nodes_AvailabilityZones cluster;
                     Default := VStr availabilityZone;
                     Required := true;
                     Validators := [] |})
           else if isAvailabilityZoneSet fl then ret (AvailabilityZone args)
           else ret availabilityZone) ;;
        if negb (helper_Contains C (cluster_Nodes_AvailabilityZones cluster)
                   availabilityZone) then
          fail ("Availability zone '" +:+ availabilityZone +:+
                "' doesn't belong to the cluster's availability zones")
        else
          ret {| subnet := subnet; multiAZMachinePool := multiAZMachinePool;
                 availabilityZone := availabilityZone |}
      else
        ret {| subnet := subnet; multiAZMachinePool := multiAZMachinePool;
               availabilityZone := "" |}
    else
      ret {| subnet := subnet; multiAZMachinePool := multiAZMachinePool;
             availabilityZone := "" |}
  else
    ret {| subnet := subnet; multiAZMachinePool := false;
           availabilityZone := "" |}.

Record Scaling := {
  autoscaling : bool;
  minReplicas : Z;
  maxReplicas : Z;
  replicas : Z;
}.

Definition intInput (question help : string) (default : Z)
    (validator : Validator) : Input :=
  {| Question := question; Help := help; Options := [];
     Default := VInt default; Required := true; Validators := [validator] |}.

Definition boolInput (question help : string) (default : bool) : Input :=
  {| Question := question; Help := help; Options := [];
     Default := VBool default; Required := false; Validators := [] |}.

(** Lines 239-258: whether the pool is autoscaled. *)
Definition resolveAutoscaling (cmd : Command)
    (args : CreateMachinepoolUserOptions) : M U bool :=
  let isAutoscalingSet := Changed cmd "enable-autoscaling" in
  let isReplicasSet := Changed cmd "replicas" in
  let autoscaling := AutoscalingEnabled args in
  enabled <- Enabled ;;
  if negb isReplicasSet && negb autoscaling && negb isAutoscalingSet && enabled
  then
    help <- usage cmd "enable-autoscaling" ;;
    wrap (fun err => "Expected a valid value for enable-autoscaling: " +:+ err)
      (ask (interactive_GetBool C) (boolInput "Enable autoscaling" help autoscaling))
  else ret autoscaling.

Definition replicasWithAutoscaling : error :=
  "Replicas can't be set when autoscaling is enabled".
Definition minMaxWithoutAutoscaling : error :=
  "Autoscaling must be enabled in order to set min and max replicas".

(** Lines 237-245 and 260-325: the replica counts. *)
Definition resolveReplicas (cmd : Command)
    (args : CreateMachinepoolUserOptions) (multiAZMachinePool : bool)
    (autoscaling : bool) : M U Scaling :=
  let isMinReplicasSet := Changed cmd "min-replicas" in
  let isMaxReplicasSet := Changed cmd "max-replicas" in
  let isReplicasSet := Changed cmd "replicas" in
  let minReplicas := MinReplicas args in
  let maxReplicas := MaxReplicas args in
  let replicas := Replicas args in
  if autoscaling then
    (* if the user set replicas and enabled autoscaling *)
    if isReplicasSet then fail replicasWithAutoscaling
    else
    enabled <- Enabled ;;
    minReplicas <-
      (if enabled || negb isMinReplicasSet then
         help <- usage cmd "min-replicas" ;;
         wrap (fun err => "Expected a valid number of min replicas: " +:+ err)
           (ask (interactive_GetInt C)
              (intInput "Min replicas" help minReplicas
                 (minReplicaValidator multiAZMachinePool)))
       else ret minReplicas) ;;
    check (minReplicaValidator multiAZMachinePool (VInt minReplicas)) ;;
    enabled <- Enabled ;;
    maxReplicas <-
      (if enabled || negb isMaxReplicasSet then
         help <- usage cmd "max-replicas" ;;
         wrap (fun err => "Expected a valid number of max replicas: " +:+ err)
           (ask (interactive_GetInt C)
              (intInput "Max replicas" help maxReplicas
                 (maxReplicaValidator minReplicas multiAZMachinePool)))
       else ret maxReplicas) ;;
    check (maxReplicaValidator minReplicas multiAZMachinePool (VInt maxReplicas)) ;;
    ret {| autoscaling := autoscaling; minReplicas := minReplicas;
           maxReplicas := maxReplicas; replicas := replicas |}
  else
    (* if the user set min/max replicas and hasn't enabled autoscaling *)
    if isMinReplicasSet || isMaxReplicasSet then fail minMaxWithoutAutoscaling
    else
    enabled <- Enabled ;;
    replicas <-
      (if enabled || negb isReplicasSet then
         help <- usage cmd "replicas" ;;
         wrap (fun err => "Expected a valid number of replicas: " +:+ err)
           (ask (interactive_GetInt C)
              (intInput "Replicas" help replicas
                 (minReplicaValidator multiAZMachinePool)))
       else ret replicas) ;;
    check (minReplicaValidator multiAZMachinePool (VInt replicas)) ;;
    ret {| autoscaling := autoscaling; minReplicas := minReplicas;
           maxReplicas := maxReplicas; replicas := replicas |}.

(** Lines 327-337. *)
Definition resolveSecurityGroups (cmd : Command) (cluster : Cluster)
    (args : CreateMachinepoolUserOptions) (fl : FlagState)
  : M U (list string) :=
  enabled <- Enabled ;;
  securityGroupIds <-
    (if enabled && isVersionCompatibleComputeSgIds fl && isByoVpc fl
        && negb (isSecurityGroupIdsSet fl) then
       call (getSecurityGroupsOption C cmd cluster)
     else ret (SecurityGroupIds args)) ;;
  ret (map (strings_TrimSpace C) securityGroupIds).

(** Lines 339-394: the instance type, checked against the types on
    offer in the zones of the pool; the zones are handed on. *)
Definition resolveInstanceType (cmd : Command) (cluster : Cluster)
    (args : CreateMachinepoolUserOptions) (name : string) (pl : Placement)
  : M U (string * list string) :=
  let instanceType := InstanceType args in
  enabled <- Enabled ;;
  if String.eqb instanceType "" && negb enabled then
    fail "You must supply a valid instance type"
  else
  let spin := Reporter_IsTerminal C && negb (output_HasFlag C) in
  (if spin then
     emit (Infof ("Checking available instance types for machine pool '"
                  +:+ name +:+ "'")) ;;
     emit SpinnerStart
   else ret tt) ;;
  (* Determine machine pool availability zones to filter supported
     machine types *)
  availabilityZonesFilter <-
    getMachinePoolAvailabilityZones cluster (multiAZMachinePool pl)
      (availabilityZone pl) (subnet pl) ;;
  instanceTypeList <-
    wrap (fmt_Errorf C)
      (request "GetAvailableMachineTypesInRegion"
         (cluster_Region_ID cluster :: cluster_AWS_STS_RoleARN cluster
            :: availabilityZonesFilter)
         (OCMClient_GetAvailableMachineTypesInRegion C
            (cluster_Region_ID cluster) availabilityZonesFilter
            (cluster_AWS_STS_RoleARN cluster))) ;;
  (if spin then emit SpinnerStop else ret tt) ;;
  enabled <- Enabled ;;
  instanceType <-
    (if enabled then
       instanceType <-
         (if String.eqb instanceType "" then first (Items instanceTypeList)
          else ret instanceType) ;;
       help <- usage cmd "instance-type" ;;
       wrap (fun err => "Expected a valid instance type: " +:+ err)
         (ask (interactive_GetOption C)
            {| Question := "Instance type";
               Help := help;
               Options := GetAvailableIDs instanceTypeList (cluster_MultiAZ cluster);
               Default := VStr instanceType;
               Required := true;
               Validators := [] |})
     else ret instanceType) ;;
  wrap (fun err => "Expected a valid instance type: " +:+ err)
    (check (ValidateMachineType instanceTypeList instanceType
              (cluster_MultiAZ cluster))) ;;
  ret (instanceType, availabilityZonesFilter).

Record Spot := {
  useSpotInstances : bool;
  spotMaxPrice : string;
  maxPrice : option float;
}.

(** Lines 402-460: spot instances and their price. *)
Definition resolveSpot (cmd : Command) (args : CreateMachinepoolUserOptions)
    (subnet : string) (availabilityZonesFilter : list string) : M U Spot :=
  let isSpotSet := Changed cmd "use-spot-instances" in
  let isSpotMaxPriceSet := Changed cmd "spot-max-price" in
  let useSpotInstances := UseSpotInstances args in
  let spotMaxPrice := SpotMaxPrice args in
  if isSpotMaxPriceSet && isSpotSet && negb useSpotInstances then
    fail "Can't set max price when not using spot instances"
  else
  (* Validate spot instance are supported *)
  isLocalZone <-
    (if negb (String.eqb subnet "") then
       zone <- first availabilityZonesFilter ;;
       request "IsLocalAvailabilityZone" [zone]
         (AWSClient_IsLocalAvailabilityZone C zone)
     else ret false) ;;
  if isLocalZone && useSpotInstances then
    fail "Spot instances are not supported for local zones"
  else
  enabled <- Enabled ;;
  useSpotInstances <-
    (if negb isSpotSet && negb isSpotMaxPriceSet && negb isLocalZone && enabled
     then
       help <- usage cmd "use-spot-instances" ;;
       wrap (fun err => "Expected a valid value for use spot instances: " +:+ err)
         (ask (interactive_GetBool C)
            (boolInput "Use spot instances" help useSpotInstances))
     else ret useSpotInstances) ;;
  enabled <- Enabled ;;
  spotMaxPrice <-
    (if useSpotInstances && negb isSpotMaxPriceSet && enabled then
       help <- usage cmd "spot-max-price" ;;
       wrap (fun err => "Expected a valid value for spot max price: " +:+ err)
         (ask (interactive_GetString C)
            {| Question := "Spot instance max price";
               Help := help;
               Options := [];
               Default := VStr spotMaxPrice;
               Required := false;
               Validators := [spotMaxPriceValidator] |})
     else ret spotMaxPrice) ;;
  check (spotMaxPriceValidator (VStr spotMaxPrice)) ;;
  let maxPrice :=
    if negb (String.eqb spotMaxPrice "on-demand") then
      Some (fst (strconv_ParseFloat C spotMaxPrice (commonUtils_MaxByteSize C)))
    else None in
  ret {| useSpotInstances := useSpotInstances; spotMaxPrice := spotMaxPrice;
         maxPrice := maxPrice |}.

(** Lines 479-492: the AWS part of the payload. *)
Definition awsMpBuilder (sp : Spot) (securityGroupIds : list string)
    (awsTags : gmap string string) : cmv1.AWSMachinePool :=
  {| cmv1.SpotMarketOptions :=
       if useSpotInstances sp then
         Some {| cmv1.MaxPrice :=
                   match maxPrice sp with
                   | Some price => Some price
                   | None => None
                   end |}
       else None;
     cmv1.AdditionalSecurityGroupIds :=
       if (0 <? length securityGroupIds)%nat then securityGroupIds else [];
     cmv1.Tags := if (0 <? size awsTags)%nat then awsTags else ∅ |}.

(** Lines 464-503 and 549-551: the payload. *)
Definition mpBuilder (cluster : Cluster) (name instanceType : string)
    (labelMap : gmap string string) (taintBuilders : list cmv1.Taint)
    (sc : Scaling) (sp : Spot) (securityGroupIds : list string)
    (awsTags : gmap string string) (pl : Placement) (rootVolume : option Z)
  : cmv1.MachinePool :=
  {| cmv1.ID := name;
     cmv1.InstanceType := instanceType;
     cmv1.Labels := labelMap;
     cmv1.Taints := taintBuilders;
     cmv1.Autoscaling :=
       if autoscaling sc then
         Some {| cmv1.MinReplicas := minReplicas sc;
                 cmv1.MaxReplicas := maxReplicas sc |}
       else None;
     cmv1.Replicas := if autoscaling sc then None else Some (replicas sc);
     cmv1.AWS := awsMpBuilder sp securityGroupIds awsTags;
     (* Create a single AZ machine pool for a multi-AZ cluster *)
     cmv1.AvailabilityZones :=
       if cluster_MultiAZ cluster && negb (multiAZMachinePool pl)
          && negb (String.eqb (availabilityZone pl) "")
       then [availabilityZone pl] else [];
     (* Create a single AZ machine pool for a BYOVPC cluster *)
     cmv1.Subnets :=
       if negb (String.eqb (subnet pl) "") then [subnet pl] else [];
     cmv1.RootVolume := rootVolume |}.

(** Lines 505-552: the size of the root disk, when it is not the
    default one. *)
Definition resolveRootDisk (cmd : Command) (cluster : Cluster)
    (args : CreateMachinepoolUserOptions) : M U (option Z) :=
  defaultRootDiskSize <-
    request "GetDefaultClusterFlavors" [cluster_Flavour_ID cluster]
      (fun _ u =>
         let '(size, u') :=
           OCMClient_GetDefaultClusterFlavors C (cluster_Flavour_ID cluster) u in
         (Ret size, u')) ;;
  enabled <- Enabled ;;
  if negb (String.eqb (RootDiskSize args) "") || enabled then
    let rootDiskSizeStr :=
      if String.eqb (RootDiskSize args) "" then
        helper_GigybyteStringer C defaultRootDiskSize
      else RootDiskSize args in
    enabled <- Enabled ;;
    rootDiskSizeStr <-
      (if enabled then
         help <- usage cmd "disk-size" ;;
         wrap (fun err => "Expected a valid machine pool root disk size value: " +:+ err)
           (ask (interactive_GetString C)
              {| Question := "Root disk size (GiB or TiB)";
                 Help := help;
                 Options := [];
                 Default := VStr rootDiskSizeStr;
                 Required := false;
                 Validators :=
                   [interactive_MachinePoolRootDiskSizeValidator C
                      (cluster_Version_RawID cluster)] |})
       else ret rootDiskSizeStr) ;;
    (* Parse the value given by either CLI or interactive mode and
       return it in GigiBytes *)
    rootDiskSize <-
      wrap (fun err => "Expected a valid machine pool root disk size value '"
                       +:+ rootDiskSizeStr +:+ "': " +:+ err)
        (lift (ocm_ParseDiskSizeToGigibyte C rootDiskSizeStr)) ;;
    check (diskValidator_ValidateMachinePoolRootDiskSize C
             (cluster_Version_RawID cluster) rootDiskSize) ;;
    (* If the size given by the user is different than the default, we
       just let the OCM server handle the default root disk size *)
    ret (if negb (rootDiskSize =? defaultRootDiskSize) then Some rootDiskSize
         else None)
  else ret None.

(** Lines 554-575: build, create, report. *)
Definition submitMachinePool (clusterKey : string) (cluster : Cluster)
    (name : string) (builder : cmv1.MachinePool) : M U unit :=
  machinePool <-
    wrap (fun err => "Failed to create machine pool for cluster '" +:+ clusterKey
                     +:+ "': " +:+ err)
      (check (cmv1_MachinePool_Build C builder) ;; ret builder) ;;
  createdMachinePool <-
    wrap (fun err => "Failed to add machine pool to cluster '" +:+ clusterKey
                     +:+ "': " +:+ err)
      (emit (CreateMachinePoolRequest (cluster_ID cluster) machinePool) ;;
       call (OCMClient_CreateMachinePool C (cluster_ID cluster) machinePool)) ;;
  if output_HasFlag C then
    wrap (fun err => "Unable to print machine pool: " +:+ err)
      (emit (PrintMachinePool createdMachinePool) ;;
       call (output_Print_MachinePool C createdMachinePool))
  else
    emit (Infof ("Machine pool '" +:+ name +:+ "' created successfully on cluster '"
                 +:+ clusterKey +:+ "'")) ;;
    emit (Infof ("To view the machine pool details, run 'rosa describe machinepool --cluster "
                 +:+ clusterKey +:+ " --machinepool " +:+ name +:+ "'")) ;;
    emit (Infof ("To view all machine pools, run 'rosa list machinepools --cluster "
                 +:+ clusterKey +:+ "'")).

Definition CreateMachinePool (cmd : Command) (clusterKey : string)
    (cluster : Cluster) (args : CreateMachinepoolUserOptions) : M U unit :=
  fl <- validateFlags cmd cluster args ;;
  hostedClusterOnlyFlags cmd ;;
  name <- resolveName args ;;
  pl <- resolvePlacement cmd cluster args fl ;;
  autoscaling <- resolveAutoscaling cmd args ;;
  sc <- resolveReplicas cmd args (multiAZMachinePool pl) autoscaling ;;
  securityGroupIds <- resolveSecurityGroups cmd cluster args fl ;;
  it <- resolveInstanceType cmd cluster args name pl ;;
  labelMap <- call (mpHelpers_GetLabelMap C cmd ∅ (Labels args)) ;;
  taintBuilders <- call (mpHelpers_GetTaints C cmd [] (Taints args)) ;;
  sp <- resolveSpot cmd args (subnet pl) (snd it) ;;
  awsTags <- call (mpHelpers_GetAwsTags C cmd (Tags args)) ;;
  rootVolume <- resolveRootDisk cmd cluster args ;;
  submitMachinePool clusterKey cluster name
    (mpBuilder cluster name (fst it) labelMap taintBuilders sc sp
       securityGroupIds awsTags pl rootVolume).

(** *** CreateNodePools *)

(** Lines 1104-1113: the private subnets by availability zone. *)
Definition subnetsPerZone (privateSubnets : list AwsSubnet)
  : gmap string (list string) :=
  fold_left
    (fun (subnetsMap : gmap string (list string)) privateSubnet =>
       let subnetsPerAZ :=
         match subnetsMap !! subnet_AvailabilityZone privateSubnet with
         | None => [SubnetId privateSubnet]
         | Some subnetsPerAZ => (subnetsPerAZ ++ [SubnetId privateSubnet])%list
         end in
       <[subnet_AvailabilityZone privateSubnet := subnetsPerAZ]> subnetsMap)
    privateSubnets ∅.

Definition getSubnetFromAvailabilityZone (cmd : Command)
    (isAvailabilityZoneSet : bool) (cluster : Cluster)
    (args : CreateMachinepoolUserOptions) : M U string :=
  subnetID <- first (cluster_AWS_SubnetIDs cluster) ;;
  privateSubnets <-
    request "GetVPCPrivateSubnets" [subnetID]
      (AWSClient_GetVPCPrivateSubnets C subnetID) ;;
  (* Fetching the availability zones from the VPC private subnets *)
  let subnetsMap := subnetsPerZone privateSubnets in
  let availabilityZones := (map_to_list subnetsMap).*1 in
  availabilityZone <- first (cluster_Nodes_AvailabilityZones cluster) ;;
  enabled <- Enabled ;;
  availabilityZone <-
    (if negb isAvailabilityZoneSet && enabled then
       help <- usage cmd "availability-zone" ;;
       wrap (fun err => "Expected a valid AWS availability zone: " +:+ err)
         (ask (interactive_GetOption C)
            {| Question := "AWS availability zone";
               Help := help;
               Options := availabilityZones;
               Default := VStr availabilityZone;
               Required := true;
               Validators := [] |})
     else if isAvailabilityZoneSet then ret (AvailabilityZone args)
     else ret availabilityZone) ;;
  match subnetsMap !! availabilityZone with
  | Some subnets =>
      match subnets with
      | [subnet] => ret subnet
      | _ =>
          emit (Infof ("There are several subnets for availability zone '"
                       +:+ availabilityZone +:+ "'")) ;;
          Enable ;;
          call (getSubnetFromUser C cmd false cluster args)
      end
  | None =>
      fail ("Failed to find a private subnet for '" +:+ availabilityZone
            +:+ "' availability zone")
  end.

(** Lines 687-734: the OpenShift version. *)
Definition resolveVersion (cmd : Command) (cluster : Cluster)
    (args : CreateMachinepoolUserOptions) : M U string :=
  let isVersionSet := Changed cmd "version" in
  let version := Version args in
  enabled <- Enabled ;;
  if isVersionSet || enabled then
    (* NodePool will take channel group from the cluster *)
    let channelGroup := cluster_Version_ChannelGroup cluster in
    let clusterVersion := cluster_Version_RawID cluster in
    versionList <-
      request "GetVersionList" [channelGroup]
        (versions_GetVersionList C channelGroup) ;;
    (* Calculate the minimal version for a new hosted machine pool *)
    minVersion <-
      lift (versions_GetMinimalHostedMachinePoolVersion C clusterVersion) ;;
    (* Filter the available list of versions for a hosted machine pool *)
    let filteredVersionList :=
      versions_GetFilteredVersionList C versionList minVersion clusterVersion in
    let version := if String.eqb version "" then clusterVersion else version in
    enabled <- Enabled ;;
    version <-
      (if enabled then
         help <- usage cmd "version" ;;
         wrap (fun err => "Expected a valid OpenShift version: " +:+ err)
           (ask (interactive_GetOption C)
              {| Question := "OpenShift version";
                 Help := help;
                 Options := filteredVersionList;
                 Default := VStr version;
                 Required := true;
                 Validators := [] |})
       else ret version) ;;
    wrap (fun err => "Expected a valid OpenShift version: " +:+ err)
      (request "ValidateVersion" [version; channelGroup]
         (OCMClient_ValidateVersion C version filteredVersionList channelGroup))
  else ret version.

(** Lines 750-758 and 773-839: the replica counts of a node pool. *)
Definition resolveNodePoolReplicas (cmd : Command)
    (args : CreateMachinepoolUserOptions) (autoscaling : bool) : M U Scaling :=
  let isMinReplicasSet := Changed cmd "min-replicas" in
  let isMaxReplicasSet := Changed cmd "max-replicas" in
  let isReplicasSet := Changed cmd "replicas" in
  let minReplicas := MinReplicas args in
  let maxReplicas := MaxReplicas args in
  let replicas := Replicas args in
  if autoscaling then
    (* if the user set replicas and enabled autoscaling *)
    if isReplicasSet then fail replicasWithAutoscaling
    else
    enabled <- Enabled ;;
    minReplicas <-
      (if enabled || negb isMinReplicasSet then
         help <- usage cmd "min-replicas" ;;
         wrap (fun err => "Expected a valid number of min replicas: " +:+ err)
           (ask (interactive_GetInt C)
              (intInput "Min replicas" help minReplicas
                 (mpHelpers_MinNodePoolReplicaValidator C true)))
       else ret minReplicas) ;;
    check (mpHelpers_MinNodePoolReplicaValidator C true (VInt minReplicas)) ;;
    enabled <- Enabled ;;
    maxReplicas <-
      (if enabled || negb isMaxReplicasSet then
         help <- usage cmd "max-replicas" ;;
         wrap (fun err => "Expected a valid number of max replicas: " +:+ err)
           (ask (interactive_GetInt C)
              (intInput "Max replicas" help maxReplicas
                 (mpHelpers_MaxNodePoolReplicaValidator C minReplicas)))
       else ret maxReplicas) ;;
    check (mpHelpers_MaxNodePoolReplicaValidator C minReplicas (VInt maxReplicas)) ;;
    ret {| autoscaling := autoscaling; minReplicas := minReplicas;
           maxReplicas := maxReplicas; replicas := replicas |}
  else
    (* if the user set min/max replicas and hasn't enabled autoscaling *)
    if isMinReplicasSet || isMaxReplicasSet then fail minMaxWithoutAutoscaling
    else
    enabled <- Enabled ;;
    replicas <-
      (if enabled || negb isReplicasSet then
         help <- usage cmd "replicas" ;;
         wrap (fun err => "Expected a valid number of replicas: " +:+ err)
           (ask (interactive_GetInt C)
              (intInput "Replicas" help replicas
                 (mpHelpers_MinNodePoolReplicaValidator C false)))
       else ret replicas) ;;
    check (mpHelpers_MinNodePoolReplicaValidator C false (VInt replicas)) ;;
    ret {| autoscaling := autoscaling; minReplicas := minReplicas;
           maxReplicas := maxReplicas; replicas := replicas |}.

(** Lines 847-862. *)
Definition resolveNodePoolSecurityGroups (cmd : Command) (cluster : Cluster)
    (args : CreateMachinepoolUserOptions) (version : string)
  : M U (list string) :=
  let isSecurityGroupIdsSet :=
    Changed cmd (securitygroups_MachinePoolSecurityGroupFlag C) in
  isVersionCompatibleSecurityGroupIds <-
    lift (features_IsFeatureSupported C
            (features_AdditionalDay2SecurityGroupsHcpFeature C) version) ;;
  enabled <- Enabled ;;
  securityGroupIds <-
    (if enabled && negb isSecurityGroupIdsSet
        && isVersionCompatibleSecurityGroupIds then
       call (getSecurityGroupsOption C cmd cluster)
     else ret (SecurityGroupIds args)) ;;
  ret (map (strings_TrimSpace C) securityGroupIds).

(** Lines 883-942: the instance type of a node pool. *)
Definition resolveNodePoolInstanceType (cmd : Command) (cluster : Cluster)
    (args : CreateMachinepoolUserOptions) (name subnet : string) : M U string :=
  let instanceType := InstanceType args in
  enabled <- Enabled ;;
  if String.eqb instanceType "" && negb enabled then
    fail "You must supply a valid instance type"
  else
  let spin := Reporter_IsTerminal C && negb (output_HasFlag C) in
  (if spin then
     emit (Infof ("Checking available instance types for machine pool '"
                  +:+ name +:+ "'")) ;;
     emit SpinnerStart
   else ret tt) ;;
  (* If the user selects a subnet which is in a different AZ than day 1,
     the instance type list should be filter by the new AZ not the
     cluster ones *)
  availabilityZonesFilter <-
    (if negb (String.eqb subnet "") then
       availabilityZone <-
         wrap (fmt_Errorf C)
           (request "GetSubnetAvailabilityZone" [subnet]
              (AWSClient_GetSubnetAvailabilityZone C subnet)) ;;
       ret [availabilityZone]
     else ret (cluster_Nodes_AvailabilityZones cluster)) ;;
  instanceTypeList <-
    wrap (fmt_Errorf C)
      (request "GetAvailableMachineTypesInRegion"
         (cluster_Region_ID cluster :: cluster_AWS_STS_RoleARN cluster
            :: availabilityZonesFilter)
         (OCMClient_GetAvailableMachineTypesInRegion C
            (cluster_Region_ID cluster) availabilityZonesFilter
            (cluster_AWS_STS_RoleARN cluster))) ;;
  (if spin then emit SpinnerStop else ret tt) ;;
  enabled <- Enabled ;;
  instanceType <-
    (if enabled then
       instanceType <-
         (if String.eqb instanceType "" then first (Items instanceTypeList)
          else ret instanceType) ;;
       help <- usage cmd "instance-type" ;;
       wrap (fun err => "Expected a valid instance type: " +:+ err)
         (ask (interactive_GetOption C)
            {| Question := "Instance type";
               Help := help;
               Options := GetAvailableIDs instanceTypeList (cluster_MultiAZ cluster);
               Default := VStr instanceType;
               Required := true;
               Validators := [] |})
     else ret instanceType) ;;
  wrap (fun err => "Expected a valid instance type: " +:+ err)
    (check (ValidateMachineType instanceTypeList instanceType
              (cluster_MultiAZ cluster))) ;;
  ret instanceType.

(** Lines 944-955. *)
Definition resolveAutorepair (cmd : Command)
    (args : CreateMachinepoolUserOptions) : M U bool :=
  enabled <- Enabled ;;
  if enabled then
    help <- usage cmd "autorepair" ;;
    wrap (fun err => "Expected a valid value for autorepair: " +:+ err)
      (ask (interactive_GetBool C) (boolInput "Autorepair" help (Autorepair args)))
  else ret (Autorepair args).

Definition multiInput (question help : string) (options default : list string)
    (validators : list Validator) : Input :=
  {| Question := question; Help := help; Options := options;
     Default := VStrs default; Required := false; Validators := validators |}.

(** Lines 959-989. *)
Definition resolveTuningConfigs (cmd : Command) (cluster : Cluster)
    (args : CreateMachinepoolUserOptions) : M U (list string) :=
  let tuningConfigs := TuningConfigs args in
  (* Get the list of available tuning configs *)
  availableTuningConfigs <-
    request "GetTuningConfigsName" [cluster_ID cluster]
      (OCMClient_GetTuningConfigsName C (cluster_ID cluster)) ;;
  inputTuningConfig <-
    (if negb (String.eqb tuningConfigs "") then
       if (0 <? length availableTuningConfigs)%nat then
         ret (Go.Split tuningConfigs ",")
       else
         (* Parameter will be ignored *)
         emit (Warnf ("No tuning config available for cluster '"
                      +:+ cluster_ID cluster +:+ "'. "
                      +:+ "Any tuning config in input will be ignored")) ;;
         ret []
     else ret []) ;;
  enabled <- Enabled ;;
  if enabled then
    (* Skip if no tuning configs are available *)
    if (0 <? length availableTuningConfigs)%nat then
      help <- usage cmd "tuning-configs" ;;
      wrap (fun err => "Expected a valid value for tuning configs: " +:+ err)
        (ask (interactive_GetMultipleOptions C)
           (multiInput "Tuning configs" help availableTuningConfigs
              inputTuningConfig []))
    else ret inputTuningConfig
  else ret inputTuningConfig.

(** Lines 995-1040. *)
Definition resolveKubeletConfigs (cmd : Command) (cluster : Cluster)
    (args : CreateMachinepoolUserOptions) : M U (list string) :=
  let kubeletConfigs := KubeletConfigs args in
  enabled <- Enabled ;;
  if negb (String.eqb kubeletConfigs "") || enabled then
    (* Get the list of available kubelet configs *)
    availableKubeletConfigs <-
      request "ListKubeletConfigNames" [cluster_ID cluster]
        (OCMClient_ListKubeletConfigNames C (cluster_ID cluster)) ;;
    inputKubeletConfigs <-
      (if (0 <? length availableKubeletConfigs)%nat then
         ret (Go.Split kubeletConfigs ",")
       else
         (* Parameter will be ignored *)
         emit (Warnf ("No kubelet configs available for cluster '"
                      +:+ cluster_ID cluster +:+ "'. "
                      +:+ "Any kubelet config in input will be ignored")) ;;
         ret []) ;;
    enabled <- Enabled ;;
    inputKubeletConfigs <-
      (if enabled then
         (* Skip if no kubelet configs are available *)
         if (0 <? length availableKubeletConfigs)%nat then
           help <- usage cmd "kubelet-configs" ;;
           wrap (fun err => "Expected a valid value for kubelet config: " +:+ err)
             (ask (interactive_GetMultipleOptions C)
                (multiInput "Kubelet config" help availableKubeletConfigs
                   inputKubeletConfigs [ValidateKubeletConfig C]))
         else ret inputKubeletConfigs
       else ret inputKubeletConfigs) ;;
    wrap (fmt_Errorf C)
      (check (ValidateKubeletConfig C (VStrs inputKubeletConfigs))) ;;
    ret inputKubeletConfigs
  else ret [].

(** Lines 1044-1065. *)
Definition resolveNodeDrainGracePeriod (cmd : Command)
    (args : CreateMachinepoolUserOptions) : M U (option (Z * string)) :=
  enabled <- Enabled ;;
  nodeDrainGracePeriod <-
    (if enabled then
       help <- usage cmd "node-drain-grace-period" ;;
       wrap (fun err => "Expected a valid value for Node drain grace period: " +:+ err)
         (ask (interactive_GetString C)
            {| Question := "Node drain grace period";
               Help := help;
               Options := [];
               Default := VStr (NodeDrainGracePeriod args);
               Required := false;
               Validators := [mpHelpers_ValidateNodeDrainGracePeriod C] |})
     else ret (NodeDrainGracePeriod args)) ;;
  if negb (String.eqb nodeDrainGracePeriod "") then
    nodeDrainBuilder <-
      wrap (fmt_Errorf C)
        (lift (mpHelpers_CreateNodeDrainGracePeriodBuilder C nodeDrainGracePeriod)) ;;
    ret (Some nodeDrainBuilder)
  else ret None.

(** The payload of a node pool, as lines 866-881, 957, 991-993,
    1037-1042, 1064 and 1067-1069 assemble it. *)
Definition npBuilder (name : string) (labelMap : gmap string string)
    (taintBuilders : list cmv1.Taint) (sc : Scaling) (subnet : string)
    (autorepair : bool) (inputTuningConfig inputKubeletConfigs : list string)
    (aws : cmv1.AWSNodePool) (nodeDrain : option (Z * string))
    (version : string) : cmv1.NodePool :=
  {| cmv1.np_ID := name;
     cmv1.np_Labels := labelMap;
     cmv1.np_Taints := taintBuilders;
     cmv1.np_Autoscaling :=
       if autoscaling sc then
         Some {| cmv1.MinReplica := minReplicas sc;
                 cmv1.MaxReplica := maxReplicas sc |}
       else None;
     cmv1.np_Replicas := if autoscaling sc then None else Some (replicas sc);
     cmv1.np_Subnet := if negb (String.eqb subnet "") then Some subnet else None;
     cmv1.np_AutoRepair := Some autorepair;
     cmv1.np_TuningConfigs :=
       if negb (length inputTuningConfig =? 0)%nat then inputTuningConfig else [];
     cmv1.np_KubeletConfigs :=
       if negb (length inputKubeletConfigs =? 0)%nat then inputKubeletConfigs
       else [];
     cmv1.np_AWSNodePool := Some aws;
     cmv1.np_NodeDrainGracePeriod := nodeDrain;
     cmv1.np_Version := if negb (String.eqb version "") then Some version else None |}.

(** Lines 1071-1092. *)
Definition submitNodePool (clusterKey : string) (cluster : Cluster)
    (name : string) (builder : cmv1.NodePool) : M U unit :=
  nodePool <-
    wrap (fun err => "Failed to create machine pool for hosted cluster '"
                     +:+ clusterKey +:+ "': " +:+ err)
      (check (cmv1_NodePool_Build C builder) ;; ret builder) ;;
  createdNodePool <-
    wrap (fun err => "Failed to add machine pool to hosted cluster '"
                     +:+ clusterKey +:+ "': " +:+ err)
      (emit (CreateNodePoolRequest (cluster_ID cluster) nodePool) ;;
       call (OCMClient_CreateNodePool C (cluster_ID cluster) nodePool)) ;;
  if output_HasFlag C then
    wrap (fun err => "Unable to print machine pool: " +:+ err)
      (emit (PrintNodePool createdNodePool) ;;
       call (output_Print_NodePool C createdNodePool))
  else
    emit (Infof ("Machine pool '" +:+ cmv1.np_ID createdNodePool
                 +:+ "' created successfully on hosted cluster '"
                 +:+ clusterKey +:+ "'")) ;;
    emit (Infof ("To view the machine pool details, run 'rosa describe machinepool --cluster "
                 +:+ clusterKey +:+ " --machinepool " +:+ name +:+ "'")) ;;
    emit (Infof ("To view all machine pools, run 'rosa list machinepools --cluster "
                 +:+ clusterKey +:+ "'")).

Definition CreateNodePools (cmd : Command) (clusterKey : string)
    (cluster : Cluster) (args : CreateMachinepoolUserOptions) : M U unit :=
  let isAvailabilityZoneSet := Changed cmd "availability-zone" in
  let isSubnetSet := Changed cmd "subnet" in
  if isSubnetSet && isAvailabilityZoneSet then fail conflictMessage
  else
  name <- resolveName args ;;
  version <- resolveVersion cmd cluster args ;;
  (* Allow the user to select subnet for a single AZ BYOVPC cluster *)
  subnet <- call (getSubnetFromUser C cmd isSubnetSet cluster args) ;;
  (* Select availability zone if the user didn't select subnet *)
  subnet <-
    (if String.eqb subnet "" then
       getSubnetFromAvailabilityZone cmd isAvailabilityZoneSet cluster args
     else ret subnet) ;;
  autoscaling <- resolveAutoscaling cmd args ;;
  sc <- resolveNodePoolReplicas cmd args autoscaling ;;
  labelMap <- call (mpHelpers_GetLabelMap C cmd ∅ (Labels args)) ;;
  taintBuilders <- call (mpHelpers_GetTaints C cmd [] (Taints args)) ;;
  securityGroupIds <- resolveNodePoolSecurityGroups cmd cluster args version ;;
  awsTags <- call (mpHelpers_GetAwsTags C cmd (Tags args)) ;;
  instanceType <- resolveNodePoolInstanceType cmd cluster args name subnet ;;
  autorepair <- resolveAutorepair cmd args ;;
  inputTuningConfig <- resolveTuningConfigs cmd cluster args ;;
  inputKubeletConfigs <- resolveKubeletConfigs cmd cluster args ;;
  nodeDrain <- resolveNodeDrainGracePeriod cmd args ;;
  submitNodePool clusterKey cluster name
    (npBuilder name labelMap taintBuilders sc subnet autorepair
       inputTuningConfig inputKubeletConfigs
       (createAwsNodePoolBuilder C instanceType securityGroupIds awsTags)
       nodeDrain version).

End Program.


(** ** The two functions cut in phases

    The beginning of each function as a computation of its own, so that
    a statement can speak of the runs that reach a given line. *)

Section Phases.

Context {U : Type} (C : Collaborators U).

Record ScalingMode := {
  sm_flags : FlagState;
  sm_name : string;
  sm_placement : Placement;
  sm_autoscaling : bool;
}.

(** CreateMachinePool down to line 258, where [autoscaling] is known. *)
Definition machinePoolScalingMode (cmd : Command) (cluster : Cluster)
    (args : CreateMachinepoolUserOptions) : M U ScalingMode :=
  fl <- validateFlags C cmd cluster args ;;
  hostedClusterOnlyFlags C cmd ;;
  name <- resolveName C args ;;
  pl <- resolvePlacement C cmd cluster args fl ;;
  autoscaling <- resolveAutoscaling C cmd args ;;
  ret {| sm_flags := fl; sm_name := name; sm_placement := pl;
         sm_autoscaling := autoscaling |}.

Record BeforeSpot := {
  bs_mode : ScalingMode;
  bs_scaling : Scaling;
  bs_securityGroupIds : list string;
  bs_instanceType : string;
  bs_availabilityZonesFilter : list string;
  bs_labelMap : gmap string string;
  bs_taintBuilders : list cmv1.Taint;
}.

(** CreateMachinePool down to line 400, before the spot instances. *)
Definition machinePoolBeforeSpot (cmd : Command) (cluster : Cluster)
    (args : CreateMachinepoolUserOptions) : M U BeforeSpot :=
  sm <- machinePoolScalingMode cmd cluster args ;;
  sc <- resolveReplicas C cmd args (multiAZMachinePool (sm_placement sm))
          (sm_autoscaling sm) ;;
  securityGroupIds <- resolveSecurityGroups C cmd cluster args (sm_flags sm) ;;
  it <- resolveInstanceType C cmd cluster args (sm_name sm) (sm_placement sm) ;;
  labelMap <- call (mpHelpers_GetLabelMap C cmd ∅ (Labels args)) ;;
  taintBuilders <- call (mpHelpers_GetTaints C cmd [] (Taints args)) ;;
  ret {| bs_mode := sm; bs_scaling := sc;
         bs_securityGroupIds := securityGroupIds;
         bs_instanceType := fst it; bs_availabilityZonesFilter := snd it;
         bs_labelMap := labelMap; bs_taintBuilders := taintBuilders |}.

Record Resolved := {
  rs_before : BeforeSpot;
  rs_spot : Spot;
  rs_awsTags : gmap string string;
  rs_rootVolume : option Z;
}.

(** CreateMachinePool down to line 552, before [Build]. *)
Definition machinePoolResolved (cmd : Command) (cluster : Cluster)
    (args : CreateMachinepoolUserOptions) : M U Resolved :=
  bs <- machinePoolBeforeSpot cmd cluster args ;;
  sp <- resolveSpot C cmd args (subnet (sm_placement (bs_mode bs)))
          (bs_availabilityZonesFilter bs) ;;
  awsTags <- call (mpHelpers_GetAwsTags C cmd (Tags args)) ;;
  rootVolume <- resolveRootDisk C cmd cluster args ;;
  ret {| rs_before := bs; rs_spot := sp; rs_awsTags := awsTags;
         rs_rootVolume := rootVolume |}.

(** The payload that the locals of a run make. *)
Definition machinePoolPayload (cluster : Cluster) (rs : Resolved)
  : cmv1.MachinePool :=
  let bs := rs_before rs in
  mpBuilder cluster (sm_name (bs_mode bs)) (bs_instanceType bs)
    (bs_labelMap bs) (bs_taintBuilders bs) (bs_scaling bs) (rs_spot rs)
    (bs_securityGroupIds bs) (rs_awsTags rs) (sm_placement (bs_mode bs))
    (rs_rootVolume rs).

Record NodePoolScalingMode := {
  nm_name : string;
  nm_version : string;
  nm_subnet : string;
  nm_autoscaling : bool;
}.

(** CreateNodePools from line 663 down to line 771. *)
Definition nodePoolScalingMode (cmd : Command) (cluster : Cluster)
    (args : CreateMachinepoolUserOptions) : M U NodePoolScalingMode :=
  name <- resolveName C args ;;
  version <- resolveVersion C cmd cluster args ;;
  subnet <- call (getSubnetFromUser C cmd (Changed cmd "subnet") cluster args) ;;
  subnet <-
    (if String.eqb subnet "" then
       getSubnetFromAvailabilityZone C cmd (Changed cmd "availability-zone")
         cluster args
     else ret subnet) ;;
  autoscaling <- resolveAutoscaling C cmd args ;;
  ret {| nm_name := name; nm_version := version; nm_subnet := subnet;
         nm_autoscaling := autoscaling |}.

Record NodePoolResolved := {
  nr_mode : NodePoolScalingMode;
  nr_scaling : Scaling;
  nr_labelMap : gmap string string;
  nr_taintBuilders : list cmv1.Taint;
  nr_securityGroupIds : list string;
  nr_awsTags : gmap string string;
  nr_instanceType : string;
  nr_autorepair : bool;
  nr_tuningConfigs : list string;
  nr_kubeletConfigs : list string;
  nr_nodeDrain : option (Z * string);
}.

(** CreateNodePools from line 663 down to line 1069, before [Build]. *)
Definition nodePoolResolved (cmd : Command) (cluster : Cluster)
    (args : CreateMachinepoolUserOptions) : M U NodePoolResolved :=
  nm <- nodePoolScalingMode cmd cluster args ;;
  sc <- resolveNodePoolReplicas C cmd args (nm_autoscaling nm) ;;
  labelMap <- call (mpHelpers_GetLabelMap C cmd ∅ (Labels args)) ;;
  taintBuilders <- call (mpHelpers_GetTaints C cmd [] (Taints args)) ;;
  securityGroupIds <-
    resolveNodePoolSecurityGroups C cmd cluster args (nm_version nm) ;;
  awsTags <- call (mpHelpers_GetAwsTags C cmd (Tags args)) ;;
  instanceType <-
    resolveNodePoolInstanceType C cmd cluster args (nm_name nm) (nm_subnet nm) ;;
  autorepair <- resolveAutorepair C cmd args ;;
  inputTuningConfig <- resolveTuningConfigs C cmd cluster args ;;
  inputKubeletConfigs <- resolveKubeletConfigs C cmd cluster args ;;
  nodeDrain <- resolveNodeDrainGracePeriod C cmd args ;;
  ret {| nr_mode := nm; nr_scaling := sc; nr_labelMap := labelMap;
         nr_taintBuilders := taintBuilders;
         nr_securityGroupIds := securityGroupIds; nr_awsTags := awsTags;
         nr_instanceType := instanceType; nr_autorepair := autorepair;
         nr_tuningConfigs := inputTuningConfig;
         nr_kubeletConfigs := inputKubeletConfigs; nr_nodeDrain := nodeDrain |}.

Definition nodePoolPayload (nr : NodePoolResolved) : cmv1.NodePool :=
  let nm := nr_mode nr in
  npBuilder (nm_name nm) (nr_labelMap nr) (nr_taintBuilders nr)
    (nr_scaling nr) (nm_subnet nm) (nr_autorepair nr) (nr_tuningConfigs nr)
    (nr_kubeletConfigs nr)
    (createAwsNodePoolBuilder C (nr_instanceType nr) (nr_securityGroupIds nr)
       (nr_awsTags nr))
    (nr_nodeDrain nr) (nm_version nm).

(** The world in which the answer of [IsLocalAvailabilityZone] comes:
    the request is in the trace. *)
Definition afterLocalZoneRequest (zone : string) (u : U) (w : World U)
  : World U :=
  mkWorld (interactive_Enabled w)
    (trace w ++ [Request "IsLocalAvailabilityZone" [zone]]) u.

End Phases.

(** ** A stand-in for the collaborators

    A small deterministic instance, on which the functions can be run:
    nobody at the terminal changes a default, the control plane accepts
    what it is sent, and the cloud account has three subnets. *)

Module Double.

Definition answer {A} (a : A) : ext unit A := fun _ u => (Ret a, u).

(** The leading decimal digits of [s]: their value on top of [acc],
    how many they are, and what follows them. *)
Fixpoint digits (s : string) (acc : Z) (n : nat) : Z * nat * string :=
  match s with
  | String c rest =>
      if Ascii.leb "0" c && Ascii.leb c "9" then
        digits rest (10 * acc + (Z.of_nat (nat_of_ascii c) - 48)) (S n)
      else (acc, n, s)
  | EmptyString => (acc, n, s)
  end.

Definition ofZ (n : Z) : float := PrimFloat.of_uint63 (Uint63.of_Z n).

(** [strconv.ParseFloat] on the plain decimal literals of at most
    fifteen digits, with or without a sign and a fraction: mantissa
    and power of ten are then floats exactly, and one division gives
    the nearest float, as in the exact path of [strconv].  Any other
    text is treated as a syntax error. *)
Definition ParseFloat (s : string) (bitSize : Z) : float * err_or_nil :=
  let '(neg, body) :=
    match s with
    | String "+" rest => (false, rest)
    | String "-" rest => (true, rest)
    | _ => (false, s)
    end in
  let '(whole, n1, rest) := digits body 0 0 in
  let '(mantissa, n2, rest) :=
    match rest with
    | String "." fraction => digits fraction whole 0
    | _ => (whole, 0%nat, rest)
    end in
  if String.eqb rest "" && (0 <? n1 + n2)%nat && (n1 + n2 <=? 15)%nat then
    let f := PrimFloat.div (ofZ mantissa) (ofZ (10 ^ Z.of_nat n2)) in
    (if neg : bool then PrimFloat.opp f else f, None)
  else (PrimFloat.zero, Some (Go.syntaxError "ParseFloat" s)).

Definition machineTypes : MachineTypeList :=
  {| Items := ["m5.xlarge"; "m5.2xlarge"];
     GetAvailableIDs := fun _ => ["m5.xlarge"; "m5.2xlarge"];
     ValidateMachineType := fun id _ =>
       if existsb (String.eqb id) ["m5.xlarge"; "m5.2xlarge"] then None
       else Some ("Machine type '" +:+ id +:+ "' is not supported") |}.

Definition subnets : list AwsSubnet :=
  [ {| SubnetId := "subnet-a"; subnet_AvailabilityZone := "us-east-1a" |};
    {| SubnetId := "subnet-b"; subnet_AvailabilityZone := "us-east-1b" |};
    {| SubnetId := "subnet-l";
       subnet_AvailabilityZone := "us-east-1-bos-1a" |} ].

Definition zoneOf (subnet : string) : outcome string :=
  match List.find (fun s => String.eqb (SubnetId s) subnet) subnets with
  | Some s => Ret (subnet_AvailabilityZone s)
  | None => Fail ("subnet '" +:+ subnet +:+ "' not found")
  end.

Definition defaultOf (input : Input) : value := Default input.

Definition collaborators : Collaborators unit :=
  {| strconv_ParseFloat := ParseFloat;
     strings_TrimSpace := fun s => Go.Trim s spaceTab;
     fmt_Errorf := fun s => s;
     commonUtils_MaxByteSize := 64;
     diskValidator_ValidateMachinePoolRootDiskSize := fun _ _ => None;
     interactive_GetString := fun input =>
       answer match defaultOf input with VStr s => s | _ => "" end;
     interactive_GetBool := fun input =>
       answer match defaultOf input with VBool b => b | _ => false end;
     interactive_GetInt := fun input =>
       answer match defaultOf input with VInt n => n | _ => 0 end;
     interactive_GetOption := fun input =>
       answer match defaultOf input with VStr s => s | _ => "" end;
     interactive_GetMultipleOptions := fun input =>
       answer match defaultOf input with VStrs l => l | _ => [] end;
     interactive_RegExp := fun _ _ => None;
     interactive_MachinePoolRootDiskSizeValidator := fun _ _ => None;
     confirm_Yes := false;
     securitygroups_MachinePoolSecurityGroupFlag := "additional-security-group-ids";
     helper_IsBYOVPC := fun cluster =>
       (0 <? length (cluster_AWS_SubnetIDs cluster))%nat;
     helper_Contains := fun l x => existsb (String.eqb x) l;
     helper_GigybyteStringer := fun n => Go.FormatInt n +:+ " GiB";
     features_AdditionalDay2SecurityGroupsHcpFeature :=
       "AdditionalDay2SecurityGroupsHcpFeature";
     features_IsFeatureSupported := fun _ _ => inr true;
     versions_IsGreaterThanOrEqual := fun version minimum =>
       inr (negb (String.ltb version minimum));
     versions_FormatMajorMinorPatch := fun version => inr version;
     versions_MajorMinorPatchFormattedErrorOutput := fun err => err;
     versions_GetVersionList := fun _ => answer ["4.14.0"; "4.15.0"];
     versions_GetMinimalHostedMachinePoolVersion := fun version => inr version;
     versions_GetFilteredVersionList := fun l _ _ => l;
     mpHelpers_HostedClusterOnlyFlag := fun _ _ => answer tt;
     mpHelpers_GetLabelMap := fun _ existing _ => answer existing;
     mpHelpers_GetTaints := fun _ existing _ => answer existing;
     mpHelpers_GetAwsTags := fun _ _ => answer ∅;
     mpHelpers_MinNodePoolReplicaValidator := fun _ => minReplicaValidator false;
     mpHelpers_MaxNodePoolReplicaValidator := fun minReplicas =>
       maxReplicaValidator minReplicas false;
     mpHelpers_ValidateNodeDrainGracePeriod := fun _ => None;
     mpHelpers_CreateNodeDrainGracePeriodBuilder := fun _ => inr (1, "minute");
     ocm_MinVersionForAdditionalComputeSecurityGroupIdsDay2 := "4.11.0";
     ocm_ParseDiskSizeToGigibyte := fun _ => inr 300;
     OCMClient_GetAvailableMachineTypesInRegion := fun _ _ _ =>
       answer machineTypes;
     OCMClient_GetDefaultClusterFlavors := fun _ u => (300, u);
     OCMClient_CreateMachinePool := fun _ machinePool => answer machinePool;
     OCMClient_ValidateVersion := fun version _ _ => answer version;
     OCMClient_GetTuningConfigsName := fun _ => answer [];
     OCMClient_ListKubeletConfigNames := fun _ => answer [];
     OCMClient_CreateNodePool := fun _ nodePool => answer nodePool;
     cmv1_MachinePool_Build := fun _ => None;
     cmv1_NodePool_Build := fun _ => None;
     AWSClient_GetSubnetAvailabilityZone := fun subnet _ u => (zoneOf subnet, u);
     AWSClient_IsLocalAvailabilityZone := fun zone =>
       answer (String.eqb zone "us-east-1-bos-1a");
     AWSClient_GetVPCPrivateSubnets := fun _ => answer subnets;
     Reporter_IsTerminal := false;
     output_HasFlag := false;
     output_Print_MachinePool := fun _ => answer tt;
     output_Print_NodePool := fun _ => answer tt;
     getSubnetFromUser := fun _ _ _ args => answer (Subnet args);
     getSecurityGroupsOption := fun _ _ => answer [];
     ValidateKubeletConfig := fun _ => None;
     createAwsNodePoolBuilder := fun instanceType securityGroupIds awsTags =>
       {| cmv1.np_InstanceType := instanceType;
          cmv1.np_AdditionalSecurityGroupIds := securityGroupIds;
          cmv1.np_Tags := awsTags |} |}.

(** A command line: the flags that were given. *)
Definition flags (given : list string) : Command :=
  list_to_map (map (fun name => (name, {| Usage := ""; flag_Changed := true |}))
                   given).

(** NewCreateMachinepoolUserOptions with the defaults of the flags,
    and the fields that the examples set. *)
Definition optionsOf (name : string) (autoscaling : bool)
    (minReplicas maxReplicas replicas : Z) (useSpot : bool)
    (price subnet : string) : CreateMachinepoolUserOptions :=
  {| Name := name;
     InstanceType := "m5.xlarge";
     Replicas := replicas;
     AutoscalingEnabled := autoscaling;
     MinReplicas := minReplicas;
     MaxReplicas := maxReplicas;
     Labels := "";
     Taints := "";
     UseSpotInstances := useSpot;
     SpotMaxPrice := price;
     MultiAvailabilityZone := true;
     AvailabilityZone := "";
     Subnet := subnet;
     Version := "";
     Autorepair := true;
     TuningConfigs := "";
     KubeletConfigs := "";
     RootDiskSize := "";
     SecurityGroupIds := [];
     NodeDrainGracePeriod := "";
     Tags := [] |}.

Definition options : CreateMachinepoolUserOptions :=
  optionsOf "machinepool1" false 0 0 0 false "on-demand" "".

(** A classic cluster in one zone, in a network of the platform. *)
Definition cluster : Cluster :=
  {| cluster_ID := "24vf9iitg3p6tlml88iml6j6mu095mh8";
     cluster_MultiAZ := false;
     cluster_Version_RawID := "4.14.0";
     cluster_Version_ChannelGroup := "stable";
     cluster_Nodes_AvailabilityZones := ["us-east-1a"];
     cluster_Region_ID := "us-east-1";
     cluster_AWS_STS_RoleARN := "arn:aws:iam::123456789012:role/Installer";
     cluster_AWS_SubnetIDs := [];
     cluster_Flavour_ID := "osd-4";
     cluster_Hypershift_Enabled := false |}.

(** A classic cluster in two zones, in a network of the customer. *)
Definition multiAZCluster : Cluster :=
  {| cluster_ID := "24vf9iitg3p6tlml88iml6j6mu095mh8";
     cluster_MultiAZ := true;
     cluster_Version_RawID := "4.14.0";
     cluster_Version_ChannelGroup := "stable";
     cluster_Nodes_AvailabilityZones := ["us-east-1a"; "us-east-1b"];
     cluster_Region_ID := "us-east-1";
     cluster_AWS_STS_RoleARN := "arn:aws:iam::123456789012:role/Installer";
     cluster_AWS_SubnetIDs := ["subnet-a"; "subnet-b"];
     cluster_Flavour_ID := "osd-4";
     cluster_Hypershift_Enabled := false |}.

(** A classic cluster in one zone, in a network of the customer. *)
Definition byoCluster : Cluster :=
  {| cluster_ID := "24vf9iitg3p6tlml88iml6j6mu095mh8";
     cluster_MultiAZ := false;
     cluster_Version_RawID := "4.14.0";
     cluster_Version_ChannelGroup := "stable";
     cluster_Nodes_AvailabilityZones := ["us-east-1a"];
     cluster_Region_ID := "us-east-1";
     cluster_AWS_STS_RoleARN := "arn:aws:iam::123456789012:role/Installer";
     cluster_AWS_SubnetIDs := ["subnet-a"];
     cluster_Flavour_ID := "osd-4";
     cluster_Hypershift_Enabled := false |}.

(** The same on a version before the minimum for security groups. *)
Definition oldCluster : Cluster :=
  {| cluster_ID := "24vf9iitg3p6tlml88iml6j6mu095mh8";
     cluster_MultiAZ := true;
     cluster_Version_RawID := "4.10.0";
     cluster_Version_ChannelGroup := "stable";
     cluster_Nodes_AvailabilityZones := ["us-east-1a"; "us-east-1b"];
     cluster_Region_ID := "us-east-1";
     cluster_AWS_STS_RoleARN := "arn:aws:iam::123456789012:role/Installer";
     cluster_AWS_SubnetIDs := ["subnet-a"; "subnet-b"];
     cluster_Flavour_ID := "osd-4";
     cluster_Hypershift_Enabled := false |}.

(** The start of a run from a script: no prompts, nothing done yet. *)
Definition batch : World unit := mkWorld false [] tt.

End Double.

(** Runs on the stand-in. *)
Module Examples.
Import Double.

(** CreateMachinePool from a script, with the flags that were given. *)
Definition run (given : list string) (cluster : Cluster)
    (args : CreateMachinepoolUserOptions) : outcome unit * World unit :=
  CreateMachinePool collaborators (flags given) "mycluster" cluster args batch.

Definition sgFlag : string := "additional-security-group-ids".

End Examples.

(** ** What a run leaves behind, for the statements on whole runs *)

Section Runs.

Context {U : Type}.

Definition isAsked (e : Event) : bool :=
match e with
| Asked _ => true
| _ => false
end.

(** The questions put to the user by the function itself, in order. *)
Definition questions (trace : list Event) : list Event :=
List.filter isAsked trace.

(** A run from [w] to [w'] with result [r] created nothing and did not
    succeed, or asked once for the creation of a machine pool that
    satisfies [P], on the cluster. *)
Definition createsMachinePool (cluster : Cluster)
  (P : cmv1.MachinePool -> Prop) (w : World U) (r : outcome unit)
  (w' : World U) : Prop :=
(r <> Ret tt /\ creations (trace w') = creations (trace w)) \/
exists machinePool,
  creations (trace w') =
  (creations (trace w)
     ++ [CreateMachinePoolRequest (cluster_ID cluster) machinePool])%list /\
  P machinePool.

Definition createsNodePool (cluster : Cluster)
  (P : cmv1.NodePool -> Prop) (w : World U) (r : outcome unit)
  (w' : World U) : Prop :=
(r <> Ret tt /\ creations (trace w') = creations (trace w)) \/
exists nodePool,
  creations (trace w') =
  (creations (trace w)
     ++ [CreateNodePoolRequest (cluster_ID cluster) nodePool])%list /\
  P nodePool.

(** [m], started without interactive mode, ends without it and has put
    no question. *)
Definition scripted {A} (m : M U A) : Prop :=
forall w r w',
  interactive_Enabled w = false -> m w = (r, w') ->
  interactive_Enabled w' = false /\
  questions (trace w') = questions (trace w).

(** The same, and what [m] returns satisfies [P]. *)
Definition scriptedWith {A} (P : A -> Prop) (m : M U A) : Prop :=
forall w r w',
  interactive_Enabled w = false -> m w = (r, w') ->
  (interactive_Enabled w' = false /\
   questions (trace w') = questions (trace w)) /\
  forall a, r = Ret a -> P a.

(** [m] does not leave interactive mode. *)
Definition staysInteractive {A} (m : M U A) : Prop :=
forall w r w',
  interactive_Enabled w = true -> m w = (r, w') ->
  interactive_Enabled w' = true.

End Runs.

Arguments scripted {U A} m.
Arguments scriptedWith {U A} P m.
Arguments staysInteractive {U A} m.

(** ** Listing, describing and deleting

    The functions of [machinepool.go] that create nothing, and the
    command that creates a KubeletConfig. *)

(** [cmv1.NodePoolUpgradePolicy] as far as it is read: its state
    ([nil], or the value of the state), its version and its next run.
    The getters of the SDK answer the zero value on a [nil]
    receiver. *)
Record NodePoolUpgradePolicy := {
  upgrade_State : option string;
  upgrade_Version : string;
  upgrade_NextRun : Z;
}.

Definition upgrade_State_Value (scheduledUpgrade : NodePoolUpgradePolicy)
  : string :=
match upgrade_State scheduledUpgrade with
| Some value => value
| None => ""
end.

(** A value of a [map[string]interface{}]: what [json.Unmarshal] left
    there, or a map of strings. *)
Inductive json :=
| JRaw (text : string)
| JStrings (fields : gmap string string).

(** [ocm.KubeletConfigArgs] and the KubeletConfig of a cluster. *)
Record KubeletConfigArgs := { PodPidsLimit : Z }.
Record KubeletConfig := { kubelet_PodPidsLimit : Z }.

(** What these functions call that is not in the two files. *)
Record Services {U : Type} := {
  Reporter_Debugf : string -> U -> U;
  (* [fmt.Print] *)
  os_Stdout_Print : string -> U -> U;
  (* [fmt.Fprint] on a [tabwriter.NewWriter(os.Stdout, 0, 0, 2, ' ', 0)],
     then [Flush] *)
  tabwriter_Flush : string -> U -> U;
  (* [time.Time.Format] *)
  time_Format : Z -> string -> string;
  (* [confirm.Confirm] and [confirm.ConfirmRaw], on the text that
     their arguments make *)
  confirm_Confirm : string -> ext U bool;
  confirm_ConfirmRaw : string -> ext U bool;
  OCMClient_GetMachinePools : string -> ext U (list cmv1.MachinePool);
  OCMClient_GetNodePools : string -> ext U (list cmv1.NodePool);
  (* the pool when it exists *)
  OCMClient_GetMachinePool : string -> string -> ext U (option cmv1.MachinePool);
  OCMClient_GetNodePool : string -> string -> ext U (option cmv1.NodePool);
  OCMClient_GetHypershiftNodePoolUpgrade :
    string -> string -> string -> ext U (option NodePoolUpgradePolicy);
  OCMClient_DeleteMachinePool : string -> string -> ext U unit;
  OCMClient_DeleteNodePool : string -> string -> ext U unit;
  OCMClient_GetClusterKubeletConfig : string -> ext U (option KubeletConfig);
  OCMClient_CreateKubeletConfig : string -> KubeletConfigArgs -> ext U unit;
  output_Print_MachinePools : list cmv1.MachinePool -> ext U unit;
  output_Print_NodePools : list cmv1.NodePool -> ext U unit;
  output_Print_Map : gmap string json -> ext U unit;
  (* of the package, in other files *)
  machinePoolOutput : string -> cmv1.MachinePool -> string;
  nodePoolOutput : string -> cmv1.NodePool -> string;
  cmv1_MarshalNodePool : cmv1.NodePool -> error + string;
  json_Unmarshal : string -> error + gmap string json;
  (* the printers of the two tables *)
  ocmOutput_PrintMachinePoolAutoscaling :
    option cmv1.MachinePoolAutoscaling -> string;
  ocmOutput_PrintMachinePoolReplicas :
    option cmv1.MachinePoolAutoscaling -> Z -> string;
  ocmOutput_PrintLabels : gmap string string -> string;
  ocmOutput_PrintTaints : list cmv1.Taint -> string;
  output_PrintStringSlice : list string -> string;
  ocmOutput_PrintMachinePoolSpot : cmv1.MachinePool -> string;
  ocmOutput_PrintMachinePoolDiskSize : cmv1.MachinePool -> string;
  ocmOutput_PrintNodePoolAutoscaling :
    option cmv1.NodePoolAutoscaling -> string;
  ocmOutput_PrintNodePoolReplicasShort : string -> string -> string;
  (* on [nodePool.Status()], which is not among the fields above *)
  ocmOutput_PrintNodePoolCurrentReplicas : cmv1.NodePool -> string;
  ocmOutput_PrintNodePoolReplicasInline :
    option cmv1.NodePoolAutoscaling -> Z -> string;
  ocmOutput_PrintNodePoolInstanceType : option cmv1.AWSNodePool -> string;
  (* [nodePool.AvailabilityZone()], not among the fields above *)
  nodePool_AvailabilityZone : cmv1.NodePool -> string;
  ocmOutput_PrintNodePoolVersion : option string -> string;
  ocmOutput_PrintNodePoolAutorepair : bool -> string;
  (* the runtime of the command and package [kubeletconfig] *)
  runtime_GetClusterKey : ext U string;
  runtime_FetchCluster : ext U Cluster;
  cluster_State : Cluster -> string;
  ValidateOrPromptForRequestedPidsLimit :
    Z -> string -> option KubeletConfig -> ext U Z;
}.
Arguments Services U : clear implicits.

(** The texts ["\t"] and ["\n"]. *)
Definition tab : string := String (ascii_of_nat 9) EmptyString.
Definition newline : string := String (ascii_of_nat 10) EmptyString.

Definition fetchMessage (kind id clusterKey : string) : string :=
"Fetching " +:+ kind +:+ " '" +:+ id +:+ "' for cluster '" +:+ clusterKey +:+ "'".

Definition notFoundMessage (id : string) : error :=
"Machine pool '" +:+ id +:+ "' not found".

Definition cmv1_ClusterStateReady : string := "ready".

Section Management.

Context {U : Type} (C : Collaborators U) (S : Services U).

(** Something written out: only the outside changes. *)
Definition act (f : U -> U) : M U unit :=
fun w =>
  (Ret tt, mkWorld (interactive_Enabled w) (trace w) (f (outside w))).

Definition formatNodePoolOutput (nodePool : cmv1.NodePool)
    (scheduledUpgrade : option NodePoolUpgradePolicy)
  : error + gmap string json :=
match cmv1_MarshalNodePool S nodePool with
| inl err => inl err
| inr b =>
    match json_Unmarshal S b with
    | inl err => inl err
    | inr ret =>
        match scheduledUpgrade with
        | Some scheduledUpgrade =>
            if match upgrade_State scheduledUpgrade with
               | Some _ => true
               | None => false
               end
               && (0 <? String.length (upgrade_Version scheduledUpgrade))%nat
               && (0 <? String.length (upgrade_State_Value scheduledUpgrade))%nat
            then
              let upgrade : gmap string string :=
                <["nextRun" :=
                    time_Format S (upgrade_NextRun scheduledUpgrade)
                      "2006-01-02 15:04 MST"]>
                  (<["state" := upgrade_State_Value scheduledUpgrade]>
                     (<["version" := upgrade_Version scheduledUpgrade]> ∅)) in
              inr (<["scheduledUpgrade" := JStrings upgrade]> ret)
            else inr ret
        | None => inr ret
        end
    end
end.

Definition appendUpgradesIfExist
    (scheduledUpgrade : option NodePoolUpgradePolicy) (output : string)
  : string :=
match scheduledUpgrade with
| Some scheduledUpgrade =>
    output +:+ "Scheduled upgrade:                     "
    +:+ upgrade_State_Value scheduledUpgrade +:+ " "
    +:+ upgrade_Version scheduledUpgrade +:+ " on "
    +:+ time_Format S (upgrade_NextRun scheduledUpgrade) "2006-01-02 15:04 MST"
    +:+ newline
| None => output
end.

Definition getMachinePoolsString (machinePools : list cmv1.MachinePool)
  : string :=
let outputString :=
  "ID" +:+ tab +:+ "AUTOSCALING" +:+ tab +:+ "REPLICAS" +:+ tab
  +:+ "INSTANCE TYPE" +:+ tab +:+ "LABELS" +:+ tab +:+ tab
  +:+ "TAINTS" +:+ tab +:+ tab +:+ "AVAILABILITY ZONES" +:+ tab
  +:+ tab +:+ "SUBNETS" +:+ tab +:+ tab +:+ "SPOT INSTANCES"
  +:+ tab +:+ "DISK SIZE" +:+ tab +:+ "SG IDs" +:+ newline in
fold_left
  (fun outputString machinePool =>
     outputString
     +:+ cmv1.ID machinePool +:+ tab
     +:+ ocmOutput_PrintMachinePoolAutoscaling S (cmv1.Autoscaling machinePool)
     +:+ tab
     +:+ ocmOutput_PrintMachinePoolReplicas S (cmv1.Autoscaling machinePool)
           (match cmv1.Replicas machinePool with Some n => n | None => 0 end)
     +:+ tab
     +:+ cmv1.InstanceType machinePool +:+ tab
     +:+ ocmOutput_PrintLabels S (cmv1.Labels machinePool) +:+ tab +:+ tab
     +:+ ocmOutput_PrintTaints S (cmv1.Taints machinePool) +:+ tab +:+ tab
     +:+ output_PrintStringSlice S (cmv1.AvailabilityZones machinePool)
     +:+ tab +:+ tab
     +:+ output_PrintStringSlice S (cmv1.Subnets machinePool)
     +:+ tab +:+ tab
     +:+ ocmOutput_PrintMachinePoolSpot S machinePool +:+ tab
     +:+ ocmOutput_PrintMachinePoolDiskSize S machinePool +:+ tab
     +:+ output_PrintStringSlice S
           (cmv1.AdditionalSecurityGroupIds (cmv1.AWS machinePool))
     +:+ newline)
  machinePools outputString.

Definition getNodePoolsString (nodePools : list cmv1.NodePool) : string :=
let outputString :=
  "ID" +:+ tab +:+ "AUTOSCALING" +:+ tab +:+ "REPLICAS" +:+ tab
  +:+ "INSTANCE TYPE" +:+ tab +:+ "LABELS" +:+ tab +:+ tab
  +:+ "TAINTS" +:+ tab +:+ tab +:+ "AVAILABILITY ZONE" +:+ tab
  +:+ "SUBNET" +:+ tab +:+ "VERSION" +:+ tab +:+ "AUTOREPAIR"
  +:+ tab +:+ newline in
fold_left
  (fun outputString nodePool =>
     outputString
     +:+ cmv1.np_ID nodePool +:+ tab
     +:+ ocmOutput_PrintNodePoolAutoscaling S (cmv1.np_Autoscaling nodePool)
     +:+ tab
     +:+ ocmOutput_PrintNodePoolReplicasShort S
           (ocmOutput_PrintNodePoolCurrentReplicas S nodePool)
           (ocmOutput_PrintNodePoolReplicasInline S
              (cmv1.np_Autoscaling nodePool)
              (match cmv1.np_Replicas nodePool with Some n => n | None => 0 end))
     +:+ tab
     +:+ ocmOutput_PrintNodePoolInstanceType S (cmv1.np_AWSNodePool nodePool)
     +:+ tab
     +:+ ocmOutput_PrintLabels S (cmv1.np_Labels nodePool) +:+ tab +:+ tab
     +:+ ocmOutput_PrintTaints S (cmv1.np_Taints nodePool) +:+ tab +:+ tab
     +:+ nodePool_AvailabilityZone S nodePool +:+ tab
     +:+ (match cmv1.np_Subnet nodePool with Some s => s | None => "" end)
     +:+ tab
     +:+ ocmOutput_PrintNodePoolVersion S (cmv1.np_Version nodePool) +:+ tab
     +:+ ocmOutput_PrintNodePoolAutorepair S
           (match cmv1.np_AutoRepair nodePool with Some b => b | None => false end)
     +:+ tab +:+ newline)
  nodePools outputString.

(** ListMachinePools lists all machinepools (or, nodepools if
    hypershift) in a cluster *)
Definition ListMachinePools (clusterKey : string) (cluster : Cluster)
  : M U unit :=
(* Load any existing machine pools for this cluster *)
act (Reporter_Debugf S
       ("Loading machine pools for cluster '" +:+ clusterKey +:+ "'")) ;;
let isHypershift := cluster_Hypershift_Enabled cluster in
pools <-
  (if isHypershift then
     nodePools <-
       request "GetNodePools" [cluster_ID cluster]
         (OCMClient_GetNodePools S (cluster_ID cluster)) ;;
     ret ([], nodePools)
   else
     machinePools <-
       request "GetMachinePools" [cluster_ID cluster]
         (OCMClient_GetMachinePools S (cluster_ID cluster)) ;;
     ret (machinePools, [])) ;;
let machinePools := fst pools in
let nodePools := snd pools in
if output_HasFlag C then
  if isHypershift then call (output_Print_NodePools S nodePools)
  else call (output_Print_MachinePools S machinePools)
else
  let finalStringToOutput := getMachinePoolsString machinePools in
  let finalStringToOutput :=
    if isHypershift then getNodePoolsString nodePools
    else finalStringToOutput in
  act (tabwriter_Flush S finalStringToOutput).

Definition describeNodePool (cluster : Cluster) (clusterKey : string)
    (nodePoolId : string) : M U unit :=
act (Reporter_Debugf S (fetchMessage "node pool" nodePoolId clusterKey)) ;;
found <-
  request "GetNodePool" [cluster_ID cluster; nodePoolId]
    (OCMClient_GetNodePool S (cluster_ID cluster) nodePoolId) ;;
match found with
| None => fail (notFoundMessage nodePoolId)
| Some nodePool =>
    scheduledUpgrade <-
      request "GetHypershiftNodePoolUpgrade"
        [cluster_ID cluster; clusterKey; nodePoolId]
        (OCMClient_GetHypershiftNodePoolUpgrade S (cluster_ID cluster)
           clusterKey nodePoolId) ;;
    if output_HasFlag C then
      formattedOutput <- lift (formatNodePoolOutput nodePool scheduledUpgrade) ;;
      call (output_Print_Map S formattedOutput)
    else
      (* Attach and print scheduledUpgrades if they exist, otherwise,
         print output normally *)
      act (os_Stdout_Print S
             (appendUpgradesIfExist scheduledUpgrade
                (nodePoolOutput S (cluster_ID cluster) nodePool)))
end.

(** DescribeMachinePool describes either a machinepool, or, a nodepool
    (if hypershift) *)
Definition DescribeMachinePool (cluster : Cluster) (clusterKey : string)
    (machinePoolId : string) : M U unit :=
if cluster_Hypershift_Enabled cluster then
  describeNodePool cluster clusterKey machinePoolId
else
  act (Reporter_Debugf S (fetchMessage "machine pool" machinePoolId clusterKey)) ;;
  found <-
    request "GetMachinePool" [cluster_ID cluster; machinePoolId]
      (OCMClient_GetMachinePool S (cluster_ID cluster) machinePoolId) ;;
  match found with
  | None => fail (notFoundMessage machinePoolId)
  | Some machinePool =>
      if output_HasFlag C then
        emit (PrintMachinePool machinePool) ;;
        call (output_Print_MachinePool C machinePool)
      else
        act (os_Stdout_Print S
               (machinePoolOutput S (cluster_ID cluster) machinePool))
  end.

(** deleteNodePool is the hypershift version of DeleteMachinePool *)
Definition deleteNodePool (nodePoolID : string) (clusterKey : string)
    (cluster : Cluster) : M U unit :=
(* Try to find the machine pool: *)
act (Reporter_Debugf S
       ("Loading machine pools for hosted cluster '" +:+ clusterKey +:+ "'")) ;;
found <-
  wrap (fun err => "Failed to get machine pools for hosted cluster '"
                   +:+ clusterKey +:+ "': " +:+ err)
    (request "GetNodePool" [cluster_ID cluster; nodePoolID]
       (OCMClient_GetNodePool S (cluster_ID cluster) nodePoolID)) ;;
match found with
| None =>
    fail ("Machine pool '" +:+ nodePoolID
          +:+ "' does not exist for hosted cluster '" +:+ clusterKey +:+ "'")
| Some nodePool =>
    confirmed <-
      call (confirm_Confirm S
              ("delete machine pool '" +:+ nodePoolID
               +:+ "' on hosted cluster '" +:+ clusterKey +:+ "'")) ;;
    if confirmed : bool then
      act (Reporter_Debugf S
             ("Deleting machine pool '" +:+ cmv1.np_ID nodePool
              +:+ "' on hosted cluster '" +:+ clusterKey +:+ "'")) ;;
      wrap (fun err => "Failed to delete machine pool '" +:+ cmv1.np_ID nodePool
                       +:+ "' on hosted cluster '" +:+ clusterKey +:+ "': "
                       +:+ err)
        (request "DeleteNodePool" [cluster_ID cluster; cmv1.np_ID nodePool]
           (OCMClient_DeleteNodePool S (cluster_ID cluster)
              (cmv1.np_ID nodePool))) ;;
      emit (Infof ("Successfully deleted machine pool '" +:+ nodePoolID
                   +:+ "' from hosted cluster '" +:+ clusterKey +:+ "'"))
    else ret tt
end.

(** DeleteMachinePool deletes a machinepool from a cluster if it is
    possible- this function also calls the hypershift equivalent,
    deleteNodePool if it is a hypershift cluster *)
Definition DeleteMachinePool (machinePoolId : string) (clusterKey : string)
    (cluster : Cluster) : M U unit :=
if cluster_Hypershift_Enabled cluster then
  deleteNodePool machinePoolId clusterKey cluster
else
  (* Try to find the machine pool: *)
  act (Reporter_Debugf S
         ("Loading machine pools for cluster '" +:+ clusterKey +:+ "'")) ;;
  machinePools <-
    wrap (fun err => "Failed to get machine pools for cluster '" +:+ clusterKey
                     +:+ "': " +:+ err)
      (request "GetMachinePools" [cluster_ID cluster]
         (OCMClient_GetMachinePools S (cluster_ID cluster))) ;;
  let machinePool :=
    fold_left
      (fun machinePool item =>
         if String.eqb (cmv1.ID item) machinePoolId then Some item
         else machinePool)
      machinePools None in
  match machinePool with
  | None =>
      fail ("Failed to get machine pool '" +:+ machinePoolId
            +:+ "' for cluster '" +:+ clusterKey +:+ "'")
  | Some machinePool =>
      confirmed <-
        call (confirm_Confirm S
                ("delete machine pool '" +:+ machinePoolId +:+ "' on cluster '"
                 +:+ clusterKey +:+ "'")) ;;
      if confirmed : bool then
        act (Reporter_Debugf S
               ("Deleting machine pool '" +:+ cmv1.ID machinePool
                +:+ "' on cluster '" +:+ clusterKey +:+ "'")) ;;
        wrap (fun err => "Failed to delete machine pool '"
                         +:+ cmv1.ID machinePool +:+ "' on cluster '"
                         +:+ clusterKey +:+ "': " +:+ err)
          (request "DeleteMachinePool" [cluster_ID cluster; cmv1.ID machinePool]
             (OCMClient_DeleteMachinePool S (cluster_ID cluster)
                (cmv1.ID machinePool))) ;;
        emit (Infof ("Successfully deleted machine pool '" +:+ machinePoolId
                     +:+ "' from cluster '" +:+ clusterKey +:+ "'"))
      else ret tt
  end.

(** [Create] of the command that creates a KubeletConfig;
    [podPidsLimit] is the variable that the flag fills. *)
Definition Create (podPidsLimit : Z) : M U unit :=
clusterKey <- call (runtime_GetClusterKey S) ;;
cluster <- call (runtime_FetchCluster S) ;;
if cluster_Hypershift_Enabled cluster then
  fail "Hosted Control Plane clusters do not support custom KubeletConfig configuration."
else
if negb (String.eqb (cluster_State S cluster) cmv1_ClusterStateReady) then
  fail ("Cluster '" +:+ clusterKey +:+ "' is not yet ready. Current state is '"
        +:+ cluster_State S cluster +:+ "'")
else
kubeletConfig <-
  wrap (fun err => "Failed getting KubeletConfig for cluster '"
                   +:+ cluster_ID cluster +:+ "': " +:+ err)
    (request "GetClusterKubeletConfig" [cluster_ID cluster]
       (OCMClient_GetClusterKubeletConfig S (cluster_ID cluster))) ;;
match kubeletConfig with
| Some _ =>
    fail ("A custom KubeletConfig for cluster '" +:+ clusterKey
          +:+ "' already exists. "
          +:+ "You should edit it via 'rosa edit kubeletconfig'")
| None =>
    requestedPids <-
      call (ValidateOrPromptForRequestedPidsLimit S podPidsLimit clusterKey
              None) ;;
    let prompt :=
      "Creating the custom KubeletConfig for cluster '" +:+ clusterKey
      +:+ "' will cause all non-Control Plane "
      +:+ "nodes to reboot. This may cause outages to your applications. Do you wish to continue?" in
    confirmed <- call (confirm_ConfirmRaw S prompt) ;;
    if confirmed : bool then
      act (Reporter_Debugf S
             ("Creating KubeletConfig for cluster '" +:+ clusterKey +:+ "'")) ;;
      let kubeletConfigArgs := {| PodPidsLimit := requestedPids |} in
      wrap (fun err => "Failed creating custom KubeletConfig for cluster '"
                       +:+ clusterKey +:+ "': '" +:+ err +:+ "'")
        (request "CreateKubeletConfig"
           [cluster_ID cluster; Go.FormatInt requestedPids]
           (OCMClient_CreateKubeletConfig S (cluster_ID cluster)
              kubeletConfigArgs)) ;;
      emit (Infof ("Successfully created custom KubeletConfig for cluster '"
                   +:+ clusterKey +:+ "'"))
    else
      emit (Infof ("Creation of custom KubeletConfig for cluster '"
                   +:+ clusterKey +:+ "' aborted."))
end.

(** The requests among the events of a run, and those that take
    something away or add a KubeletConfig. *)
Definition isRequest (e : Event) : bool :=
match e with
| Request _ _ => true
| _ => false
end.

Definition requests (trace : list Event) : list Event :=
List.filter isRequest trace.

Definition isDelete (e : Event) : bool :=
match e with
| Request operation _ =>
    String.eqb operation "DeleteMachinePool"
    || String.eqb operation "DeleteNodePool"
| _ => false
end.

Definition deletions (trace : list Event) : list Event :=
List.filter isDelete trace.

End Management.

(** ** More runs on the stand-in *)

Module Scenes.
Import Double.

(** The arguments with [--availability-zone zone]. *)
Definition zoned (zone : string) (args : CreateMachinepoolUserOptions)
  : CreateMachinepoolUserOptions :=
{| Name := Name args; InstanceType := InstanceType args;
   Replicas := Replicas args; AutoscalingEnabled := AutoscalingEnabled args;
   MinReplicas := MinReplicas args; MaxReplicas := MaxReplicas args;
   Labels := Labels args; Taints := Taints args;
   UseSpotInstances := UseSpotInstances args;
   SpotMaxPrice := SpotMaxPrice args;
   MultiAvailabilityZone := MultiAvailabilityZone args;
   AvailabilityZone := zone; Subnet := Subnet args;
   Version := Version args; Autorepair := Autorepair args;
   TuningConfigs := TuningConfigs args;
   KubeletConfigs := KubeletConfigs args;
   RootDiskSize := RootDiskSize args;
   SecurityGroupIds := SecurityGroupIds args;
   NodeDrainGracePeriod := NodeDrainGracePeriod args;
   Tags := Tags args |}.

(** A cluster with a hosted control plane. *)
Definition hostedCluster : Cluster :=
{| cluster_ID := "24vf9iitg3p6tlml88iml6j6mu095mh8";
   cluster_MultiAZ := false;
   cluster_Version_RawID := "4.14.0";
   cluster_Version_ChannelGroup := "stable";
   cluster_Nodes_AvailabilityZones := ["us-east-1a"];
   cluster_Region_ID := "us-east-1";
   cluster_AWS_STS_RoleARN := "arn:aws:iam::123456789012:role/Installer";
   cluster_AWS_SubnetIDs := ["subnet-a"];
   cluster_Flavour_ID := "osd-4";
   cluster_Hypershift_Enabled := true |}.

(** CreateNodePools from a script, with the flags that were given. *)
Definition runNodePools (given : list string) (cluster : Cluster)
    (args : CreateMachinepoolUserOptions) : outcome unit * World unit :=
CreateNodePools collaborators (flags given) "mycluster" cluster args batch.

(** A command line on which [name] is registered and was not given. *)
Definition registered (name : string) : Command :=
{[ name := {| Usage := "Count of machines for the machine pool";
              flag_Changed := false |} ]}.

End Scenes.

(** ** A stand-in for the services *)

Module Console.
Import Double.

Definition machinePoolOf (id : string) : cmv1.MachinePool :=
{| cmv1.ID := id;
   cmv1.InstanceType := "m5.xlarge";
   cmv1.Labels := ∅;
   cmv1.Taints := [];
   cmv1.Autoscaling := None;
   cmv1.Replicas := Some 2;
   cmv1.AWS := {| cmv1.SpotMarketOptions := None;
                  cmv1.AdditionalSecurityGroupIds := [];
                  cmv1.Tags := ∅ |};
   cmv1.AvailabilityZones := ["us-east-1a"];
   cmv1.Subnets := [];
   cmv1.RootVolume := None |}.

Definition nodePoolOf (id : string) : cmv1.NodePool :=
{| cmv1.np_ID := id;
   cmv1.np_Labels := ∅;
   cmv1.np_Taints := [];
   cmv1.np_Autoscaling := None;
   cmv1.np_Replicas := Some 2;
   cmv1.np_Subnet := Some "subnet-a";
   cmv1.np_AutoRepair := Some true;
   cmv1.np_TuningConfigs := [];
   cmv1.np_KubeletConfigs := [];
   cmv1.np_AWSNodePool := None;
   cmv1.np_NodeDrainGracePeriod := None;
   cmv1.np_Version := Some "4.14.0" |}.

(** The machine pools of the classic cluster and the node pools of the
    hosted one. *)
Definition machinePools : list cmv1.MachinePool :=
[machinePoolOf "worker"; machinePoolOf "machinepool1"].

Definition nodePools : list cmv1.NodePool :=
[nodePoolOf "workers"; nodePoolOf "nodepool1"].

Definition scheduled : NodePoolUpgradePolicy :=
{| upgrade_State := Some "scheduled";
   upgrade_Version := "4.15.0";
   upgrade_NextRun := 1700000000 |}.

(** The services of a user who answers [confirmed], on a cluster that
    is found in state [state] with the KubeletConfig [existing]. *)
Definition services (confirmed : bool) (found : Cluster) (state : string)
    (existing : option KubeletConfig) : Services unit :=
{| Reporter_Debugf := fun _ u => u;
   os_Stdout_Print := fun _ u => u;
   tabwriter_Flush := fun _ u => u;
   time_Format := fun t _ => Go.FormatInt t;
   confirm_Confirm := fun _ => answer confirmed;
   confirm_ConfirmRaw := fun _ => answer confirmed;
   OCMClient_GetMachinePools := fun _ => answer machinePools;
   OCMClient_GetNodePools := fun _ => answer nodePools;
   OCMClient_GetMachinePool := fun _ id =>
     answer (List.find (fun p => String.eqb (cmv1.ID p) id) machinePools);
   OCMClient_GetNodePool := fun _ id =>
     answer (List.find (fun p => String.eqb (cmv1.np_ID p) id) nodePools);
   OCMClient_GetHypershiftNodePoolUpgrade := fun _ _ _ => answer (Some scheduled);
   OCMClient_DeleteMachinePool := fun _ _ => answer tt;
   OCMClient_DeleteNodePool := fun _ _ => answer tt;
   OCMClient_GetClusterKubeletConfig := fun _ => answer existing;
   OCMClient_CreateKubeletConfig := fun _ _ => answer tt;
   output_Print_MachinePools := fun _ => answer tt;
   output_Print_NodePools := fun _ => answer tt;
   output_Print_Map := fun _ => answer tt;
   machinePoolOutput := fun _ p => "ID: " +:+ cmv1.ID p +:+ newline;
   nodePoolOutput := fun _ p => "ID: " +:+ cmv1.np_ID p +:+ newline;
   cmv1_MarshalNodePool := fun p => inr (cmv1.np_ID p);
   json_Unmarshal := fun b => inr {[ "id" := JRaw b ]};
   ocmOutput_PrintMachinePoolAutoscaling := fun a =>
     match a with Some _ => "Yes" | None => "No" end;
   ocmOutput_PrintMachinePoolReplicas := fun _ n => Go.FormatInt n;
   ocmOutput_PrintLabels := fun _ => "";
   ocmOutput_PrintTaints := fun _ => "";
   output_PrintStringSlice := fun l => String.concat ", " l;
   ocmOutput_PrintMachinePoolSpot := fun _ => "No";
   ocmOutput_PrintMachinePoolDiskSize := fun _ => "default";
   ocmOutput_PrintNodePoolAutoscaling := fun a =>
     match a with Some _ => "Yes" | None => "No" end;
   ocmOutput_PrintNodePoolReplicasShort := fun current desired =>
     current +:+ "/" +:+ desired;
   ocmOutput_PrintNodePoolCurrentReplicas := fun _ => "2";
   ocmOutput_PrintNodePoolReplicasInline := fun _ n => Go.FormatInt n;
   ocmOutput_PrintNodePoolInstanceType := fun _ => "m5.xlarge";
   nodePool_AvailabilityZone := fun _ => "us-east-1a";
   ocmOutput_PrintNodePoolVersion := fun v =>
     match v with Some id => id | None => "" end;
   ocmOutput_PrintNodePoolAutorepair := fun b => if b then "Yes" else "No";
   runtime_GetClusterKey := answer "mycluster";
   runtime_FetchCluster := answer found;
   cluster_State := fun _ => state;
   ValidateOrPromptForRequestedPidsLimit := fun limit _ _ => answer limit |}.

End Console.
(** * Properties *)

(** ** The monad *)

Section MonadFacts.

Context {U : Type}.
Implicit Types w : World U.

Lemma bind_Ret {A B} (m : M U A) (k : A -> M U B) w a w1 :
  m w = (Ret a, w1) -> bind m k w = k a w1.
Proof. unfold bind. now intros ->. Qed.

Lemma bind_Fail {A B} (m : M U A) (k : A -> M U B) w e w1 :
  m w = (Fail e, w1) -> bind m k w = (Fail e, w1).
Proof. unfold bind. now intros ->. Qed.

Lemma bind_Halt {A B} (m : M U A) (k : A -> M U B) w why w1 :
  m w = (Halt why, w1) -> bind m k w = (Halt why, w1).
Proof. unfold bind. now intros ->. Qed.

(** A sequence that returns went through its first part. *)
Lemma bind_inv {A B} (m : M U A) (k : A -> M U B) w b w' :
  bind m k w = (Ret b, w') ->
  exists a w1, m w = (Ret a, w1) /\ k a w1 = (Ret b, w').
Proof.
  unfold bind. destruct (m w) as [[a|e|why] w1]; try discriminate.
  intros H. now exists a, w1.
Qed.

Lemma wrap_inv {A} f (m : M U A) w a w' :
  wrap f m w = (Ret a, w') -> m w = (Ret a, w').
Proof. unfold wrap. now destruct (m w) as [[?|?|?] ?]. Qed.

Lemma Enabled_inv w b w' :
  Enabled w = (Ret b, w') -> b = interactive_Enabled w /\ w' = w.
Proof. intros H. now inversion H. Qed.

Lemma check_inv (e : err_or_nil) w u w' :
  check e w = (Ret u, w') -> e = None /\ w' = w.
Proof.
  destruct e; simpl; unfold fail, ret; intros H; inversion H; auto.
Qed.

(** *** Computations that create nothing *)

Lemma quiet_ret {A} (a : A) : quiet (ret a : M U A).
Proof. intros w r w' H. now inversion H. Qed.

Lemma quiet_fail {A} e : quiet (@fail U A e).
Proof. intros w r w' H. now inversion H. Qed.

Lemma quiet_panic {A} why : quiet (@panic U A why).
Proof. intros w r w' H. now inversion H. Qed.

Lemma quiet_bind {A B} (m : M U A) (k : A -> M U B) :
  quiet m -> (forall a, quiet (k a)) -> quiet (bind m k).
Proof.
  intros Hm Hk w r w'. unfold bind.
  destruct (m w) as [[a|e|why] w1] eqn:E; intros H.
  - rewrite (Hk _ _ _ _ H). eauto.
  - inversion H; subst. eauto.
  - inversion H; subst. eauto.
Qed.

Lemma quiet_wrap {A} f (m : M U A) : quiet m -> quiet (wrap f m).
Proof.
  intros Hm w r w'. unfold wrap.
  destruct (m w) as [[a|e|why] w1] eqn:E; intros H; inversion H; subst; eauto.
Qed.

Lemma quiet_emit e : isCreate e = false -> quiet (emit e : M U unit).
Proof.
  intros He w r w' H. inversion H; subst; simpl.
  unfold creations. rewrite List.filter_app. simpl. rewrite He.
  now rewrite app_nil_r.
Qed.

Lemma quiet_call {A} (f : ext U A) : quiet (call f).
Proof.
  intros w r w'. unfold call.
  destruct (f _ _) as [r0 u]. intros H. now inversion H.
Qed.

Lemma quiet_Enabled : quiet (@Enabled U).
Proof. intros w r w' H. now inversion H. Qed.

Lemma quiet_Enable : quiet (@Enable U).
Proof. intros w r w' H. now inversion H. Qed.

Lemma quiet_first {A} (l : list A) : quiet (@first U A l).
Proof. destruct l; [apply quiet_panic | apply quiet_ret]. Qed.

Lemma quiet_check e : quiet (@check U e).
Proof. destruct e; [apply quiet_fail | apply quiet_ret]. Qed.

Lemma quiet_lift {A} (r : error + A) : quiet (@lift U A r).
Proof. destruct r; [apply quiet_fail | apply quiet_ret]. Qed.

Lemma quiet_if {A} (b : bool) (m1 m2 : M U A) :
  quiet m1 -> quiet m2 -> quiet (if b then m1 else m2).
Proof. now destruct b. Qed.

End MonadFacts.

Create HintDb quiet.
#[export] Hint Resolve quiet_ret quiet_fail quiet_panic quiet_wrap
  quiet_call quiet_Enabled quiet_Enable quiet_first quiet_check quiet_lift
  : quiet.

(** Breaks a computation into its steps, each of which creates nothing. *)
Ltac quiet :=
  repeat first
    [ apply quiet_bind; [ | intros ? ]
    | apply quiet_if
    | apply quiet_emit; reflexivity
    | solve [ auto with quiet ]
    | match goal with |- quiet (match ?x with _ => _ end) => destruct x end ].

(** ** The parts of the two functions that create nothing *)

Section Quiet.

Context {U : Type} (C : Collaborators U).

Lemma quiet_ask {A} (get : Input -> ext U A) input : quiet (ask get input).
Proof. unfold ask. quiet. Qed.

Lemma quiet_request {A} op arguments (f : ext U A) :
  quiet (request op arguments f).
Proof. unfold request. quiet. Qed.

Lemma quiet_usage cmd name : quiet (@usage U cmd name).
Proof. unfold usage. quiet. Qed.

Hint Resolve quiet_ask quiet_request quiet_usage : quiet.

Lemma quiet_getMachinePoolAvailabilityZones cluster multiAZ zone subnet :
  quiet (getMachinePoolAvailabilityZones C cluster multiAZ zone subnet).
Proof. unfold getMachinePoolAvailabilityZones. quiet. Qed.

Lemma quiet_validateFlags cmd cluster args :
  quiet (validateFlags C cmd cluster args).
Proof. unfold validateFlags. quiet. Qed.

Lemma quiet_hostedClusterOnlyFlags cmd : quiet (hostedClusterOnlyFlags C cmd).
Proof. unfold hostedClusterOnlyFlags. quiet. Qed.

Lemma quiet_resolveName args : quiet (resolveName C args).
Proof. unfold resolveName. quiet. Qed.

Lemma quiet_resolvePlacement cmd cluster args fl :
  quiet (resolvePlacement C cmd cluster args fl).
Proof. unfold resolvePlacement. quiet. Qed.

Lemma quiet_resolveAutoscaling cmd args : quiet (resolveAutoscaling C cmd args).
Proof. unfold resolveAutoscaling. quiet. Qed.

Lemma quiet_resolveReplicas cmd args multiAZ autoscaling :
  quiet (resolveReplicas C cmd args multiAZ autoscaling).
Proof. unfold resolveReplicas. quiet. Qed.

Lemma quiet_resolveSecurityGroups cmd cluster args fl :
  quiet (resolveSecurityGroups C cmd cluster args fl).
Proof. unfold resolveSecurityGroups. quiet. Qed.

Hint Resolve quiet_getMachinePoolAvailabilityZones : quiet.

Lemma quiet_resolveInstanceType cmd cluster args name pl :
  quiet (resolveInstanceType C cmd cluster args name pl).
Proof. unfold resolveInstanceType. quiet. Qed.

Lemma quiet_resolveSpot cmd args subnet zones :
  quiet (resolveSpot C cmd args subnet zones).
Proof. unfold resolveSpot. quiet. Qed.

Lemma quiet_resolveRootDisk cmd cluster args :
  quiet (resolveRootDisk C cmd cluster args).
Proof. unfold resolveRootDisk. quiet. Qed.

Lemma quiet_getSubnetFromAvailabilityZone cmd isSet cluster args :
  quiet (getSubnetFromAvailabilityZone C cmd isSet cluster args).
Proof. unfold getSubnetFromAvailabilityZone. quiet. Qed.

Lemma quiet_resolveVersion cmd cluster args :
  quiet (resolveVersion C cmd cluster args).
Proof. unfold resolveVersion. quiet. Qed.

Lemma quiet_resolveNodePoolReplicas cmd args autoscaling :
  quiet (resolveNodePoolReplicas C cmd args autoscaling).
Proof. unfold resolveNodePoolReplicas. quiet. Qed.

Lemma quiet_resolveNodePoolSecurityGroups cmd cluster args version :
  quiet (resolveNodePoolSecurityGroups C cmd cluster args version).
Proof. unfold resolveNodePoolSecurityGroups. quiet. Qed.

Lemma quiet_resolveNodePoolInstanceType cmd cluster args name subnet :
  quiet (resolveNodePoolInstanceType C cmd cluster args name subnet).
Proof. unfold resolveNodePoolInstanceType. quiet. Qed.

Lemma quiet_resolveAutorepair cmd args : quiet (resolveAutorepair C cmd args).
Proof. unfold resolveAutorepair. quiet. Qed.

Lemma quiet_resolveTuningConfigs cmd cluster args :
  quiet (resolveTuningConfigs C cmd cluster args).
Proof. unfold resolveTuningConfigs. quiet. Qed.

Lemma quiet_resolveKubeletConfigs cmd cluster args :
  quiet (resolveKubeletConfigs C cmd cluster args).
Proof. unfold resolveKubeletConfigs. quiet. Qed.

Lemma quiet_resolveNodeDrainGracePeriod cmd args :
  quiet (resolveNodeDrainGracePeriod C cmd args).
Proof. unfold resolveNodeDrainGracePeriod. quiet. Qed.

End Quiet.

#[export] Hint Resolve quiet_ask quiet_request quiet_usage
  quiet_getMachinePoolAvailabilityZones quiet_validateFlags
  quiet_hostedClusterOnlyFlags quiet_resolveName quiet_resolvePlacement
  quiet_resolveAutoscaling quiet_resolveReplicas quiet_resolveSecurityGroups
  quiet_resolveInstanceType quiet_resolveSpot quiet_resolveRootDisk
  quiet_getSubnetFromAvailabilityZone quiet_resolveVersion
  quiet_resolveNodePoolReplicas quiet_resolveNodePoolSecurityGroups
  quiet_resolveNodePoolInstanceType quiet_resolveAutorepair
  quiet_resolveTuningConfigs quiet_resolveKubeletConfigs
  quiet_resolveNodeDrainGracePeriod : quiet.

(** ** Decimal integers *)

Section ValidatorFacts.

Lemma Atoi_digits d :
  d <> Decimal.Nil ->
  Go.Atoi (NilEmpty.string_of_uint d) =
    if (int_min <=? Z.of_uint d) && (Z.of_uint d <=? int_max)
    then inr (Z.of_uint d)
    else inl (Go.rangeError "Atoi" (NilEmpty.string_of_uint d)).
Proof.
  intros Hd. unfold Go.Atoi.
  destruct d; try congruence; cbn [NilEmpty.string_of_uint];
    cbn [NilEmpty.uint_of_string]; rewrite NilEmpty.usu; reflexivity.
Qed.

Lemma Atoi_minus_digits d :
  d <> Decimal.Nil ->
  Go.Atoi (String "-" (NilEmpty.string_of_uint d)) =
    if (int_min <=? - Z.of_uint d) && (- Z.of_uint d <=? int_max)
    then inr (- Z.of_uint d)
    else inl (Go.rangeError "Atoi" (String "-" (NilEmpty.string_of_uint d))).
Proof.
  intros Hd. unfold Go.Atoi.
  destruct d; try congruence; cbn [NilEmpty.string_of_uint];
    cbn [NilEmpty.uint_of_string]; rewrite NilEmpty.usu; reflexivity.
Qed.

(** [%v] of an [int] read back by [strconv.Atoi] is that [int]. *)
Lemma Atoi_FormatInt n : is_int n -> Go.Atoi (Go.FormatInt n) = inr n.
Proof.
  unfold is_int. intros [Hlo Hhi]. unfold Go.FormatInt.
  destruct n as [|p|p]; cbn [Z.to_int NilZero.string_of_int].
  - reflexivity.
  - unfold NilZero.string_of_uint.
    pose proof (Unsigned.to_uint_nonnil p) as Hp.
    destruct (Pos.to_uint p) eqn:E; try congruence; rewrite <- E;
      rewrite Atoi_digits by congruence;
      unfold Z.of_uint; rewrite DecimalPos.Unsigned.of_to; cbn [Z.of_N];
      (destruct (int_min <=? Z.pos p) eqn:E1; [|lia]);
      (destruct (Z.pos p <=? int_max) eqn:E2; [|lia]); reflexivity.
  - unfold NilZero.string_of_uint.
    pose proof (Unsigned.to_uint_nonnil p) as Hp.
    change (Z.neg p) with (- Z.pos p) in *.
    destruct (Pos.to_uint p) eqn:E; try congruence; rewrite <- E;
      rewrite Atoi_minus_digits by congruence;
      unfold Z.of_uint; rewrite DecimalPos.Unsigned.of_to; cbn [Z.of_N];
      (destruct (int_min <=? - Z.pos p) eqn:E1; [|lia]);
      (destruct (- Z.pos p <=? int_max) eqn:E2; [|lia]); reflexivity.
Qed.

(** What [strconv.Atoi] accepts is an [int]. *)
Lemma Atoi_is_int s n : Go.Atoi s = inr n -> is_int n.
Proof.
  unfold Go.Atoi, is_int.
  destruct (match s with
            | String "+" rest => (false, rest)
            | String "-" rest => (true, rest)
            | _ => (false, s) end) as [neg body].
  destruct body; try discriminate.
  destruct (NilEmpty.uint_of_string _); try discriminate.
  destruct (_ && _) eqn:E; try discriminate.
  apply andb_prop in E as [E1 E2].
  intros H; inversion H; subst. destruct neg; lia.
Qed.


Lemma Atoi_FormatInt_sprintf n :
  is_int n -> Go.Atoi (Go.Sprintf_v (VInt n)) = inr n.
Proof. apply Atoi_FormatInt. Qed.

Lemma Atoi_FormatInt_inv n m : Go.Atoi (Go.FormatInt n) = inr m -> m = n.
Proof.
  unfold Go.FormatInt.
  destruct n as [|p|p]; cbn [Z.to_int NilZero.string_of_int].
  - cbv. congruence.
  - unfold NilZero.string_of_uint.
    pose proof (Unsigned.to_uint_nonnil p) as Hp.
    destruct (Pos.to_uint p) eqn:E; try congruence; rewrite <- E;
      rewrite Atoi_digits by congruence;
      unfold Z.of_uint; rewrite DecimalPos.Unsigned.of_to; cbn [Z.of_N];
      destruct (_ && _); congruence.
  - unfold NilZero.string_of_uint.
    pose proof (Unsigned.to_uint_nonnil p) as Hp.
    destruct (Pos.to_uint p) eqn:E; try congruence; rewrite <- E;
      rewrite Atoi_minus_digits by congruence;
      unfold Z.of_uint; rewrite DecimalPos.Unsigned.of_to; cbn [Z.of_N];
      change (Z.neg p) with (- Z.pos p);
      destruct (_ && _); congruence.
Qed.

(** Go's [%] against [3] is zero exactly on the multiples of three. *)
Lemma rem3_divide n : (Z.rem n 3 =? 0) = true <-> (3 | n).
Proof. rewrite Z.eqb_eq. apply Z.rem_divide. lia. Qed.

(** *** What the two replica validators accept *)

Lemma minReplicaValidator_accepts multiAZ val :
  minReplicaValidator multiAZ val = None <->
  exists n, Go.Atoi (Go.Sprintf_v val) = inr n /\ 0 <= n /\
            (multiAZ = true -> (3 | n)).
Proof.
  unfold minReplicaValidator.
  destruct (Go.Atoi (Go.Sprintf_v val)) as [err|n] eqn:E.
  - split; [discriminate | intros (n & H & _); discriminate].
  - destruct (n <? 0) eqn:Hneg.
    + split; [discriminate | intros (m & H & Hm & _)].
      inversion H; subst. lia.
    + destruct multiAZ; cbn [andb].
      * destruct (Z.rem n 3 =? 0) eqn:Hrem; cbn [negb].
        -- split; [intros _ | reflexivity]. exists n.
           repeat split; [lia | intros _; now apply rem3_divide].
        -- split; [discriminate | intros (m & H & _ & Hm)].
           inversion H; subst. apply rem3_divide in Hm; congruence.
      * split; [intros _ | reflexivity]. exists n.
        repeat split; [lia | discriminate].
Qed.

Lemma maxReplicaValidator_accepts minReplicas multiAZ val :
  maxReplicaValidator minReplicas multiAZ val = None <->
  exists n, Go.Atoi (Go.Sprintf_v val) = inr n /\ minReplicas <= n /\
            (multiAZ = true -> (3 | n)).
Proof.
  unfold maxReplicaValidator.
  destruct (Go.Atoi (Go.Sprintf_v val)) as [err|n] eqn:E.
  - split; [discriminate | intros (n & H & _); discriminate].
  - destruct (minReplicas >? n) eqn:Hgt.
    + split; [discriminate | intros (m & H & Hm & _)].
      inversion H; subst. lia.
    + destruct multiAZ; cbn [andb].
      * destruct (Z.rem n 3 =? 0) eqn:Hrem; cbn [negb].
        -- split; [intros _ | reflexivity]. exists n.
           repeat split; [lia | intros _; now apply rem3_divide].
        -- split; [discriminate | intros (m & H & _ & Hm)].
           inversion H; subst. apply rem3_divide in Hm; congruence.
      * split; [intros _ | reflexivity]. exists n.
        repeat split; [lia | discriminate].
Qed.

(** On an [int] proper the printed form drops out. *)
Lemma minReplicaValidator_int multiAZ n :
  minReplicaValidator multiAZ (VInt n) = None ->
  0 <= n /\ (multiAZ = true -> (3 | n)).
Proof.
  intros H. apply minReplicaValidator_accepts in H as (m & Hm & H0 & H3).
  apply Atoi_FormatInt_inv in Hm. subst. auto.
Qed.

Lemma maxReplicaValidator_int minReplicas multiAZ n :
  maxReplicaValidator minReplicas multiAZ (VInt n) = None ->
  minReplicas <= n /\ (multiAZ = true -> (3 | n)).
Proof.
  intros H. apply maxReplicaValidator_accepts in H as (m & Hm & H0 & H3).
  apply Atoi_FormatInt_inv in Hm. subst. auto.
Qed.

End ValidatorFacts.

(** ** Regular expressions *)

Module RegexpFacts.
Import Regexp Key.
Local Open Scope list_scope.

#[local] Hint Constructors lang : core.

Lemma lang_Void s : ~ lang Void s.
Proof. intros H. inversion H; subst. discriminate. Qed.

Lemma nullable_spec r : nullable r = true <-> lang r [].
Proof.
  induction r; simpl.
  - split; auto.
  - split; [discriminate | intros H; inversion H].
  - rewrite andb_true_iff, IHr1, IHr2. split.
    + intros [H1 H2]. change (@nil ascii) with (@nil ascii ++ []). auto.
    + intros H. inversion H; subst.
      match goal with E : _ ++ _ = [] |- _ =>
        apply app_eq_nil in E as [-> ->] end. auto.
  - rewrite orb_true_iff, IHr1, IHr2. split.
    + intros [H|H]; auto.
    + intros H. inversion H; auto.
  - split; auto.
  - split; auto.
Qed.

(** A non-empty text of a star starts with a non-empty text of its
    argument. *)
Lemma lang_Star_cons r c s :
  lang (Star r) (c :: s) ->
  exists s1 s2, s = s1 ++ s2 /\ lang r (c :: s1) /\ lang (Star r) s2.
Proof.
  intros H. remember (Star r) as r' eqn:Er. remember (c :: s) as t eqn:Et.
  revert c s Et.
  induction H; intros c0 s0 Et; try discriminate.
  inversion Er; subst.
  destruct s1 as [|c1 s1]; simpl in Et.
  - apply IHlang2; auto.
  - inversion Et; subst. eauto.
Qed.

Lemma deriv_spec c r : forall s, lang (deriv c r) s <-> lang r (c :: s).
Proof.
  induction r; intros s; simpl.
  - split; intros H; [now apply lang_Void in H | inversion H].
  - destruct (inClass ranges c) eqn:E.
    + split; intros H; inversion H; subst; auto.
    + split; intros H; [now apply lang_Void in H |].
      inversion H; subst. congruence.
  - destruct (nullable r1) eqn:N.
    + split; intros H.
      * inversion H; subst.
        -- match goal with H' : lang (Cat _ _) _ |- _ => inversion H'; subst end.
           change (c :: s1 ++ s2) with ((c :: s1) ++ s2).
           constructor; auto. now apply IHr1.
        -- change (c :: s) with ([] ++ c :: s). constructor.
           ++ now apply nullable_spec.
           ++ now apply IHr2.
      * inversion H; subst. destruct s1 as [|c1 s1]; simpl in *.
        -- subst. apply lang_Alt_r. now apply IHr2.
        -- match goal with E : _ :: _ = _ :: _ |- _ => inversion E; subst end.
           apply lang_Alt_l. constructor; auto. now apply IHr1.
    + split; intros H.
      * inversion H; subst. change (c :: s1 ++ s2) with ((c :: s1) ++ s2).
        constructor; auto. now apply IHr1.
      * inversion H; subst. destruct s1 as [|c1 s1]; simpl in *.
        -- subst.
           match goal with H' : lang r1 [] |- _ =>
             apply nullable_spec in H' end. congruence.
        -- match goal with E : _ :: _ = _ :: _ |- _ => inversion E; subst end.
           constructor; auto. now apply IHr1.
  - split; intros H; inversion H; subst.
    + apply lang_Alt_l. now apply IHr1.
    + apply lang_Alt_r. now apply IHr2.
    + apply lang_Alt_l. now apply IHr1.
    + apply lang_Alt_r. now apply IHr2.
  - split; intros H.
    + inversion H; subst. change (c :: s1 ++ s2) with ((c :: s1) ++ s2).
      constructor; auto. now apply IHr.
    + apply lang_Star_cons in H as (s1 & s2 & -> & H1 & H2).
      constructor; auto. now apply IHr.
  - split; intros H.
    + apply lang_Quest. now apply IHr.
    + inversion H; subst. now apply IHr.
Qed.

Lemma matchAll_spec s : forall r, matchAll r s = true <-> lang r s.
Proof.
  induction s as [|c s IH]; intros r; simpl.
  - apply nullable_spec.
  - rewrite IH. apply deriv_spec.
Qed.


(** *** The machine pool identifiers *)

Lemma machinePoolKeyRE_body :
  machinePoolKeyRE =
  mk "^[a-z]([-a-z0-9]*[a-z0-9])?$" true true
     (Cat (Class [("a", "z")]%char)
        (Quest (Cat (Star (Class [("-", "-"); ("a", "z"); ("0", "9")]%char))
                    (Class [("a", "z"); ("0", "9")]%char)))).
Proof. reflexivity. Qed.

Lemma lang_Star_Class ranges l :
  lang (Star (Class ranges)) l <-> forallb (inClass ranges) l = true.
Proof.
  split.
  - intros H. remember (Star (Class ranges)) as r eqn:Er.
    induction H; try discriminate; auto.
    inversion Er; subst. rewrite forallb_app.
    match goal with H' : lang (Class _) _ |- _ => inversion H'; subst end.
    simpl. rewrite IHlang2 by reflexivity.
    match goal with H' : inClass _ _ = true |- _ => now rewrite H' end.
  - induction l as [|c l IH]; simpl; auto.
    rewrite andb_true_iff. intros [Hc Hl].
    change (c :: l) with ([c] ++ l). auto.
Qed.

Lemma keyTail_spec l :
  keyTail l = true <->
  exists mid c, l = mid ++ [c] /\ forallb innerChar mid = true
                /\ lastChar c = true.
Proof.
  induction l as [|c l IH].
  - split; [discriminate | intros (mid & t & E & _)].
    now destruct mid.
  - destruct l as [|d l].
    + simpl. split.
      * intros H. now exists [], c.
      * intros (mid & t & E & _ & Ht). destruct mid as [|m mid].
        -- now inversion E; subst.
        -- inversion E; subst. now destruct mid.
    + change (keyTail (c :: d :: l)) with (innerChar c && keyTail (d :: l)).
      rewrite andb_true_iff, IH. split.
      * intros (Hc & mid & t & E & Hmid & Ht). exists (c :: mid), t.
        rewrite E. simpl. rewrite Hc, Hmid. auto.
      * intros (mid & t & E & Hmid & Ht). destruct mid as [|m mid].
        -- inversion E.
        -- inversion E; subst. simpl in Hmid.
           apply andb_true_iff in Hmid as [Hm Hmid]. eauto 6.
Qed.

Lemma lang_key l : lang (body machinePoolKeyRE) l <-> keyShape l = true.
Proof.
  rewrite machinePoolKeyRE_body. cbn [body]. split.
  - intros H. inversion H; subst.
    match goal with H' : lang (Class _) _ |- _ => inversion H'; subst end.
    simpl. unfold firstChar.
    match goal with H' : inClass _ _ = true |- _ => rewrite H' end.
    cbn [andb].
    match goal with H' : lang (Quest _) _ |- _ =>
      inversion H' as [| |? ? ? ? ? ?| | | | | |? ? Hq]; subst end; auto.
    inversion Hq; subst.
    match goal with H' : lang (Star _) _ |- _ =>
      apply lang_Star_Class in H' end.
    match goal with H' : lang (Class _) _ |- _ => inversion H'; subst end.
    match goal with |- match ?x with _ => _ end = _ =>
      assert (keyTail x = true) as Hk
        by (apply keyTail_spec; eauto);
      destruct x; [discriminate | exact Hk] end.
  - destruct l as [|c rest]; [discriminate|]. simpl.
    rewrite andb_true_iff. intros [Hc Hrest].
    change (c :: rest) with ([c] ++ rest). constructor; auto.
    destruct rest as [|d rest]; auto.
    apply keyTail_spec in Hrest as (mid & t & -> & Hmid & Ht).
    apply lang_Quest. constructor; auto.
    now apply lang_Star_Class.
Qed.

(** The expression accepts exactly the identifiers. *)
Lemma MatchString_key s :
  MatchString machinePoolKeyRE s = keyShape (list_ascii_of_string s).
Proof.
  unfold MatchString. rewrite machinePoolKeyRE_body at 1 2. cbn [anchorBegin anchorEnd].
  cbn [existsb]. rewrite orb_false_r.
  apply eq_true_iff_eq. rewrite matchAll_spec. apply lang_key.
Qed.

(** Every byte of an identifier is a letter, a digit or a dash. *)
Lemma keyShape_chars l c :
  keyShape l = true -> In c l -> innerChar c = true.
Proof.
  assert (Hfirst : forall x, firstChar x = true -> innerChar x = true).
  { intros x. unfold firstChar, innerChar, inClass. cbn [existsb].
    destruct (Ascii.leb "a" x && Ascii.leb x "z"); [intros _ | discriminate].
    now rewrite orb_true_r. }
  assert (Hlast : forall x, lastChar x = true -> innerChar x = true).
  { intros x. unfold lastChar, innerChar, inClass. cbn [existsb].
    intros ->. now rewrite orb_true_r. }
  destruct l as [|d rest]; [discriminate|]. simpl.
  rewrite andb_true_iff. intros [Hd Hrest] [<-|Hin]; auto.
  destruct rest as [|e rest]; [contradiction|].
  apply keyTail_spec in Hrest as (mid & t & E & Hmid & Ht).
  rewrite E in Hin. apply in_app_or in Hin as [Hin|[<-|[]]]; auto.
  rewrite forallb_forall in Hmid. auto.
Qed.

End RegexpFacts.

(** ** Trimming *)

Section TrimFacts.

Variable cutset : string.

Lemma TrimLeft_cases s :
  Go.TrimLeft s cutset = EmptyString \/
  exists c rest, Go.TrimLeft s cutset = String c rest
                 /\ Go.IndexByte cutset c = false.
Proof.
  induction s as [|c s IH]; simpl; auto.
  destruct (Go.IndexByte cutset c) eqn:E; eauto.
Qed.

Lemma TrimRight_head c rest :
  Go.IndexByte cutset c = false ->
  exists rest', Go.TrimRight (String c rest) cutset = String c rest'.
Proof.
  intros E. simpl. destruct (Go.TrimRight rest cutset); eauto.
  rewrite E. eauto.
Qed.

Lemma TrimRight_idem s :
  Go.TrimRight (Go.TrimRight s cutset) cutset = Go.TrimRight s cutset.
Proof.
  induction s as [|c s IH]; simpl; auto.
  destruct (Go.TrimRight s cutset) as [|d kept] eqn:E.
  - destruct (Go.IndexByte cutset c) eqn:Ec; simpl; auto. now rewrite Ec.
  - change (Go.TrimRight (String c (String d kept)) cutset)
      with (match Go.TrimRight (String d kept) cutset with
            | EmptyString => if Go.IndexByte cutset c then EmptyString
                             else String c EmptyString
            | k => String c k
            end).
    now rewrite IH.
Qed.

(** Trimming what is trimmed changes nothing. *)
Lemma Trim_idem s : Go.Trim (Go.Trim s cutset) cutset = Go.Trim s cutset.
Proof.
  unfold Go.Trim.
  destruct (TrimLeft_cases s) as [-> | (c & rest & -> & Ec)]; auto.
  destruct (TrimRight_head c rest Ec) as (rest' & E). rewrite E.
  cbn [Go.TrimLeft]. rewrite Ec, <- E. apply TrimRight_idem.
Qed.

(** A byte outside the cutset survives the trimming. *)
Lemma TrimLeft_keeps s c :
  Go.IndexByte cutset c = false -> In c (list_ascii_of_string s) ->
  In c (list_ascii_of_string (Go.TrimLeft s cutset)).
Proof.
  intros Ec. induction s as [|d s IH]; simpl; auto.
  intros [<-|Hin].
  - rewrite Ec. now left.
  - destruct (Go.IndexByte cutset d); simpl; auto.
Qed.

Lemma TrimRight_keeps s c :
  Go.IndexByte cutset c = false -> In c (list_ascii_of_string s) ->
  In c (list_ascii_of_string (Go.TrimRight s cutset)).
Proof.
  intros Ec. induction s as [|d s IH]; simpl; auto.
  intros [<-|Hin].
  - destruct (Go.TrimRight s cutset); [rewrite Ec|]; now left.
  - specialize (IH Hin).
    destruct (Go.TrimRight s cutset); [contradiction|]. now right.
Qed.

Lemma Trim_keeps s c :
  Go.IndexByte cutset c = false -> In c (list_ascii_of_string s) ->
  In c (list_ascii_of_string (Go.Trim s cutset)).
Proof.
  intros Ec Hin. unfold Go.Trim.
  now apply TrimRight_keeps, TrimLeft_keeps.
Qed.

End TrimFacts.

(** What the cutset surrounds is what the trimming leaves. *)
Section TrimPadded.

Variable cutset : string.

Let inside (s : string) : Prop :=
  forall c, In c (list_ascii_of_string s) -> Go.IndexByte cutset c = true.
Let outside (s : string) : Prop :=
  forall c, In c (list_ascii_of_string s) -> Go.IndexByte cutset c = false.

Lemma append_String c (s t : string) : String c s +:+ t = String c (s +:+ t).
Proof. reflexivity. Qed.

Lemma append_empty (s : string) : s +:+ "" = s.
Proof.
  induction s as [|c s IH]; [reflexivity|].
  rewrite append_String. now f_equal.
Qed.

Lemma TrimLeft_padding pre s :
  inside pre -> Go.TrimLeft (pre +:+ s) cutset = Go.TrimLeft s cutset.
Proof.
  induction pre as [|c pre IH]; intros Hin; [reflexivity|].
  rewrite append_String. cbn [Go.TrimLeft].
  rewrite (Hin c) by (now left). apply IH.
  intros d Hd. apply Hin. now right.
Qed.

Lemma TrimRight_padding post : inside post -> Go.TrimRight post cutset = "".
Proof.
  induction post as [|c post IH]; intros Hin; [reflexivity|].
  cbn [Go.TrimRight]. rewrite IH by (intros d Hd; apply Hin; now right).
  now rewrite (Hin c) by (now left).
Qed.

Lemma TrimRight_padded core post :
  outside core -> inside post -> Go.TrimRight (core +:+ post) cutset = core.
Proof.
  intros Hout Hin. induction core as [|c core IH].
  - now apply TrimRight_padding.
  - rewrite append_String. cbn [Go.TrimRight].
    rewrite IH by (intros d Hd; apply Hout; now right).
    destruct core; [|reflexivity].
    now rewrite (Hout c) by (now left).
Qed.

Lemma Trim_padded pre core post :
  inside pre -> outside core -> inside post ->
  Go.Trim (pre +:+ core +:+ post) cutset = core.
Proof.
  intros Hpre Hcore Hpost. unfold Go.Trim.
  rewrite TrimLeft_padding by assumption.
  destruct core as [|c core].
  - change ("" +:+ post) with post.
    rewrite <- (append_empty post) at 1.
    rewrite TrimLeft_padding by assumption. reflexivity.
  - rewrite append_String. cbn [Go.TrimLeft].
    rewrite (Hcore c) by (now left).
    rewrite <- append_String. now apply TrimRight_padded.
Qed.

End TrimPadded.

(** ** Tactics for the runs *)

(** The fields of the records that carry the locals. *)
Ltac locals :=
  cbn beta iota delta
    [fst snd sm_flags sm_name sm_placement sm_autoscaling
     bs_mode bs_scaling bs_securityGroupIds bs_instanceType
     bs_availabilityZonesFilter bs_labelMap bs_taintBuilders
     rs_before rs_spot rs_awsTags rs_rootVolume
     nm_name nm_version nm_subnet nm_autoscaling
     nr_mode nr_scaling nr_labelMap nr_taintBuilders nr_securityGroupIds
     nr_awsTags nr_instanceType nr_autorepair nr_tuningConfigs
     nr_kubeletConfigs nr_nodeDrain].

(** Both sides run the same steps: case analysis on each in turn. *)
Ltac same_steps :=
  unfold bind, ret; locals;
  repeat match goal with
         | |- context [match ?m ?w with (_, _) => _ end] =>
             destruct (m w) as [[?|?|?] ?]; locals
         end;
  try reflexivity.

(** Takes a run that returned apart into the runs of its steps. *)
Ltac run_inv H :=
  repeat (let a := fresh "a" in
          let w1 := fresh "w" in
          let E := fresh "E" in
          apply bind_inv in H as (a & w1 & E & H)).

(** Takes the run of a part that returned apart, down to its prompts and
    calls. *)
Ltac unravel :=
repeat match goal with
       | H : bind _ _ _ = (Ret _, _) |- _ =>
           let a := fresh "a" in
           let w := fresh "w" in
           let E := fresh "E" in
           apply bind_inv in H as (a & w & E & H)
       | H : wrap _ _ _ = (Ret _, _) |- _ => apply wrap_inv in H
       | H : Enabled _ = (Ret _, _) |- _ => apply Enabled_inv in H as [-> ->]
       | H : check _ _ = (Ret _, _) |- _ => apply check_inv in H as [H ->]
       | H : ret _ _ = (Ret _, _) |- _ =>
           unfold ret in H; inversion H; subst; clear H
       | H : fail _ _ = (Ret _, _) |- _ => unfold fail in H; discriminate H
       | H : panic _ _ = (Ret _, _) |- _ => unfold panic in H; discriminate H
       | H : first ?l _ = (Ret _, _) |- _ =>
           destruct l; cbn [first] in H
       | H : (if ?b then _ else _) _ = (Ret _, _) |- _ => destruct b eqn:?
       end.

(** ** The phases of the two functions *)

Section PhaseFacts.

Context {U : Type} (C : Collaborators U).
Implicit Types w : World U.

Lemma CreateMachinePool_split_mode cmd key cluster args w :
  CreateMachinePool C cmd key cluster args w =
  bind (machinePoolScalingMode C cmd cluster args)
    (fun sm =>
       sc <- resolveReplicas C cmd args (multiAZMachinePool (sm_placement sm))
               (sm_autoscaling sm) ;;
       securityGroupIds <- resolveSecurityGroups C cmd cluster args (sm_flags sm) ;;
       it <- resolveInstanceType C cmd cluster args (sm_name sm) (sm_placement sm) ;;
       labelMap <- call (mpHelpers_GetLabelMap C cmd ∅ (Labels args)) ;;
       taintBuilders <- call (mpHelpers_GetTaints C cmd [] (Taints args)) ;;
       sp <- resolveSpot C cmd args (subnet (sm_placement sm)) (snd it) ;;
       awsTags <- call (mpHelpers_GetAwsTags C cmd (Tags args)) ;;
       rootVolume <- resolveRootDisk C cmd cluster args ;;
       submitMachinePool C key cluster (sm_name sm)
         (mpBuilder cluster (sm_name sm) (fst it) labelMap taintBuilders sc sp
            securityGroupIds awsTags (sm_placement sm) rootVolume)) w.
Proof.
  unfold CreateMachinePool, machinePoolScalingMode. same_steps.
Qed.

Lemma CreateMachinePool_split_spot cmd key cluster args w :
  CreateMachinePool C cmd key cluster args w =
  bind (machinePoolBeforeSpot C cmd cluster args)
    (fun bs =>
       sp <- resolveSpot C cmd args (subnet (sm_placement (bs_mode bs)))
               (bs_availabilityZonesFilter bs) ;;
       awsTags <- call (mpHelpers_GetAwsTags C cmd (Tags args)) ;;
       rootVolume <- resolveRootDisk C cmd cluster args ;;
       submitMachinePool C key cluster (sm_name (bs_mode bs))
         (machinePoolPayload cluster
            {| rs_before := bs; rs_spot := sp; rs_awsTags := awsTags;
               rs_rootVolume := rootVolume |})) w.
Proof.
  rewrite CreateMachinePool_split_mode.
  unfold machinePoolBeforeSpot, machinePoolPayload. same_steps.
Qed.

Lemma CreateMachinePool_split cmd key cluster args w :
  CreateMachinePool C cmd key cluster args w =
  bind (machinePoolResolved C cmd cluster args)
    (fun rs =>
       submitMachinePool C key cluster (sm_name (bs_mode (rs_before rs)))
         (machinePoolPayload cluster rs)) w.
Proof.
  rewrite CreateMachinePool_split_spot.
  unfold machinePoolResolved. same_steps.
Qed.

Lemma CreateNodePools_split_mode cmd key cluster args w :
  CreateNodePools C cmd key cluster args w =
  if Changed cmd "subnet" && Changed cmd "availability-zone"
  then (Fail conflictMessage, w)
  else
    bind (nodePoolScalingMode C cmd cluster args)
      (fun nm =>
         sc <- resolveNodePoolReplicas C cmd args (nm_autoscaling nm) ;;
         labelMap <- call (mpHelpers_GetLabelMap C cmd ∅ (Labels args)) ;;
         taintBuilders <- call (mpHelpers_GetTaints C cmd [] (Taints args)) ;;
         securityGroupIds <-
           resolveNodePoolSecurityGroups C cmd cluster args (nm_version nm) ;;
         awsTags <- call (mpHelpers_GetAwsTags C cmd (Tags args)) ;;
         instanceType <-
           resolveNodePoolInstanceType C cmd cluster args (nm_name nm)
             (nm_subnet nm) ;;
         autorepair <- resolveAutorepair C cmd args ;;
         inputTuningConfig <- resolveTuningConfigs C cmd cluster args ;;
         inputKubeletConfigs <- resolveKubeletConfigs C cmd cluster args ;;
         nodeDrain <- resolveNodeDrainGracePeriod C cmd args ;;
         submitNodePool C key cluster (nm_name nm)
           (npBuilder (nm_name nm) labelMap taintBuilders sc (nm_subnet nm)
              autorepair inputTuningConfig inputKubeletConfigs
              (createAwsNodePoolBuilder C instanceType securityGroupIds awsTags)
              nodeDrain (nm_version nm))) w.
Proof.
  unfold CreateNodePools, nodePoolScalingMode.
  destruct (Changed cmd "subnet" && Changed cmd "availability-zone");
    [reflexivity|].
  same_steps.
Qed.

Lemma CreateNodePools_split cmd key cluster args w :
  CreateNodePools C cmd key cluster args w =
  if Changed cmd "subnet" && Changed cmd "availability-zone"
  then (Fail conflictMessage, w)
  else
    bind (nodePoolResolved C cmd cluster args)
      (fun nr =>
         submitNodePool C key cluster (nm_name (nr_mode nr))
           (nodePoolPayload C nr)) w.
Proof.
  rewrite CreateNodePools_split_mode.
  destruct (Changed cmd "subnet" && Changed cmd "availability-zone");
    [reflexivity|].
  unfold nodePoolResolved, nodePoolPayload. same_steps.
Qed.

Lemma quiet_machinePoolScalingMode cmd cluster args :
  quiet (machinePoolScalingMode C cmd cluster args).
Proof. unfold machinePoolScalingMode. quiet. Qed.

Lemma quiet_machinePoolBeforeSpot cmd cluster args :
  quiet (machinePoolBeforeSpot C cmd cluster args).
Proof.
  unfold machinePoolBeforeSpot.
  apply quiet_bind; [apply quiet_machinePoolScalingMode | intros ?]. quiet.
Qed.

Lemma quiet_machinePoolResolved cmd cluster args :
  quiet (machinePoolResolved C cmd cluster args).
Proof.
  unfold machinePoolResolved.
  apply quiet_bind; [apply quiet_machinePoolBeforeSpot | intros ?]. quiet.
Qed.

Lemma quiet_nodePoolScalingMode cmd cluster args :
  quiet (nodePoolScalingMode C cmd cluster args).
Proof. unfold nodePoolScalingMode. quiet. Qed.

Lemma quiet_nodePoolResolved cmd cluster args :
  quiet (nodePoolResolved C cmd cluster args).
Proof.
  unfold nodePoolResolved.
  apply quiet_bind; [apply quiet_nodePoolScalingMode | intros ?]. quiet.
Qed.

(** *** The last part: at most one create call, of the payload *)

Lemma creations_snoc trace e :
  creations (trace ++ [e]) =
  (creations trace ++ if isCreate e then [e] else [])%list.
Proof. unfold creations. now rewrite List.filter_app. Qed.

Lemma submitMachinePool_creations key cluster name payload w r w' :
  submitMachinePool C key cluster name payload w = (r, w') ->
  (cmv1_MachinePool_Build C payload <> None /\ r <> Ret tt
   /\ creations (trace w') = creations (trace w)) \/
  (cmv1_MachinePool_Build C payload = None /\
   creations (trace w') =
   (creations (trace w)
      ++ [CreateMachinePoolRequest (cluster_ID cluster) payload])%list).
Proof.
  unfold submitMachinePool.
  destruct (cmv1_MachinePool_Build C payload) as [err|] eqn:B.
  - intros H. inversion H; subst. left. repeat split; congruence.
  - intros H. right. split; [reflexivity|]. revert H.
    unfold bind, wrap, check, ret, emit, call, fail; cbn.
    destruct (OCMClient_CreateMachinePool C _ _ _ _) as [[mp|?|?] u1];
      cbn; [| intros H; inversion H; subst; cbn; apply creations_snoc ..].
    destruct (output_HasFlag C); cbn.
    + destruct (output_Print_MachinePool C _ _ _) as [[?|?|?] u2];
        intros H; inversion H; subst; cbn;
        rewrite !creations_snoc; cbn; now rewrite ?app_nil_r.
    + intros H; inversion H; subst; cbn.
      rewrite !creations_snoc; cbn; now rewrite ?app_nil_r.
Qed.

Lemma submitNodePool_creations key cluster name payload w r w' :
  submitNodePool C key cluster name payload w = (r, w') ->
  (cmv1_NodePool_Build C payload <> None /\ r <> Ret tt
   /\ creations (trace w') = creations (trace w)) \/
  (cmv1_NodePool_Build C payload = None /\
   creations (trace w') =
   (creations (trace w)
      ++ [CreateNodePoolRequest (cluster_ID cluster) payload])%list).
Proof.
  unfold submitNodePool.
  destruct (cmv1_NodePool_Build C payload) as [err|] eqn:B.
  - intros H. inversion H; subst. left. repeat split; congruence.
  - intros H. right. split; [reflexivity|]. revert H.
    unfold bind, wrap, check, ret, emit, call, fail; cbn.
    destruct (OCMClient_CreateNodePool C _ _ _ _) as [[mp|?|?] u1];
      cbn; [| intros H; inversion H; subst; cbn; apply creations_snoc ..].
    destruct (output_HasFlag C); cbn.
    + destruct (output_Print_NodePool C _ _ _) as [[?|?|?] u2];
        intros H; inversion H; subst; cbn;
        rewrite !creations_snoc; cbn; now rewrite ?app_nil_r.
    + intros H; inversion H; subst; cbn.
      rewrite !creations_snoc; cbn; now rewrite ?app_nil_r.
Qed.

(** A run of CreateMachinePool either creates nothing and does not
    succeed, or resolved every input and asked once for the creation
    of the payload these make. *)
Lemma CreateMachinePool_run cmd key cluster args w r w' :
  CreateMachinePool C cmd key cluster args w = (r, w') ->
  (r <> Ret tt /\ creations (trace w') = creations (trace w)) \/
  exists rs w1,
    machinePoolResolved C cmd cluster args w = (Ret rs, w1) /\
    creations (trace w') =
    (creations (trace w)
       ++ [CreateMachinePoolRequest (cluster_ID cluster)
             (machinePoolPayload cluster rs)])%list.
Proof.
  rewrite CreateMachinePool_split. unfold bind.
  destruct (machinePoolResolved C cmd cluster args w) as [[rs|e|why] w1] eqn:E;
    pose proof (quiet_machinePoolResolved _ _ _ _ _ _ E) as Q.
  - intros H. apply submitMachinePool_creations in H as [(_ & Hr & Hc)|(_ & Hc)].
    + left. split; [exact Hr | congruence].
    + right. exists rs, w1. split; [reflexivity | congruence].
  - intros H. inversion H; subst. left. split; [discriminate | exact Q].
  - intros H. inversion H; subst. left. split; [discriminate | exact Q].
Qed.

Lemma CreateNodePools_run cmd key cluster args w r w' :
  CreateNodePools C cmd key cluster args w = (r, w') ->
  (r <> Ret tt /\ creations (trace w') = creations (trace w)) \/
  exists nr w1,
    nodePoolResolved C cmd cluster args w = (Ret nr, w1) /\
    creations (trace w') =
    (creations (trace w)
       ++ [CreateNodePoolRequest (cluster_ID cluster) (nodePoolPayload C nr)])%list.
Proof.
  rewrite CreateNodePools_split.
  destruct (Changed cmd "subnet" && Changed cmd "availability-zone").
  { intros H. inversion H; subst. left. split; [discriminate | reflexivity]. }
  unfold bind.
  destruct (nodePoolResolved C cmd cluster args w) as [[nr|e|why] w1] eqn:E;
    pose proof (quiet_nodePoolResolved _ _ _ _ _ _ E) as Q.
  - intros H. apply submitNodePool_creations in H as [(_ & Hr & Hc)|(_ & Hc)].
    + left. split; [exact Hr | congruence].
    + right. exists nr, w1. split; [reflexivity | congruence].
  - intros H. inversion H; subst. left. split; [discriminate | exact Q].
  - intros H. inversion H; subst. left. split; [discriminate | exact Q].
Qed.

End PhaseFacts.

(** ** The parts of CreateMachinePool one by one *)

Section StageFacts.

Context {U : Type} (C : Collaborators U).
Implicit Types w : World U.

Ltac flag_cases cmd cluster :=
  unfold validateFlags, bind, wrap, lift, fail, ret; cbv zeta;
  destruct (Changed cmd "multi-availability-zone");
  destruct (cluster_MultiAZ cluster);
  destruct (helper_IsBYOVPC C cluster);
  destruct (versions_IsGreaterThanOrEqual C (cluster_Version_RawID cluster)
              (ocm_MinVersionForAdditionalComputeSecurityGroupIdsDay2 C))
    as [?|[|]];
  destruct (Changed cmd (securitygroups_MachinePoolSecurityGroupFlag C));
  destruct (versions_FormatMajorMinorPatch C
              (ocm_MinVersionForAdditionalComputeSecurityGroupIdsDay2 C))
    as [?|?];
  cbn.

(** The checks on the flags touch nothing. *)
Lemma validateFlags_pure cmd cluster args w r w' :
  validateFlags C cmd cluster args w = (r, w') -> w' = w.
Proof.
  destruct (Changed cmd "availability-zone") eqn:Ha;
    destruct (Changed cmd "subnet") eqn:Hs;
    destruct (MultiAvailabilityZone args) eqn:Hm;
    flag_cases cmd cluster; rewrite ?Ha, ?Hs, ?Hm; cbn;
    intros H; inversion H; reflexivity.
Qed.

(** What the checks on the flags let through. *)
Lemma validateFlags_Ret cmd cluster args w fl w' :
  validateFlags C cmd cluster args w = (Ret fl, w') ->
  isSubnetSet fl = Changed cmd "subnet" /\
  isAvailabilityZoneSet fl = Changed cmd "availability-zone" /\
  isByoVpc fl = helper_IsBYOVPC C cluster /\
  isSecurityGroupIdsSet fl =
    Changed cmd (securitygroups_MachinePoolSecurityGroupFlag C) /\
  versions_IsGreaterThanOrEqual C (cluster_Version_RawID cluster)
    (ocm_MinVersionForAdditionalComputeSecurityGroupIdsDay2 C)
    = inr (isVersionCompatibleComputeSgIds fl) /\
  (isSecurityGroupIdsSet fl = true ->
   isByoVpc fl = true /\ isVersionCompatibleComputeSgIds fl = true) /\
  (isSubnetSet fl = true -> isAvailabilityZoneSet fl = false).
Proof.
  destruct (Changed cmd "availability-zone") eqn:Ha;
    destruct (Changed cmd "subnet") eqn:Hs;
    destruct (MultiAvailabilityZone args) eqn:Hm;
    flag_cases cmd cluster; rewrite ?Ha, ?Hs, ?Hm; cbn;
    intros H; inversion H; subst; cbn; repeat split; auto; discriminate.
Qed.

(** With both flags set the checks fail, at the conflict when nothing
    before it fails. *)
Lemma validateFlags_conflict cmd cluster args w :
  Changed cmd "subnet" = true ->
  Changed cmd "availability-zone" = true ->
  exists err,
    validateFlags C cmd cluster args w = (Fail err, w) /\
    (cluster_MultiAZ cluster = true ->
     helper_IsBYOVPC C cluster = true ->
     forall compatible,
       versions_IsGreaterThanOrEqual C (cluster_Version_RawID cluster)
         (ocm_MinVersionForAdditionalComputeSecurityGroupIdsDay2 C)
         = inr compatible ->
       Changed cmd (securitygroups_MachinePoolSecurityGroupFlag C) = false
       \/ compatible = true ->
       err = conflictMessage).
Proof.
  intros Hs Ha.
  flag_cases cmd cluster; rewrite ?Ha, ?Hs; cbn;
    eexists; (split; [reflexivity|]);
    intros; try discriminate; try reflexivity;
    repeat match goal with
           | H : inr _ = inr _ |- _ => inversion H; subst; clear H
           | H : _ \/ _ |- _ => destruct H
           end; try discriminate; try reflexivity.
Qed.

(** What the validators that ran without an error say. *)
Ltac validated :=
  repeat match goal with
         | E : check _ _ = (Ret _, _) |- _ => apply check_inv in E as [E _]
         | E : minReplicaValidator _ (VInt _) = None |- _ =>
             apply minReplicaValidator_int in E as [? ?]
         | E : maxReplicaValidator _ _ (VInt _) = None |- _ =>
             apply maxReplicaValidator_int in E as [? ?]
         end.

(** The name that comes out of lines 145-167 is trimmed and matches
    the expression. *)
Lemma resolveName_Ret args w name w' :
  resolveName C args w = (Ret name, w') ->
  Regexp.MatchString machinePoolKeyRE name = true /\
  Go.Trim name spaceTab = name.
Proof.
  unfold resolveName. intros H. run_inv H.
  match type of H with
  | context [Regexp.MatchString ?re ?n] =>
      destruct (Regexp.MatchString re n) eqn:M
  end; cbn in H; inversion H; subst.
  split; [exact M | apply Trim_idem].
Qed.

(** Without prompts the name is the argument, trimmed. *)
Lemma resolveName_batch args w :
  interactive_Enabled w = false ->
  Go.Trim (Name args) spaceTab <> "" ->
  resolveName C args w =
  (if Regexp.MatchString machinePoolKeyRE (Go.Trim (Name args) spaceTab)
   then Ret (Go.Trim (Name args) spaceTab) else Fail invalidName, w).
Proof.
  intros Hi Hn. unfold resolveName, bind, Enabled. rewrite Hi.
  apply String.eqb_neq in Hn. rewrite Hn. cbn. rewrite Hi. cbn.
  rewrite Trim_idem.
  now destruct (Regexp.MatchString _ _).
Qed.

(** What lines 260-325 let through. *)
Lemma resolveReplicas_Ret cmd args multiAZ a w sc w' :
  resolveReplicas C cmd args multiAZ a w = (Ret sc, w') ->
  autoscaling sc = a /\
  if a then
    Changed cmd "replicas" = false /\
    0 <= minReplicas sc <= maxReplicas sc /\
    (multiAZ = true -> (3 | minReplicas sc) /\ (3 | maxReplicas sc))
  else
    Changed cmd "min-replicas" = false /\
    Changed cmd "max-replicas" = false /\
    0 <= replicas sc /\
    (multiAZ = true -> (3 | replicas sc)).
Proof.
  unfold resolveReplicas. destruct a.
  - destruct (Changed cmd "replicas"); [discriminate|].
    intros H. run_inv H. inversion H; subst; cbn.
    validated. repeat split; intros; auto; lia.
  - destruct (Changed cmd "min-replicas"); [discriminate|].
    destruct (Changed cmd "max-replicas"); [discriminate|].
    intros H. cbn [orb] in H. run_inv H. inversion H; subst; cbn.
    validated. repeat split; intros; auto; lia.
Qed.

(** What lines 402-460 let through. *)
Lemma resolveSpot_Ret cmd args subnet zones w sp w' :
  resolveSpot C cmd args subnet zones w = (Ret sp, w') ->
  (Changed cmd "spot-max-price" = true ->
   Changed cmd "use-spot-instances" = true ->
   UseSpotInstances args = true) /\
  spotMaxPriceValidator C (VStr (spotMaxPrice sp)) = None /\
  maxPrice sp =
    (if String.eqb (spotMaxPrice sp) "on-demand" then None
     else Some (fst (strconv_ParseFloat C (spotMaxPrice sp)
                       (commonUtils_MaxByteSize C)))).
Proof.
  unfold resolveSpot.
  destruct (Changed cmd "spot-max-price" && Changed cmd "use-spot-instances"
            && negb (UseSpotInstances args)) eqn:V; [discriminate|].
  intros H. run_inv H.
  match type of H with
  | (if ?b then _ else _) _ = _ => destruct b; [discriminate|]
  end.
  run_inv H. inversion H; subst; cbn.
  match goal with
  | E : check _ _ = (Ret _, _) |- _ => apply check_inv in E as [E _]
  end.
  repeat split; auto.
  - intros Hp Hs. rewrite Hp, Hs in V. now destruct (UseSpotInstances args).
  - now destruct (String.eqb _ "on-demand").
Qed.

(** The first of the two spot checks, on the flags alone. *)
Lemma resolveSpot_price_without_spot cmd args subnet zones w :
  Changed cmd "spot-max-price" = true ->
  Changed cmd "use-spot-instances" = true ->
  UseSpotInstances args = false ->
  resolveSpot C cmd args subnet zones w =
  (Fail "Can't set max price when not using spot instances", w).
Proof.
  intros Hp Hs Hu. unfold resolveSpot. now rewrite Hp, Hs, Hu.
Qed.

(** The second check: in a local zone spot instances are refused when
    asked for, and are not offered when not. *)
Lemma resolveSpot_local_zone cmd args subnet zone zones w u :
  Changed cmd "spot-max-price" && Changed cmd "use-spot-instances"
    && negb (UseSpotInstances args) = false ->
  subnet <> "" ->
  AWSClient_IsLocalAvailabilityZone C zone (interactive_Enabled w) (outside w)
    = (Ret true, u) ->
  (UseSpotInstances args = true ->
   resolveSpot C cmd args subnet (zone :: zones) w =
   (Fail "Spot instances are not supported for local zones",
    afterLocalZoneRequest zone u w)) /\
  (forall r w', resolveSpot C cmd args subnet (zone :: zones) w = (r, w') ->
                forall sp, r = Ret sp -> useSpotInstances sp = false).
Proof.
  intros V Hs Hl. apply String.eqb_neq in Hs.
  assert (Hreq :
    bind (first (zone :: zones))
      (fun zone => request "IsLocalAvailabilityZone" [zone]
                     (AWSClient_IsLocalAvailabilityZone C zone)) w
    = (Ret true, afterLocalZoneRequest zone u w)).
  { unfold first, request, bind, ret, emit, call. cbn. now rewrite Hl. }
  unfold resolveSpot. rewrite V, Hs. cbn [negb].
  rewrite (bind_Ret _ _ _ _ _ Hreq). cbn [andb].
  split.
  - intros ->. reflexivity.
  - destruct (UseSpotInstances args) eqn:Hu.
    + intros r w' H sp Hr. inversion H; subst. discriminate.
    + rewrite !andb_false_r.
      intros r w' H sp ->. run_inv H. inversion H; subst; cbn.
      unfold Enabled, ret in *. cbn [andb] in *.
      repeat match goal with
             | E : (Ret _, _) = (Ret _, _) |- _ => inversion E; subst; clear E
             end.
      reflexivity.
Qed.

(** Without prompts the spot settings are those of the arguments. *)
Lemma resolveSpot_batch cmd args subnet zones w sp w' :
  interactive_Enabled w = false ->
  resolveSpot C cmd args subnet zones w = (Ret sp, w') ->
  useSpotInstances sp = UseSpotInstances args /\
  spotMaxPrice sp = SpotMaxPrice args.
Proof.
  intros Hi. unfold resolveSpot.
  destruct (_ && negb (UseSpotInstances args)); [discriminate|].
  intros H. apply bind_inv in H as (isLocalZone & w1 & E & H).
  assert (Hi1 : interactive_Enabled w1 = false).
  { destruct (negb (String.eqb subnet "")).
    - destruct zones as [|zone zones]; [discriminate|].
      revert E. unfold first, request, bind, ret, emit, call. cbn.
      destruct (AWSClient_IsLocalAvailabilityZone C _ _ _) as [r u].
      intros E. now inversion E; subst.
    - now inversion E; subst. }
  destruct (isLocalZone && UseSpotInstances args); [discriminate|].
  run_inv H. inversion H; subst; clear H; cbn.
  repeat match goal with
         | E : Enabled _ = (Ret _, _) |- _ =>
             apply Enabled_inv in E as [-> ->]
         | Hx : interactive_Enabled ?x = false,
           E : (if _ && interactive_Enabled ?x then _ else _) _ = _ |- _ =>
             rewrite Hx, andb_false_r in E; inversion E; subst; clear E
         end.
  auto.
Qed.

(** What lines 774-839 let through of the flags. *)
Lemma resolveNodePoolReplicas_Ret cmd args a w sc w' :
  resolveNodePoolReplicas C cmd args a w = (Ret sc, w') ->
  autoscaling sc = a /\
  if a then Changed cmd "replicas" = false
  else Changed cmd "min-replicas" = false /\
       Changed cmd "max-replicas" = false.
Proof.
  unfold resolveNodePoolReplicas. destruct a.
  - destruct (Changed cmd "replicas"); [discriminate|].
    intros H. run_inv H. inversion H; subst; cbn. auto.
  - destruct (Changed cmd "min-replicas"); [discriminate|].
    destruct (Changed cmd "max-replicas"); [discriminate|].
    intros H. cbn [orb] in H. run_inv H. inversion H; subst; cbn. auto.
Qed.

(** *** The runs of the steps inside the run of a phase *)

Lemma machinePoolScalingMode_inv cmd cluster args w sm w' :
  machinePoolScalingMode C cmd cluster args w = (Ret sm, w') ->
  validateFlags C cmd cluster args w = (Ret (sm_flags sm), w) /\
  exists w1 w2, resolveName C args w1 = (Ret (sm_name sm), w2).
Proof.
  unfold machinePoolScalingMode. intros H. run_inv H.
  inversion H; subst; locals.
  match goal with
  | E : validateFlags _ _ _ _ _ = _ |- _ =>
      pose proof (validateFlags_pure _ _ _ _ _ _ E); subst
  end.
  split; [assumption | eauto].
Qed.

Lemma machinePoolBeforeSpot_inv cmd cluster args w bs w' :
  machinePoolBeforeSpot C cmd cluster args w = (Ret bs, w') ->
  exists w1 w2,
    machinePoolScalingMode C cmd cluster args w = (Ret (bs_mode bs), w1) /\
    resolveReplicas C cmd args
      (multiAZMachinePool (sm_placement (bs_mode bs)))
      (sm_autoscaling (bs_mode bs)) w1 = (Ret (bs_scaling bs), w2).
Proof.
  unfold machinePoolBeforeSpot. intros H. run_inv H.
  inversion H; subst; locals. eauto.
Qed.

Lemma machinePoolResolved_inv cmd cluster args w rs w' :
  machinePoolResolved C cmd cluster args w = (Ret rs, w') ->
  exists w1 w2,
    machinePoolBeforeSpot C cmd cluster args w = (Ret (rs_before rs), w1) /\
    resolveSpot C cmd args (subnet (sm_placement (bs_mode (rs_before rs))))
      (bs_availabilityZonesFilter (rs_before rs)) w1 = (Ret (rs_spot rs), w2).
Proof.
  unfold machinePoolResolved. intros H. run_inv H.
  inversion H; subst; locals. eauto.
Qed.

Lemma nodePoolResolved_inv cmd cluster args w nr w' :
  nodePoolResolved C cmd cluster args w = (Ret nr, w') ->
  exists w1 w2,
    nodePoolScalingMode C cmd cluster args w = (Ret (nr_mode nr), w1) /\
    resolveNodePoolReplicas C cmd args (nm_autoscaling (nr_mode nr)) w1
      = (Ret (nr_scaling nr), w2).
Proof.
  unfold nodePoolResolved. intros H. run_inv H.
  inversion H; subst; locals. eauto.
Qed.

(** With a prompt the name is the answer, trimmed. *)
Lemma resolveName_prompted args w answer u :
  interactive_Enabled w = true ->
  interactive_GetString C
    {| Question := "Machine pool name";
       Help := "";
       Options := [];
       Default := VStr (Go.Trim (Name args) spaceTab);
       Required := true;
       Validators := [interactive_RegExp C (Regexp.String machinePoolKeyRE)] |}
    true (outside w) = (Ret answer, u) ->
  resolveName C args w =
  (if Regexp.MatchString machinePoolKeyRE (Go.Trim answer spaceTab)
   then Ret (Go.Trim answer spaceTab) else Fail invalidName,
   mkWorld true (trace w ++ [Asked "Machine pool name"]) u).
Proof.
  intros Hi Hask. unfold resolveName, bind, Enabled. rewrite Hi.
  cbn [negb]. rewrite andb_false_r. unfold ret at 1. rewrite Hi, orb_true_r.
  unfold wrap, ask, bind, emit, call. cbn. rewrite Hi, Hask.
  now destruct (Regexp.MatchString _ _).
Qed.

(** What lines 169-235 let through: a zone only for a single-AZ pool of a
    multi-AZ cluster, found by [helper.Contains] among the zones of the
    cluster, and never beside a subnet. *)
Lemma resolvePlacement_Ret cmd cluster args fl w pl w' :
  resolvePlacement C cmd cluster args fl w = (Ret pl, w') ->
  (multiAZMachinePool pl = true ->
   cluster_MultiAZ cluster = true /\ subnet pl = "" /\ availabilityZone pl = "") /\
  (availabilityZone pl <> "" ->
   cluster_MultiAZ cluster = true /\ multiAZMachinePool pl = false /\
   subnet pl = "" /\
   helper_Contains C (cluster_Nodes_AvailabilityZones cluster)
     (availabilityZone pl) = true).
Proof.
  unfold resolvePlacement. intros H.
  destruct (cluster_MultiAZ cluster) eqn:Hm; cbn [negb andb] in H;
    unravel; cbn;
    repeat match goal with
           | E : String.eqb _ "" = true |- _ => apply String.eqb_eq in E
           | E : negb _ = false |- _ => apply negb_false_iff in E
           | E : negb _ = true |- _ => apply negb_true_iff in E
           end;
    subst; split; intros; try congruence; auto.
Qed.


(** With prompts, no subnet and neither of the two spot flags, the spot
    settings are the answers: whether to use spot instances, and then,
    when the answer is yes, the price. *)
Lemma resolveSpot_prompted cmd args zones w useFlag priceFlag use u1 :
  interactive_Enabled w = true ->
  Lookup cmd "use-spot-instances" = Some useFlag ->
  flag_Changed useFlag = false ->
  Lookup cmd "spot-max-price" = Some priceFlag ->
  flag_Changed priceFlag = false ->
  interactive_GetBool C
    (boolInput "Use spot instances" (Usage useFlag) (UseSpotInstances args))
    true (outside w) = (Ret use, u1) ->
  let asked := mkWorld true (trace w ++ [Asked "Use spot instances"]) u1 in
  let settled useSpotInstances spotMaxPrice :=
    match spotMaxPriceValidator C (VStr spotMaxPrice) with
    | None =>
        Ret {| useSpotInstances := useSpotInstances;
               spotMaxPrice := spotMaxPrice;
               maxPrice :=
                 if negb (String.eqb spotMaxPrice "on-demand") then
                   Some (fst (strconv_ParseFloat C spotMaxPrice
                                (commonUtils_MaxByteSize C)))
                 else None |}
    | Some err => Fail err
    end in
  (use = false ->
   resolveSpot C cmd args "" zones w
   = (settled false (SpotMaxPrice args), asked)) /\
  (use = true ->
   forall price u2,
     interactive_GetString C
       {| Question := "Spot instance max price";
          Help := Usage priceFlag;
          Options := [];
          Default := VStr (SpotMaxPrice args);
          Required := false;
          Validators := [spotMaxPriceValidator C] |}
       true u1 = (Ret price, u2) ->
     resolveSpot C cmd args "" zones w
     = (settled true price,
        mkWorld true (trace asked ++ [Asked "Spot instance max price"]) u2)).
Proof.
  intros Hi Hlu Hcu Hlp Hcp Hask asked settled.
  assert (Hu : Changed cmd "use-spot-instances" = false)
    by (unfold Changed; now rewrite Hlu).
  assert (Hp : Changed cmd "spot-max-price" = false)
    by (unfold Changed; now rewrite Hlp).
  split.
  - intros ->. unfold resolveSpot. rewrite Hu, Hp. cbn [andb negb String.eqb].
    unfold bind, Enabled, usage, wrap, ask, emit, call, ret, check, fail.
    cbn. rewrite Hi, Hlu. cbn. rewrite Hi, Hask. cbn.
    subst settled. cbv beta.
    destruct (spotMaxPriceValidator C (VStr (SpotMaxPrice args))); reflexivity.
  - intros -> price u2 Hprice. unfold resolveSpot. rewrite Hu, Hp.
    cbn [andb negb String.eqb].
    unfold bind, Enabled, usage, wrap, ask, emit, call, ret, check, fail.
    cbn. rewrite Hi, Hlu. cbn. rewrite Hi, Hask. cbn. rewrite Hlp. cbn.
    rewrite Hprice. cbn. subst settled. cbv beta.
    destruct (spotMaxPriceValidator C (VStr price)); reflexivity.
Qed.

End StageFacts.

(** ** Floats *)

Lemma float_positive_not_le_zero (price : float) :
  PrimFloat.ltb 0 price = true -> PrimFloat.leb price 0 = false.
Proof.
  rewrite ltb_spec, leb_spec.
  change (Prim2SF 0) with (S754_zero false).
  destruct (Prim2SF price) as [s|s| |s m e]; cbn;
    try destruct s; cbn; congruence.
Qed.

(** * The claims *)

Section Claims.

Context {U : Type} (C : Collaborators U).
Implicit Types w : World U.

(** C1 (amended).  When both the [subnet] and the [availability-zone]
    flag were given, CreateNodePools fails with the conflict message
    and CreateMachinePool fails too, neither having done anything; the
    error of CreateMachinePool is the conflict message when none of
    the checks before it fails, that is on a multi-AZ cluster in a
    network of the customer whose version could be compared, the
    security group flag being absent or supported by the version. *)
Theorem C1_subnet_and_availability_zone_conflict cmd key cluster args w :
  Changed cmd "subnet" = true ->
  Changed cmd "availability-zone" = true ->
  CreateNodePools C cmd key cluster args w = (Fail conflictMessage, w) /\
  (exists err, CreateMachinePool C cmd key cluster args w = (Fail err, w)) /\
  (cluster_MultiAZ cluster = true ->
   helper_IsBYOVPC C cluster = true ->
   forall compatible,
     versions_IsGreaterThanOrEqual C (cluster_Version_RawID cluster)
       (ocm_MinVersionForAdditionalComputeSecurityGroupIdsDay2 C)
       = inr compatible ->
     Changed cmd (securitygroups_MachinePoolSecurityGroupFlag C) = false
     \/ compatible = true ->
     CreateMachinePool C cmd key cluster args w = (Fail conflictMessage, w)).
Proof.
  intros Hs Ha.
  destruct (validateFlags_conflict C cmd cluster args w Hs Ha)
    as (err & Hfail & Hmsg).
  split; [|split].
  - unfold CreateNodePools. now rewrite Hs, Ha.
  - exists err. unfold CreateMachinePool. now apply bind_Fail.
  - intros Hm Hb compatible Hv Hsg.
    rewrite (Hmsg Hm Hb compatible Hv Hsg) in Hfail.
    unfold CreateMachinePool. now apply bind_Fail.
Qed.

(** C7 (amended).  When the security group flag was given and the
    cluster is not in a network of the customer, or its version is not
    known to be at least the minimum, CreateMachinePool fails without
    having done anything, so without a create call.  When no check
    before fails (the multi-AZ flags only on a multi-AZ cluster, the
    version compared without an error, and no [subnet] flag outside a
    network of the customer), the error is the BYOVPC one outside such
    a network, and inside one, below the minimum version, the one that
    names the formatted minimum version. *)
Theorem C7_security_groups_need_byovpc_and_version cmd key cluster args w :
  let sgFlag := securitygroups_MachinePoolSecurityGroupFlag C in
  let minVersion := ocm_MinVersionForAdditionalComputeSecurityGroupIdsDay2 C in
  let compared :=
    versions_IsGreaterThanOrEqual C (cluster_Version_RawID cluster) minVersion in
  Changed cmd sgFlag = true ->
  (helper_IsBYOVPC C cluster = false \/ compared <> inr true ->
   exists err, CreateMachinePool C cmd key cluster args w = (Fail err, w)) /\
  (Changed cmd "multi-availability-zone" = false \/ cluster_MultiAZ cluster = true ->
   Changed cmd "availability-zone" = false \/ cluster_MultiAZ cluster = true ->
   forall compatible, compared = inr compatible ->
     (helper_IsBYOVPC C cluster = false ->
      Changed cmd "subnet" = false ->
      CreateMachinePool C cmd key cluster args w =
      (Fail ("Setting the `" +:+ sgFlag +:+
             "` flag is only allowed for BYOVPC clusters"), w)) /\
     (helper_IsBYOVPC C cluster = true ->
      compatible = false ->
      forall formattedVersion,
        versions_FormatMajorMinorPatch C minVersion = inr formattedVersion ->
        CreateMachinePool C cmd key cluster args w =
        (Fail ("Parameter '" +:+ sgFlag +:+
               "' is not supported prior to version '" +:+ formattedVersion
               +:+ "'"), w))).
Proof.
  intros sgFlag minVersion compared Hsg. subst sgFlag minVersion compared.
  assert (Hbind : forall r,
    validateFlags C cmd cluster args w = (Fail r, w) ->
    CreateMachinePool C cmd key cluster args w = (Fail r, w)).
  { intros r H. unfold CreateMachinePool. now apply bind_Fail. }
  split.
  - intros Hbad.
    destruct (validateFlags C cmd cluster args w) as [[fl|err|why] w1] eqn:E.
    + apply validateFlags_Ret in E
        as (_ & _ & Hb & Hs & Hv & Himp & _).
      rewrite Hs in Himp. destruct (Himp Hsg) as [Hb1 Hc1].
      rewrite Hb in Hb1. rewrite Hc1 in Hv.
      destruct Hbad; congruence.
    + pose proof (validateFlags_pure _ _ _ _ _ _ _ E); subst. eauto.
    + exfalso. revert E.
      destruct (Changed cmd "availability-zone") eqn:Ha;
        destruct (Changed cmd "subnet") eqn:Hs;
        destruct (MultiAvailabilityZone args) eqn:Hm;
        unfold validateFlags, bind, wrap, lift, fail, ret; cbv zeta;
        rewrite ?Hsg;
        destruct (Changed cmd "multi-availability-zone");
        destruct (cluster_MultiAZ cluster);
        destruct (helper_IsBYOVPC C cluster);
        destruct (versions_IsGreaterThanOrEqual C _ _) as [?|[|]];
        destruct (versions_FormatMajorMinorPatch C
                    (ocm_MinVersionForAdditionalComputeSecurityGroupIdsDay2 C));
        cbn; rewrite ?Ha, ?Hs, ?Hm; cbn; discriminate.
  - intros Hmaz Haz compatible Hv. split.
    + intros Hb Hs. apply Hbind.
      unfold validateFlags, bind, wrap, lift, fail, ret; cbv zeta.
      rewrite Hv, Hb, Hs, Hsg.
      destruct (Changed cmd "multi-availability-zone"),
        (Changed cmd "availability-zone"), (cluster_MultiAZ cluster);
        destruct Hmaz, Haz; try discriminate; reflexivity.
    + intros Hb -> formattedVersion Hf. apply Hbind.
      unfold validateFlags, bind, wrap, lift, fail, ret; cbv zeta.
      rewrite Hv, Hb, Hsg, Hf.
      destruct (Changed cmd "multi-availability-zone"),
        (Changed cmd "availability-zone"), (cluster_MultiAZ cluster);
        destruct Hmaz, Haz; try discriminate; reflexivity.
Qed.

(** C2.  On a multi-AZ machine pool the two validators refuse every
    value that is not a multiple of three, so that the replica counts
    with which the step of CreateMachinePool returns are multiples of
    three; on a single-AZ pool they ask for no more than a count that
    is not negative, and a maximum that is not below the minimum. *)
Theorem C2_multi_az_replicas_are_multiples_of_three :
  (forall val,
     minReplicaValidator true val = None ->
     exists n, Go.Atoi (Go.Sprintf_v val) = inr n /\ (3 | n)) /\
  (forall minReplicas val,
     maxReplicaValidator minReplicas true val = None ->
     exists n, Go.Atoi (Go.Sprintf_v val) = inr n /\ (3 | n)) /\
  (forall n minReplicas,
     ~ (3 | n) ->
     minReplicaValidator true (VInt n) <> None /\
     maxReplicaValidator minReplicas true (VInt n) <> None) /\
  (forall cmd args autoscaling w sc w',
     resolveReplicas C cmd args true autoscaling w = (Ret sc, w') ->
     if autoscaling then (3 | minReplicas sc) /\ (3 | maxReplicas sc)
     else (3 | replicas sc)) /\
  (forall n, is_int n ->
     (minReplicaValidator false (VInt n) = None <-> 0 <= n)) /\
  (forall minReplicas n, is_int n ->
     (maxReplicaValidator minReplicas false (VInt n) = None
      <-> minReplicas <= n)).
Proof.
  split; [|split; [|split; [|split; [|split]]]].
  - intros val H.
    apply minReplicaValidator_accepts in H as (n & Hn & _ & H3). eauto.
  - intros minReplicas val H.
    apply maxReplicaValidator_accepts in H as (n & Hn & _ & H3). eauto.
  - intros n minReplicas Hn. split; intros H.
    + apply minReplicaValidator_int in H as [_ H3]. auto.
    + apply maxReplicaValidator_int in H as [_ H3]. auto.
  - intros cmd args autoscaling w sc w' H.
    apply resolveReplicas_Ret in H as [_ H]. destruct autoscaling; tauto.
  - intros n Hn. split.
    + intros Hv. now apply minReplicaValidator_int in Hv as [Hv _].
    + intros H0. apply minReplicaValidator_accepts. exists n.
      rewrite Atoi_FormatInt_sprintf by assumption.
      repeat split; [assumption | discriminate].
  - intros minReplicas n Hn. split.
    + intros Hv. now apply maxReplicaValidator_int in Hv as [Hv _].
    + intros H0. apply maxReplicaValidator_accepts. exists n.
      rewrite Atoi_FormatInt_sprintf by assumption.
      repeat split; [assumption | discriminate].
Qed.

(** C3.  [maxReplicaValidator minReplicas] refuses every maximum below
    the minimum; the replica step of CreateMachinePool returns for an
    autoscaled pool only with a minimum that is at most the maximum;
    and a run of CreateMachinePool either creates nothing and does not
    succeed, or asks once for a machine pool whose autoscaling, if it
    has one, has its minimum at most its maximum. *)
Theorem C3_min_replicas_at_most_max_replicas :
  (forall minReplicas multiAZ maxReplicas,
     maxReplicas < minReplicas ->
     maxReplicaValidator minReplicas multiAZ (VInt maxReplicas) <> None) /\
  (forall cmd args multiAZ w sc w',
     resolveReplicas C cmd args multiAZ true w = (Ret sc, w') ->
     minReplicas sc <= maxReplicas sc) /\
  (forall cmd key cluster args w r w',
     CreateMachinePool C cmd key cluster args w = (r, w') ->
     (r <> Ret tt /\ creations (trace w') = creations (trace w)) \/
     exists machinePool,
       creations (trace w') =
       (creations (trace w)
          ++ [CreateMachinePoolRequest (cluster_ID cluster) machinePool])%list /\
       forall a, cmv1.Autoscaling machinePool = Some a ->
                 cmv1.MinReplicas a <= cmv1.MaxReplicas a).
Proof.
  split; [|split].
  - intros minReplicas multiAZ maxReplicas Hlt H.
    apply maxReplicaValidator_int in H as [H _]. lia.
  - intros cmd args multiAZ w sc w' H.
    apply resolveReplicas_Ret in H as [_ (_ & H & _)]. lia.
  - intros cmd key cluster args w r w' H.
    apply CreateMachinePool_run in H as [H | (rs & w1 & Hrs & Hc)];
      [now left | right].
    exists (machinePoolPayload cluster rs). split; [exact Hc|].
    apply machinePoolResolved_inv in Hrs as (w2 & w3 & Hbs & _).
    apply machinePoolBeforeSpot_inv in Hbs as (w4 & w5 & _ & Hsc).
    apply resolveReplicas_Ret in Hsc as [Ha Hsc].
    unfold machinePoolPayload, mpBuilder. cbn [cmv1.Autoscaling].
    rewrite Ha. destruct (sm_autoscaling _); [|discriminate].
    intros a Heq. inversion Heq; subst; cbn. lia.
Qed.

(** C4 (amended).  The name is trimmed of blanks and tabs, and of
    nothing else, and is then held against the expression, which
    accepts exactly the identifiers: a lower-case letter, alone or
    followed by letters, digits and dashes of which the last is not a
    dash.  The expression accepts "machinepool1" and "m" with
    twenty-nine "1", and refuses "1machinepool", "#1machinepool" and,
    trimmed or not, every text with one of [#], [%] and [$] in it.
    Without prompts the name step returns the trimmed argument when
    the expression accepts it and fails with the name error when it
    does not; with a prompt it does the same with the trimmed answer.
    So an identifier with blanks and tabs around it is accepted and
    returned without them, while a name that holds any other byte
    outside the identifiers, one of [#], [%] and [$] or whitespace
    that is neither a blank nor a tab, is refused with the name
    error. *)
Theorem C4_machine_pool_name_validation :
  (forall s,
     Regexp.MatchString machinePoolKeyRE s
     = Key.keyShape (list_ascii_of_string s)) /\
  Regexp.MatchString machinePoolKeyRE "machinepool1" = true /\
  Regexp.MatchString machinePoolKeyRE "m11111111111111111111111111111" = true /\
  Regexp.MatchString machinePoolKeyRE "1machinepool" = false /\
  Regexp.MatchString machinePoolKeyRE "#1machinepool" = false /\
  (forall s c,
     In c (list_ascii_of_string "#%$") ->
     In c (list_ascii_of_string s) ->
     Regexp.MatchString machinePoolKeyRE s = false /\
     Regexp.MatchString machinePoolKeyRE (Go.Trim s spaceTab) = false) /\
  (forall args w name w',
     resolveName C args w = (Ret name, w') ->
     Regexp.MatchString machinePoolKeyRE name = true /\
     Go.Trim name spaceTab = name) /\
  (forall args w,
     interactive_Enabled w = false ->
     Go.Trim (Name args) spaceTab <> "" ->
     resolveName C args w =
     (if Regexp.MatchString machinePoolKeyRE (Go.Trim (Name args) spaceTab)
      then Ret (Go.Trim (Name args) spaceTab) else Fail invalidName, w)) /\
  (forall args w answer u,
     interactive_Enabled w = true ->
     interactive_GetString C
       {| Question := "Machine pool name";
          Help := "";
          Options := [];
          Default := VStr (Go.Trim (Name args) spaceTab);
          Required := true;
          Validators :=
            [interactive_RegExp C (Regexp.String machinePoolKeyRE)] |}
       true (outside w) = (Ret answer, u) ->
     resolveName C args w =
     (if Regexp.MatchString machinePoolKeyRE (Go.Trim answer spaceTab)
      then Ret (Go.Trim answer spaceTab) else Fail invalidName,
      mkWorld true (trace w ++ [Asked "Machine pool name"]) u)) /\
  (forall args w before name after,
     interactive_Enabled w = false ->
     Name args = before +:+ name +:+ after ->
     (forall c,
        In c (list_ascii_of_string before) \/ In c (list_ascii_of_string after) ->
        c = " "%char \/ c = ascii_of_nat 9) ->
     Regexp.MatchString machinePoolKeyRE name = true ->
     resolveName C args w = (Ret name, w)) /\
  (forall args w c,
     interactive_Enabled w = false ->
     In c (list_ascii_of_string (Name args)) ->
     Key.innerChar c = false ->
     c <> " "%char -> c <> ascii_of_nat 9 ->
     resolveName C args w = (Fail invalidName, w)) /\
  (forall args w c,
     interactive_Enabled w = false ->
     In c (list_ascii_of_string "#%$") ->
     In c (list_ascii_of_string (Name args)) ->
     resolveName C args w = (Fail invalidName, w)).
Proof.
  assert (Hbad : forall s c,
    In c (list_ascii_of_string "#%$") -> In c (list_ascii_of_string s) ->
    Regexp.MatchString machinePoolKeyRE s = false).
  { intros s c Hc Hin.
    destruct (Regexp.MatchString machinePoolKeyRE s) eqn:M; [|reflexivity].
    rewrite RegexpFacts.MatchString_key in M.
    pose proof (RegexpFacts.keyShape_chars _ _ M Hin) as Hinner.
    cbn in Hc. destruct Hc as [<-|[<-|[<-|[]]]]; discriminate. }
  assert (Hcut : forall c,
    Go.IndexByte spaceTab c = true <-> c = " "%char \/ c = ascii_of_nat 9).
  { intros c. unfold spaceTab. cbn [Go.IndexByte].
    rewrite orb_false_r, orb_true_iff, !Ascii.eqb_eq. reflexivity. }
  assert (Hout : forall args w c,
    interactive_Enabled w = false ->
    In c (list_ascii_of_string (Name args)) ->
    Key.innerChar c = false ->
    c <> " "%char -> c <> ascii_of_nat 9 ->
    resolveName C args w = (Fail invalidName, w)).
  { intros args w c Hi Hin Hinner Hblank Htab.
    assert (Ec : Go.IndexByte spaceTab c = false).
    { destruct (Go.IndexByte spaceTab c) eqn:E; [|reflexivity].
      apply Hcut in E. tauto. }
    pose proof (Trim_keeps spaceTab _ _ Ec Hin) as Hkept.
    rewrite resolveName_batch; [|assumption|].
    - destruct (Regexp.MatchString machinePoolKeyRE _) eqn:M; [|reflexivity].
      rewrite RegexpFacts.MatchString_key in M.
      pose proof (RegexpFacts.keyShape_chars _ _ M Hkept). congruence.
    - intros E. rewrite E in Hkept. contradiction. }
  split. { apply RegexpFacts.MatchString_key. }
  split. { reflexivity. }
  split. { reflexivity. }
  split. { reflexivity. }
  split. { reflexivity. }
  split.
  { intros s c Hc Hin. split; [eauto|].
    apply (Hbad _ c); [assumption|].
    apply Trim_keeps; [|assumption].
    cbn in Hc. destruct Hc as [<-|[<-|[<-|[]]]]; reflexivity. }
  split. { intros args w name w' H. now apply resolveName_Ret in H. }
  split. { intros args w Hi Hn. now apply resolveName_batch. }
  split.
  { intros args w answer u Hi Hask.
    exact (resolveName_prompted _ _ _ _ _ Hi Hask). }
  split.
  { intros args w before name after Hi Hname Hpad M.
    assert (Htrim : Go.Trim (Name args) spaceTab = name).
    { rewrite Hname. apply Trim_padded.
      - intros c Hc. apply Hcut. auto.
      - intros c Hc.
        destruct (Go.IndexByte spaceTab c) eqn:E; [|reflexivity].
        rewrite RegexpFacts.MatchString_key in M.
        pose proof (RegexpFacts.keyShape_chars _ _ M Hc) as Hinner.
        apply Hcut in E as [-> | ->]; discriminate.
      - intros c Hc. apply Hcut. auto. }
    rewrite resolveName_batch; [|assumption|].
    - now rewrite Htrim, M.
    - rewrite Htrim. intros ->. discriminate. }
  split. { exact Hout. }
  intros args w c Hi Hc Hin.
  apply (Hout args w c Hi Hin);
    cbn in Hc; destruct Hc as [<-|[<-|[<-|[]]]];
    first [reflexivity | discriminate].
Qed.

(** C5.  [spotMaxPriceValidator] accepts "on-demand" and every text
    that [strconv.ParseFloat] reads as a float above zero; it refuses
    every other text that [ParseFloat] does not read, and every one
    that it reads as a float at most zero.  So it accepts "0.01" and
    refuses "-1" and "not-a-number", [ParseFloat] reading the first
    two as the nearest floats and not reading the third. *)
Theorem C5_spotMaxPriceValidator :
  let parse s := strconv_ParseFloat C s (commonUtils_MaxByteSize C) in
  spotMaxPriceValidator C (VStr "on-demand") = None /\
  (forall s price,
     parse s = (price, None) -> PrimFloat.ltb 0 price = true ->
     spotMaxPriceValidator C (VStr s) = None) /\
  (forall s price err,
     s <> "on-demand" -> parse s = (price, Some err) ->
     spotMaxPriceValidator C (VStr s)
     = Some "Expected a numeric value for spot max price") /\
  (forall s price,
     s <> "on-demand" -> parse s = (price, None) ->
     PrimFloat.leb price 0 = true ->
     spotMaxPriceValidator C (VStr s) = Some "Spot max price must be positive") /\
  (parse "0.01" = (0x1.47ae147ae147bp-7%float, None) ->
   spotMaxPriceValidator C (VStr "0.01") = None) /\
  (parse "-1" = ((-1)%float, None) ->
   spotMaxPriceValidator C (VStr "-1") = Some "Spot max price must be positive") /\
  (forall price err,
     parse "not-a-number" = (price, Some err) ->
     spotMaxPriceValidator C (VStr "not-a-number")
     = Some "Expected a numeric value for spot max price").
Proof.
  intros parse. subst parse.
  assert (Hpos : forall s price,
    strconv_ParseFloat C s (commonUtils_MaxByteSize C) = (price, None) ->
    PrimFloat.ltb 0 price = true -> spotMaxPriceValidator C (VStr s) = None).
  { intros s price Hp Hpos. unfold spotMaxPriceValidator. cbn [Go.Sprintf_v].
    destruct (String.eqb s "on-demand"); [reflexivity|].
    rewrite Hp. now rewrite (float_positive_not_le_zero _ Hpos). }
  assert (Herr : forall s price err,
    s <> "on-demand" ->
    strconv_ParseFloat C s (commonUtils_MaxByteSize C) = (price, Some err) ->
    spotMaxPriceValidator C (VStr s)
    = Some "Expected a numeric value for spot max price").
  { intros s price err Hs Hp. unfold spotMaxPriceValidator. cbn [Go.Sprintf_v].
    apply String.eqb_neq in Hs. now rewrite Hs, Hp. }
  assert (Hneg : forall s price,
    s <> "on-demand" ->
    strconv_ParseFloat C s (commonUtils_MaxByteSize C) = (price, None) ->
    PrimFloat.leb price 0 = true ->
    spotMaxPriceValidator C (VStr s) = Some "Spot max price must be positive").
  { intros s price Hs Hp Hle. unfold spotMaxPriceValidator. cbn [Go.Sprintf_v].
    apply String.eqb_neq in Hs. now rewrite Hs, Hp, Hle. }
  repeat match goal with |- _ /\ _ => split end; auto.
  - intros Hp. apply (Hpos _ _ Hp). reflexivity.
  - intros Hp.
    apply (Hneg "-1" (-1)%float); [discriminate | exact Hp | reflexivity].
  - intros price err Hp.
    apply (Herr "not-a-number" price err); [discriminate | exact Hp].
Qed.

(** C6.  On a multi-AZ cluster with the availability zones
    "us-east-1a" and "us-east-1b", [getMachinePoolAvailabilityZones]
    gives exactly "us-east-1a" for a single-AZ pool with that zone as
    input and no subnet, and the list of the cluster in its order for
    a multi-AZ pool without a subnet.  With a subnet as input it asks
    the cloud SDK for the zone of the subnet and gives that zone
    alone, for every pool and zone that come with a subnet: a
    multi-AZ pool, or no zone.  That is every call of the function,
    because the placement that CreateMachinePool hands over never has
    a zone beside a subnet. *)
Theorem C6_getMachinePoolAvailabilityZones cluster w :
  cluster_MultiAZ cluster = true ->
  cluster_Nodes_AvailabilityZones cluster = ["us-east-1a"; "us-east-1b"] ->
  getMachinePoolAvailabilityZones C cluster false "us-east-1a" "" w
  = (Ret ["us-east-1a"], w) /\
  (forall zone,
     getMachinePoolAvailabilityZones C cluster true zone "" w
     = (Ret ["us-east-1a"; "us-east-1b"], w)) /\
  (forall multiAZ zone subnet r u,
     subnet <> "" ->
     multiAZ = true \/ zone = "" ->
     AWSClient_GetSubnetAvailabilityZone C subnet (interactive_Enabled w)
       (outside w) = (r, u) ->
     getMachinePoolAvailabilityZones C cluster multiAZ zone subnet w
     = (match r with
        | Ret availabilityZone => Ret [availabilityZone]
        | Fail err => Fail err
        | Halt why => Halt why
        end,
        mkWorld (interactive_Enabled w)
          (trace w ++ [Request "GetSubnetAvailabilityZone" [subnet]]) u)) /\
  (forall cmd args fl w0 pl w1 zone u,
     resolvePlacement C cmd cluster args fl w0 = (Ret pl, w1) ->
     subnet pl <> "" ->
     AWSClient_GetSubnetAvailabilityZone C (subnet pl) (interactive_Enabled w)
       (outside w) = (Ret zone, u) ->
     getMachinePoolAvailabilityZones C cluster (multiAZMachinePool pl)
       (availabilityZone pl) (subnet pl) w
     = (Ret [zone],
        mkWorld (interactive_Enabled w)
          (trace w ++ [Request "GetSubnetAvailabilityZone" [subnet pl]]) u)).
Proof.
  intros Hm Hz.
  assert (Hsubnet : forall multiAZ zone subnet r u,
    subnet <> "" ->
    multiAZ = true \/ zone = "" ->
    AWSClient_GetSubnetAvailabilityZone C subnet (interactive_Enabled w)
      (outside w) = (r, u) ->
    getMachinePoolAvailabilityZones C cluster multiAZ zone subnet w
    = (match r with
       | Ret availabilityZone => Ret [availabilityZone]
       | Fail err => Fail err
       | Halt why => Halt why
       end,
       mkWorld (interactive_Enabled w)
         (trace w ++ [Request "GetSubnetAvailabilityZone" [subnet]]) u)).
  { intros multiAZ zone subnet r u Hs Hcase Hsdk.
    unfold getMachinePoolAvailabilityZones. rewrite Hm.
    apply String.eqb_neq in Hs. rewrite Hs.
    assert (true && negb multiAZ && negb (String.eqb zone "") = false) as ->.
    { destruct Hcase as [-> | ->]; [reflexivity|].
      now rewrite andb_false_r. }
    unfold request, bind, emit, call, ret. cbn. rewrite Hsdk.
    now destruct r. }
  split; [|split; [|split]].
  - unfold getMachinePoolAvailabilityZones. now rewrite Hm.
  - intros zone. unfold getMachinePoolAvailabilityZones. now rewrite Hm, Hz.
  - exact Hsubnet.
  - intros cmd args fl w0 pl w1 zone u Hpl Hs Hsdk.
    apply resolvePlacement_Ret in Hpl as [_ Hzone].
    apply (Hsubnet _ _ _ (Ret zone) u Hs); [|exact Hsdk].
    right. destruct (String.eqb (availabilityZone pl) "") eqn:E.
    + now apply String.eqb_eq in E.
    + apply String.eqb_neq in E. destruct (Hzone E) as (_ & _ & Hno & _).
      contradiction.
Qed.

(** C8 (amended).  In both functions the replica step fails on the
    flags alone, whatever the numbers: with autoscaling on and the
    [replicas] flag given, with "Replicas can't be set when
    autoscaling is enabled"; with autoscaling off and [min-replicas]
    or [max-replicas] given, with "Autoscaling must be enabled in
    order to set min and max replicas".  A run of either function that
    reaches the step (everything before it having returned) fails with
    that error, having created nothing; and whatever a run creates has
    an autoscaling only if [replicas] was not given, and a fixed count
    only if neither [min-replicas] nor [max-replicas] was. *)
Theorem C8_autoscaling_excludes_replicas cmd key cluster args w :
  (forall args' multiAZ w0,
     (Changed cmd "replicas" = true ->
      resolveReplicas C cmd args' multiAZ true w0
      = (Fail replicasWithAutoscaling, w0) /\
      resolveNodePoolReplicas C cmd args' true w0
      = (Fail replicasWithAutoscaling, w0)) /\
     (Changed cmd "min-replicas" = true \/ Changed cmd "max-replicas" = true ->
      resolveReplicas C cmd args' multiAZ false w0
      = (Fail minMaxWithoutAutoscaling, w0) /\
      resolveNodePoolReplicas C cmd args' false w0
      = (Fail minMaxWithoutAutoscaling, w0))) /\
  (forall sm w1,
     machinePoolScalingMode C cmd cluster args w = (Ret sm, w1) ->
     creations (trace w1) = creations (trace w) /\
     (sm_autoscaling sm = true ->
      Changed cmd "replicas" = true ->
      CreateMachinePool C cmd key cluster args w
      = (Fail replicasWithAutoscaling, w1)) /\
     (sm_autoscaling sm = false ->
      Changed cmd "min-replicas" = true \/ Changed cmd "max-replicas" = true ->
      CreateMachinePool C cmd key cluster args w
      = (Fail minMaxWithoutAutoscaling, w1))) /\
  (forall nm w1,
     Changed cmd "subnet" && Changed cmd "availability-zone" = false ->
     nodePoolScalingMode C cmd cluster args w = (Ret nm, w1) ->
     creations (trace w1) = creations (trace w) /\
     (nm_autoscaling nm = true ->
      Changed cmd "replicas" = true ->
      CreateNodePools C cmd key cluster args w
      = (Fail replicasWithAutoscaling, w1)) /\
     (nm_autoscaling nm = false ->
      Changed cmd "min-replicas" = true \/ Changed cmd "max-replicas" = true ->
      CreateNodePools C cmd key cluster args w
      = (Fail minMaxWithoutAutoscaling, w1))) /\
  (forall r w',
     CreateMachinePool C cmd key cluster args w = (r, w') ->
     (r <> Ret tt /\ creations (trace w') = creations (trace w)) \/
     exists machinePool,
       creations (trace w') =
       (creations (trace w)
          ++ [CreateMachinePoolRequest (cluster_ID cluster) machinePool])%list /\
       (cmv1.Autoscaling machinePool <> None ->
        Changed cmd "replicas" = false) /\
       (cmv1.Replicas machinePool <> None ->
        Changed cmd "min-replicas" = false /\
        Changed cmd "max-replicas" = false)) /\
  (forall r w',
     CreateNodePools C cmd key cluster args w = (r, w') ->
     (r <> Ret tt /\ creations (trace w') = creations (trace w)) \/
     exists nodePool,
       creations (trace w') =
       (creations (trace w)
          ++ [CreateNodePoolRequest (cluster_ID cluster) nodePool])%list /\
       (cmv1.np_Autoscaling nodePool <> None ->
        Changed cmd "replicas" = false) /\
       (cmv1.np_Replicas nodePool <> None ->
        Changed cmd "min-replicas" = false /\
        Changed cmd "max-replicas" = false)).
Proof.
  assert (Hstep : forall args' multiAZ w0,
     (Changed cmd "replicas" = true ->
      resolveReplicas C cmd args' multiAZ true w0
      = (Fail replicasWithAutoscaling, w0) /\
      resolveNodePoolReplicas C cmd args' true w0
      = (Fail replicasWithAutoscaling, w0)) /\
     (Changed cmd "min-replicas" = true \/ Changed cmd "max-replicas" = true ->
      resolveReplicas C cmd args' multiAZ false w0
      = (Fail minMaxWithoutAutoscaling, w0) /\
      resolveNodePoolReplicas C cmd args' false w0
      = (Fail minMaxWithoutAutoscaling, w0))).
  { intros args' multiAZ w0. split.
    - intros Hr. unfold resolveReplicas, resolveNodePoolReplicas.
      now rewrite Hr.
    - intros Hmm.
      assert (Changed cmd "min-replicas" || Changed cmd "max-replicas" = true)
        as Hor by (destruct Hmm as [-> | ->];
                   [reflexivity | apply orb_true_r]).
      unfold resolveReplicas, resolveNodePoolReplicas. now rewrite Hor. }
  split; [exact Hstep|]. split; [|split; [|split]].
  - intros sm w1 Hsm.
    split; [exact (quiet_machinePoolScalingMode _ _ _ _ _ _ _ Hsm)|].
    split.
    + intros Ha Hr. rewrite CreateMachinePool_split_mode.
      rewrite (bind_Ret _ _ _ _ _ Hsm), Ha.
      apply bind_Fail. now apply Hstep.
    + intros Ha Hmm. rewrite CreateMachinePool_split_mode.
      rewrite (bind_Ret _ _ _ _ _ Hsm), Ha.
      apply bind_Fail. now apply Hstep.
  - intros nm w1 Hflags Hnm.
    split; [exact (quiet_nodePoolScalingMode _ _ _ _ _ _ _ Hnm)|].
    split.
    + intros Ha Hr. rewrite CreateNodePools_split_mode, Hflags.
      rewrite (bind_Ret _ _ _ _ _ Hnm), Ha.
      apply bind_Fail. exact (proj2 (proj1 (Hstep args true w1) Hr)).
    + intros Ha Hmm. rewrite CreateNodePools_split_mode, Hflags.
      rewrite (bind_Ret _ _ _ _ _ Hnm), Ha.
      apply bind_Fail. exact (proj2 (proj2 (Hstep args true w1) Hmm)).
  - intros r w' H.
    apply CreateMachinePool_run in H as [H | (rs & w1 & Hrs & Hc)];
      [now left | right].
    exists (machinePoolPayload cluster rs). split; [exact Hc|].
    apply machinePoolResolved_inv in Hrs as (w2 & w3 & Hbs & _).
    apply machinePoolBeforeSpot_inv in Hbs as (w4 & w5 & _ & Hsc).
    apply resolveReplicas_Ret in Hsc as [Ha Hsc].
    unfold machinePoolPayload, mpBuilder.
    cbn [cmv1.Autoscaling cmv1.Replicas]. rewrite Ha.
    destruct (sm_autoscaling _); split; intros Hsome;
      try congruence; tauto.
  - intros r w' H.
    apply CreateNodePools_run in H as [H | (nr & w1 & Hnr & Hc)];
      [now left | right].
    exists (nodePoolPayload C nr). split; [exact Hc|].
    apply nodePoolResolved_inv in Hnr as (w2 & w3 & _ & Hsc).
    apply resolveNodePoolReplicas_Ret in Hsc as [Ha Hsc].
    unfold nodePoolPayload, npBuilder.
    cbn [cmv1.np_Autoscaling cmv1.np_Replicas]. rewrite Ha.
    destruct (nm_autoscaling _); split; intros Hsome;
      try congruence; tauto.
Qed.

(** C9 (amended).  In a run of CreateMachinePool that reaches the spot
    step, a max price given by flag together with the
    [use-spot-instances] flag given as false fails with "Can't set max
    price when not using spot instances"; and, that check passing, a
    pool placed by subnet in a zone that the cloud SDK reports as a
    local zone fails with "Spot instances are not supported for local
    zones" when spot instances are asked for, and otherwise is created,
    if at all, without spot market options.  Nothing has been created
    when either error comes, and no run creates a pool when the first
    check is violated. *)
Theorem C9_spot_price_and_local_zones cmd key cluster args w :
  (forall bs w1,
     machinePoolBeforeSpot C cmd cluster args w = (Ret bs, w1) ->
     creations (trace w1) = creations (trace w) /\
     (Changed cmd "spot-max-price" = true ->
      Changed cmd "use-spot-instances" = true ->
      UseSpotInstances args = false ->
      CreateMachinePool C cmd key cluster args w
      = (Fail "Can't set max price when not using spot instances", w1)) /\
     (Changed cmd "spot-max-price" && Changed cmd "use-spot-instances"
        && negb (UseSpotInstances args) = false ->
      subnet (sm_placement (bs_mode bs)) <> "" ->
      forall zone zones u,
        bs_availabilityZonesFilter bs = zone :: zones ->
        AWSClient_IsLocalAvailabilityZone C zone (interactive_Enabled w1)
          (outside w1) = (Ret true, u) ->
        (UseSpotInstances args = true ->
         CreateMachinePool C cmd key cluster args w
         = (Fail "Spot instances are not supported for local zones",
            afterLocalZoneRequest zone u w1)) /\
        (forall r w',
           CreateMachinePool C cmd key cluster args w = (r, w') ->
           (r <> Ret tt /\ creations (trace w') = creations (trace w)) \/
           exists machinePool,
             creations (trace w') =
             (creations (trace w)
                ++ [CreateMachinePoolRequest (cluster_ID cluster) machinePool])%list /\
             cmv1.SpotMarketOptions (cmv1.AWS machinePool) = None))) /\
  (forall r w',
     CreateMachinePool C cmd key cluster args w = (r, w') ->
     Changed cmd "spot-max-price" = true ->
     Changed cmd "use-spot-instances" = true ->
     UseSpotInstances args = false ->
     r <> Ret tt /\ creations (trace w') = creations (trace w)).
Proof.
  split.
  - intros bs w1 Hbs.
    split; [exact (quiet_machinePoolBeforeSpot _ _ _ _ _ _ _ Hbs)|].
    split.
    + intros Hp Hs Hu. rewrite CreateMachinePool_split_spot.
      rewrite (bind_Ret _ _ _ _ _ Hbs). apply bind_Fail.
      now apply resolveSpot_price_without_spot.
    + intros V Hsub zone zones u Hz Hl.
      destruct (resolveSpot_local_zone C cmd args _ zone zones w1 u V Hsub Hl)
        as [Hfail Hnone].
      split.
      * intros Hu. rewrite CreateMachinePool_split_spot.
        rewrite (bind_Ret _ _ _ _ _ Hbs). apply bind_Fail.
        rewrite Hz. now apply Hfail.
      * intros r w' H.
        apply CreateMachinePool_run in H as [H | (rs & w2 & Hrs & Hc)];
          [now left | right].
        exists (machinePoolPayload cluster rs). split; [exact Hc|].
        apply machinePoolResolved_inv in Hrs as (w3 & w4 & Hbs' & Hsp).
        rewrite Hbs in Hbs'. inversion Hbs'; subst.
        rewrite Hz in Hsp.
        pose proof (Hnone _ _ Hsp _ eq_refl) as Hno.
        unfold machinePoolPayload, mpBuilder, awsMpBuilder.
        cbn [cmv1.AWS cmv1.SpotMarketOptions]. now rewrite Hno.
  - intros r w' H Hp Hs Hu.
    apply CreateMachinePool_run in H as [H | (rs & w2 & Hrs & Hc)];
      [exact H | exfalso].
    apply machinePoolResolved_inv in Hrs as (w3 & w4 & _ & Hsp).
    apply resolveSpot_Ret in Hsp as (Himp & _).
    specialize (Himp Hp Hs). congruence.
Qed.

(** C10.  A run of CreateMachinePool either creates nothing and does
    not succeed, or asks once for a machine pool whose spot market
    options follow what the spot step of this very run resolved, at
    the point that the run had reached: none when spot instances are
    not used, and when they are, options whose max price is absent for
    the price "on-demand" and is otherwise the float that
    [strconv.ParseFloat] reads from the price, which the validator
    accepted.  What the step resolves is, without prompts, the two
    arguments; with prompts, no subnet and neither of the two flags,
    it is the answer on the use of spot instances and, when that is
    yes, the answer on the price. *)
Theorem C10_spot_market_options :
  (forall cmd key cluster args w r w',
     CreateMachinePool C cmd key cluster args w = (r, w') ->
     (r <> Ret tt /\ creations (trace w') = creations (trace w)) \/
     exists bs w1 sp w2 machinePool,
       machinePoolBeforeSpot C cmd cluster args w = (Ret bs, w1) /\
       resolveSpot C cmd args (subnet (sm_placement (bs_mode bs)))
         (bs_availabilityZonesFilter bs) w1 = (Ret sp, w2) /\
       creations (trace w') =
       (creations (trace w)
          ++ [CreateMachinePoolRequest (cluster_ID cluster) machinePool])%list /\
       spotMaxPriceValidator C (VStr (spotMaxPrice sp)) = None /\
       cmv1.SpotMarketOptions (cmv1.AWS machinePool) =
         (if useSpotInstances sp then
            Some {| cmv1.MaxPrice :=
                      if String.eqb (spotMaxPrice sp) "on-demand" then None
                      else Some (fst (strconv_ParseFloat C (spotMaxPrice sp)
                                        (commonUtils_MaxByteSize C))) |}
          else None)) /\
  (forall cmd args subnet zones w sp w',
     interactive_Enabled w = false ->
     resolveSpot C cmd args subnet zones w = (Ret sp, w') ->
     useSpotInstances sp = UseSpotInstances args /\
     spotMaxPrice sp = SpotMaxPrice args) /\
  (forall cmd args zones w useFlag priceFlag use u1,
     interactive_Enabled w = true ->
     Lookup cmd "use-spot-instances" = Some useFlag ->
     flag_Changed useFlag = false ->
     Lookup cmd "spot-max-price" = Some priceFlag ->
     flag_Changed priceFlag = false ->
     interactive_GetBool C
       (boolInput "Use spot instances" (Usage useFlag) (UseSpotInstances args))
       true (outside w) = (Ret use, u1) ->
     let asked := mkWorld true (trace w ++ [Asked "Use spot instances"]) u1 in
     let settled useSpotInstances spotMaxPrice :=
       match spotMaxPriceValidator C (VStr spotMaxPrice) with
       | None =>
           Ret {| useSpotInstances := useSpotInstances;
                  spotMaxPrice := spotMaxPrice;
                  maxPrice :=
                    if negb (String.eqb spotMaxPrice "on-demand") then
                      Some (fst (strconv_ParseFloat C spotMaxPrice
                                   (commonUtils_MaxByteSize C)))
                    else None |}
       | Some err => Fail err
       end in
     (use = false ->
      resolveSpot C cmd args "" zones w
      = (settled false (SpotMaxPrice args), asked)) /\
     (use = true ->
      forall price u2,
        interactive_GetString C
          {| Question := "Spot instance max price";
             Help := Usage priceFlag;
             Options := [];
             Default := VStr (SpotMaxPrice args);
             Required := false;
             Validators := [spotMaxPriceValidator C] |}
          true u1 = (Ret price, u2) ->
        resolveSpot C cmd args "" zones w
        = (settled true price,
           mkWorld true (trace asked ++ [Asked "Spot instance max price"]) u2))).
Proof.
  split; [|split].
  - intros cmd key cluster args w r w' H.
    apply CreateMachinePool_run in H as [H | (rs & w1 & Hrs & Hc)];
      [now left | right].
    apply machinePoolResolved_inv in Hrs as (w2 & w3 & Hbs & Hsp).
    exists (rs_before rs), w2, (rs_spot rs), w3, (machinePoolPayload cluster rs).
    split; [exact Hbs|]. split; [exact Hsp|]. split; [exact Hc|].
    pose proof (resolveSpot_Ret _ _ _ _ _ _ _ _ Hsp) as (_ & Hv & Hmax).
    split; [exact Hv|].
    unfold machinePoolPayload, mpBuilder, awsMpBuilder.
    cbn [cmv1.AWS cmv1.SpotMarketOptions]. rewrite Hmax.
    destruct (useSpotInstances _); [|reflexivity].
    now destruct (String.eqb _ "on-demand").
  - intros cmd args subnet zones w sp w' Hi H.
    exact (resolveSpot_batch _ _ _ _ _ _ _ _ Hi H).
  - intros cmd args zones w useFlag priceFlag use u1.
    apply resolveSpot_prompted.
Qed.

End Claims.

(** * The statements at work on the stand-in *)


Import Double Examples.

Lemma C1_witness :
  Changed (flags ["subnet"; "availability-zone"]) "subnet" = true /\
  Changed (flags ["subnet"; "availability-zone"]) "availability-zone" = true /\
  CreateNodePools collaborators (flags ["subnet"; "availability-zone"])
    "mycluster" multiAZCluster options batch = (Fail conflictMessage, batch) /\
  run ["subnet"; "availability-zone"] multiAZCluster options
  = (Fail conflictMessage, batch).
Proof.
  assert (Hs : Changed (flags ["subnet"; "availability-zone"]) "subnet" = true)
    by (vm_compute; reflexivity).
  assert (Ha : Changed (flags ["subnet"; "availability-zone"])
                 "availability-zone" = true)
    by (vm_compute; reflexivity).
  destruct (C1_subnet_and_availability_zone_conflict collaborators
              (flags ["subnet"; "availability-zone"]) "mycluster"
              multiAZCluster options batch Hs Ha) as (Hnode & _ & Hmachine).
  split; [exact Hs|]. split; [exact Ha|]. split; [exact Hnode|].
  apply (Hmachine eq_refl eq_refl true); [vm_compute; reflexivity | now right].
Defined.

(** On a cluster in one zone the error of CreateMachinePool, both flags
    given, is the one about the zone flag, not the conflict. *)
Lemma C1_counterexample :
  Changed (flags ["subnet"; "availability-zone"]) "subnet" = true /\
  Changed (flags ["subnet"; "availability-zone"]) "availability-zone" = true /\
  fst (run ["subnet"; "availability-zone"] cluster options)
  = Fail "Setting the `availability-zone` flag is only allowed for multi-AZ clusters" /\
  fst (run ["subnet"; "availability-zone"] cluster options)
  <> Fail conflictMessage.
Proof.
  repeat split; try (vm_compute; reflexivity).
  vm_compute. discriminate.
Qed.

Lemma C2_witness :
  minReplicaValidator true (VInt 6) = None /\
  (exists n, Go.Atoi (Go.Sprintf_v (VInt 6)) = inr n /\ (3 | n)) /\
  ~ (3 | 4) /\
  minReplicaValidator true (VInt 4) <> None /\
  maxReplicaValidator 1 true (VInt 4) <> None /\
  is_int 4 /\
  minReplicaValidator false (VInt 4) = None.
Proof.
  pose proof (C2_multi_az_replicas_are_multiples_of_three collaborators)
    as (Hmin & _ & Hnot & _ & Hsingle & _).
  assert (H6 : minReplicaValidator true (VInt 6) = None)
    by (vm_compute; reflexivity).
  assert (H4 : ~ (3 | 4)).
  { intros [k Hk]. lia. }
  assert (Hint : is_int 4) by (unfold is_int, int_min, int_max; lia).
  split; [exact H6|]. split; [exact (Hmin _ H6)|]. split; [exact H4|].
  split; [exact (proj1 (Hnot 4 1 H4))|]. split; [exact (proj2 (Hnot 4 1 H4))|].
  split; [exact Hint|].
  apply (Hsingle 4 Hint). lia.
Defined.

Lemma C3_witness :
  let result :=
    run ["enable-autoscaling"; "min-replicas"; "max-replicas"] cluster
      (optionsOf "machinepool1" true 1 3 0 false "on-demand" "") in
  fst result = Ret tt /\
  exists machinePool,
    creations (trace (snd result))
    = [CreateMachinePoolRequest (cluster_ID cluster) machinePool] /\
    forall a, cmv1.Autoscaling machinePool = Some a ->
              cmv1.MinReplicas a <= cmv1.MaxReplicas a.
Proof.
  intros result.
  assert (Hret : fst result = Ret tt) by (vm_compute; reflexivity).
  split; [exact Hret|].
  destruct (proj2 (proj2 (C3_min_replicas_at_most_max_replicas collaborators))
              _ _ _ _ _ _ _ (surjective_pairing result))
    as [[Hno _] | (machinePool & Hc & Hle)].
  - contradiction.
  - exists machinePool. split; [exact Hc | exact Hle].
Defined.

Lemma C4_witness :
  let padded := " " +:+ String (ascii_of_nat 9) "machinepool1 " in
  resolveName collaborators
    (optionsOf padded false 0 0 0 false "on-demand" "") batch
  = (Ret "machinepool1", batch) /\
  resolveName collaborators
    (optionsOf " pool#1 " false 0 0 0 false "on-demand" "") batch
  = (Fail invalidName, batch).
Proof.
  intros padded.
  pose proof (C4_machine_pool_name_validation collaborators)
    as (_ & _ & _ & _ & _ & _ & _ & _ & _ & Hgood & _ & Hbad).
  split.
  - apply (Hgood (optionsOf padded false 0 0 0 false "on-demand" "") batch
             (" " +:+ String (ascii_of_nat 9) "") "machinepool1" " ").
    + reflexivity.
    + reflexivity.
    + intros c [Hc | Hc]; cbn in Hc.
      * destruct Hc as [<- | [<- | []]]; [now left | now right].
      * destruct Hc as [<- | []]. now left.
    + reflexivity.
  - apply (Hbad (optionsOf " pool#1 " false 0 0 0 false "on-demand" "") batch
             "#"%char).
    + reflexivity.
    + cbn. auto.
    + cbn. auto 10.
Defined.

(** A name with a carriage return after it, as a line of a file with
    DOS line ends has: trimmed of whitespace it is "machinepool1",
    which the expression accepts, but the name step trims blanks and
    tabs only and refuses it. *)
Lemma C4_counterexample :
  let carriageReturn := String (ascii_of_nat 13) EmptyString in
  let whitespace :=
    String (ascii_of_nat 9)
      (String (ascii_of_nat 10)
         (String (ascii_of_nat 11)
            (String (ascii_of_nat 12)
               (String (ascii_of_nat 13) (String (ascii_of_nat 32) EmptyString))))) in
  let name := "machinepool1" +:+ carriageReturn in
  Go.Trim name whitespace = "machinepool1" /\
  Regexp.MatchString machinePoolKeyRE (Go.Trim name whitespace) = true /\
  Go.Trim name spaceTab = name /\
  resolveName collaborators (optionsOf name false 0 0 0 false "on-demand" "")
    batch = (Fail invalidName, batch).
Proof.
  repeat split; vm_compute; reflexivity.
Qed.

Lemma C5_witness :
  strconv_ParseFloat collaborators "0.01" (commonUtils_MaxByteSize collaborators)
  = (0x1.47ae147ae147bp-7%float, None) /\
  spotMaxPriceValidator collaborators (VStr "0.01") = None /\
  strconv_ParseFloat collaborators "-1" (commonUtils_MaxByteSize collaborators)
  = ((-1)%float, None) /\
  spotMaxPriceValidator collaborators (VStr "-1")
  = Some "Spot max price must be positive" /\
  spotMaxPriceValidator collaborators (VStr "not-a-number")
  = Some "Expected a numeric value for spot max price".
Proof.
  pose proof (C5_spotMaxPriceValidator collaborators)
    as (_ & _ & _ & _ & Hcent & Hminus & Hnan).
  assert (H1 : strconv_ParseFloat collaborators "0.01"
                 (commonUtils_MaxByteSize collaborators)
               = (0x1.47ae147ae147bp-7%float, None))
    by (vm_compute; reflexivity).
  assert (H2 : strconv_ParseFloat collaborators "-1"
                 (commonUtils_MaxByteSize collaborators)
               = ((-1)%float, None))
    by (vm_compute; reflexivity).
  split; [exact H1|]. split; [exact (Hcent H1)|].
  split; [exact H2|]. split; [exact (Hminus H2)|].
  apply (Hnan 0%float (Go.syntaxError "ParseFloat" "not-a-number")).
  vm_compute. reflexivity.
Defined.

Lemma C6_witness :
  let given :=
    {| isMultiAvailabilityZoneSet := false; isAvailabilityZoneSet := false;
       isSubnetSet := true; isByoVpc := true; isSecurityGroupIdsSet := false;
       isVersionCompatibleComputeSgIds := true |} in
  let args := optionsOf "machinepool1" false 0 0 2 false "on-demand" "subnet-b" in
  let pl :=
    {| subnet := "subnet-b"; multiAZMachinePool := false;
       availabilityZone := "" |} in
  cluster_MultiAZ multiAZCluster = true /\
  cluster_Nodes_AvailabilityZones multiAZCluster = ["us-east-1a"; "us-east-1b"] /\
  getMachinePoolAvailabilityZones collaborators multiAZCluster false
    "us-east-1a" "" batch = (Ret ["us-east-1a"], batch) /\
  getMachinePoolAvailabilityZones collaborators multiAZCluster true "" "" batch
  = (Ret ["us-east-1a"; "us-east-1b"], batch) /\
  getMachinePoolAvailabilityZones collaborators multiAZCluster true ""
    "subnet-b" batch
  = (Ret ["us-east-1b"],
     mkWorld false [Request "GetSubnetAvailabilityZone" ["subnet-b"]] tt) /\
  resolvePlacement collaborators (flags ["subnet"]) multiAZCluster args given
    batch = (Ret pl, batch) /\
  getMachinePoolAvailabilityZones collaborators multiAZCluster
    (multiAZMachinePool pl) (availabilityZone pl) (subnet pl) batch
  = (Ret ["us-east-1b"],
     mkWorld false [Request "GetSubnetAvailabilityZone" ["subnet-b"]] tt).
Proof.
  intros given args pl.
  destruct (C6_getMachinePoolAvailabilityZones collaborators multiAZCluster
              batch eq_refl eq_refl) as (Hzone & Hall & Hsubnet & Hcall).
  assert (Hpl : resolvePlacement collaborators (flags ["subnet"])
                  multiAZCluster args given batch = (Ret pl, batch))
    by (vm_compute; reflexivity).
  split; [reflexivity|]. split; [reflexivity|].
  split; [exact Hzone|]. split; [exact (Hall "")|].
  split.
  { apply (Hsubnet true "" "subnet-b" (Ret "us-east-1b") tt);
      [discriminate | now left | reflexivity]. }
  split; [exact Hpl|].
  apply (Hcall (flags ["subnet"]) args given batch pl batch "us-east-1b" tt Hpl);
    [discriminate | reflexivity].
Defined.

Lemma C7_witness :
  Changed (flags [sgFlag]) sgFlag = true /\
  helper_IsBYOVPC collaborators cluster = false /\
  run [sgFlag] cluster options
  = (Fail "Setting the `additional-security-group-ids` flag is only allowed for BYOVPC clusters",
     batch) /\
  helper_IsBYOVPC collaborators oldCluster = true /\
  versions_IsGreaterThanOrEqual collaborators "4.10.0" "4.11.0" = inr false /\
  run [sgFlag] oldCluster options
  = (Fail "Parameter 'additional-security-group-ids' is not supported prior to version '4.11.0'",
     batch).
Proof.
  assert (Hsg : Changed (flags [sgFlag]) sgFlag = true)
    by (vm_compute; reflexivity).
  assert (Hmaz : Changed (flags [sgFlag]) "multi-availability-zone" = false)
    by (vm_compute; reflexivity).
  assert (Haz : Changed (flags [sgFlag]) "availability-zone" = false)
    by (vm_compute; reflexivity).
  assert (Hsub : Changed (flags [sgFlag]) "subnet" = false)
    by (vm_compute; reflexivity).
  destruct (C7_security_groups_need_byovpc_and_version collaborators
              (flags [sgFlag]) "mycluster" cluster options batch Hsg)
    as [_ Hnew].
  destruct (C7_security_groups_need_byovpc_and_version collaborators
              (flags [sgFlag]) "mycluster" oldCluster options batch Hsg)
    as [_ Hold].
  split; [exact Hsg|]. split; [reflexivity|].
  assert (Hc1 : versions_IsGreaterThanOrEqual collaborators "4.14.0" "4.11.0"
                = inr true) by (vm_compute; reflexivity).
  assert (Hc2 : versions_IsGreaterThanOrEqual collaborators "4.10.0" "4.11.0"
                = inr false) by (vm_compute; reflexivity).
  destruct (Hnew (or_introl Hmaz) (or_introl Haz) true Hc1) as [Hbyo _].
  destruct (Hold (or_introl Hmaz) (or_introl Haz) false Hc2) as [_ Hversion].
  split; [exact (Hbyo eq_refl Hsub)|].
  split; [reflexivity|]. split; [exact Hc2|].
  exact (Hversion eq_refl eq_refl "4.11.0" eq_refl).
Defined.

(** With the multi-AZ flag on a cluster in one zone, the error is the
    one about that flag, not the BYOVPC one. *)
Lemma C7_counterexample :
  Changed (flags [sgFlag; "multi-availability-zone"]) sgFlag = true /\
  helper_IsBYOVPC collaborators cluster = false /\
  fst (run [sgFlag; "multi-availability-zone"] cluster options)
  = Fail "Setting the `multi-availability-zone` flag is only allowed for multi-AZ clusters" /\
  fst (run [sgFlag; "multi-availability-zone"] cluster options)
  <> Fail "Setting the `additional-security-group-ids` flag is only allowed for BYOVPC clusters".
Proof.
  repeat split; try (vm_compute; reflexivity).
  vm_compute. discriminate.
Qed.

Lemma C8_witness :
  let args := optionsOf "machinepool1" true 0 0 2 false "on-demand" "" in
  let reached :=
    machinePoolScalingMode collaborators (flags ["replicas"]) cluster args batch in
  Changed (flags ["replicas"]) "replicas" = true /\
  (exists sm, reached = (Ret sm, batch) /\ sm_autoscaling sm = true) /\
  run ["replicas"] cluster args = (Fail replicasWithAutoscaling, batch).
Proof.
  intros args reached.
  assert (Hr : Changed (flags ["replicas"]) "replicas" = true)
    by (vm_compute; reflexivity).
  destruct reached as [[sm|?|?] w1] eqn:E;
    try (exfalso; revert E; vm_compute; discriminate).
  assert (Ha : sm_autoscaling sm = true).
  { revert E. vm_compute. intros E. now inversion E. }
  assert (Hw : w1 = batch).
  { revert E. vm_compute. intros E. now inversion E. }
  subst w1.
  destruct (C8_autoscaling_excludes_replicas collaborators (flags ["replicas"])
              "mycluster" cluster args batch) as (_ & Hmode & _).
  destruct (Hmode sm batch E) as (_ & Hfail & _).
  split; [exact Hr|]. split; [now exists sm|].
  exact (Hfail Ha Hr).
Defined.

(** Autoscaling on and [replicas] given, with a name that is not an
    identifier: the error is the one of the name. *)
Lemma C8_counterexample :
  let args := optionsOf "1machinepool" true 0 0 2 false "on-demand" "" in
  AutoscalingEnabled args = true /\
  Changed (flags ["replicas"]) "replicas" = true /\
  fst (run ["replicas"] cluster args) = Fail invalidName /\
  fst (run ["replicas"] cluster args) <> Fail replicasWithAutoscaling.
Proof.
  repeat split; try (vm_compute; reflexivity).
  vm_compute. discriminate.
Qed.

Lemma C9_witness :
  let given := ["replicas"; "spot-max-price"; "use-spot-instances"] in
  let args := optionsOf "machinepool1" false 0 0 2 false "0.5" "" in
  Changed (flags given) "spot-max-price" = true /\
  Changed (flags given) "use-spot-instances" = true /\
  UseSpotInstances args = false /\
  fst (run given cluster args)
  = Fail "Can't set max price when not using spot instances" /\
  creations (trace (snd (run given cluster args))) = [].
Proof.
  intros given args.
  assert (Hp : Changed (flags given) "spot-max-price" = true)
    by (vm_compute; reflexivity).
  assert (Hs : Changed (flags given) "use-spot-instances" = true)
    by (vm_compute; reflexivity).
  destruct (proj2 (C9_spot_price_and_local_zones collaborators (flags given)
                     "mycluster" cluster args batch)
              _ _ (surjective_pairing (run given cluster args)) Hp Hs eq_refl)
    as [Hfail Hnone].
  split; [exact Hp|]. split; [exact Hs|]. split; [reflexivity|].
  split; [vm_compute; reflexivity|].
  rewrite Hnone. reflexivity.
Defined.

(** A max price given without the [use-spot-instances] flag: the run
    succeeds, and creates a pool without spot market options. *)
Lemma C9_counterexample :
  let given := ["replicas"; "spot-max-price"] in
  let args := optionsOf "machinepool1" false 0 0 2 false "0.5" "" in
  Changed (flags given) "spot-max-price" = true /\
  UseSpotInstances args = false /\
  fst (run given cluster args) = Ret tt /\
  exists machinePool,
    creations (trace (snd (run given cluster args)))
    = [CreateMachinePoolRequest (cluster_ID cluster) machinePool] /\
    cmv1.SpotMarketOptions (cmv1.AWS machinePool) = None.
Proof.
  repeat split; try (vm_compute; reflexivity).
  eexists. split; vm_compute; reflexivity.
Qed.

Lemma C10_witness :
  let given := ["replicas"; "spot-max-price"; "use-spot-instances"] in
  let args := optionsOf "machinepool1" false 0 0 2 true "0.5" "" in
  let offered : Command :=
    {[ "use-spot-instances" := {| Usage := "Use spot instances";
                                  flag_Changed := false |};
       "spot-max-price" := {| Usage := "Max price"; flag_Changed := false |} ]} in
  let prompted : World unit := mkWorld true [] tt in
  (fst (run given cluster args) = Ret tt /\
   exists machinePool sp,
     creations (trace (snd (run given cluster args)))
     = [CreateMachinePoolRequest (cluster_ID cluster) machinePool] /\
     cmv1.SpotMarketOptions (cmv1.AWS machinePool) =
       (if useSpotInstances sp then
          Some {| cmv1.MaxPrice :=
                    if String.eqb (spotMaxPrice sp) "on-demand" then None
                    else Some (fst (ParseFloat (spotMaxPrice sp) 64)) |}
        else None) /\
     useSpotInstances sp = true /\ spotMaxPrice sp = "0.5") /\
  resolveSpot collaborators offered args "" [] prompted
  = (Ret {| useSpotInstances := true; spotMaxPrice := "0.5";
            maxPrice := Some (fst (ParseFloat "0.5" 64)) |},
     mkWorld true
       [Asked "Use spot instances"; Asked "Spot instance max price"] tt).
Proof.
  intros given args offered prompted.
  destruct (C10_spot_market_options collaborators)
    as (Hrun & Hbatch & Hprompted).
  split.
  - assert (Hret : fst (run given cluster args) = Ret tt)
      by (vm_compute; reflexivity).
    split; [exact Hret|].
    destruct (Hrun (flags given) "mycluster" cluster args batch _ _
                (surjective_pairing (run given cluster args)))
      as [[Hno _] | (bs & w1 & sp & w2 & machinePool
                     & Hbs & Hsp & Hc & _ & Hspot)].
    + contradiction.
    + exists machinePool, sp. split; [exact Hc|]. split; [exact Hspot|].
      assert (Hi : interactive_Enabled w1 = false).
      { replace w1
          with (snd (machinePoolBeforeSpot collaborators (flags given) cluster
                       args batch))
          by (now rewrite Hbs).
        vm_compute. reflexivity. }
      exact (Hbatch _ _ _ _ _ _ _ Hi Hsp).
  - assert (Hlu : Lookup offered "use-spot-instances"
                  = Some {| Usage := "Use spot instances";
                            flag_Changed := false |})
      by (vm_compute; reflexivity).
    assert (Hlp : Lookup offered "spot-max-price"
                  = Some {| Usage := "Max price"; flag_Changed := false |})
      by (vm_compute; reflexivity).
    destruct (Hprompted offered args [] prompted _ _ true tt eq_refl
                Hlu eq_refl Hlp eq_refl eq_refl) as [_ Hyes].
    rewrite (Hyes eq_refl "0.5" tt eq_refl).
    vm_compute. reflexivity.
Defined.

(** * Further properties of the two functions *)

Section RunFacts.

Context {U : Type} (C : Collaborators U).
Implicit Types w : World U.

Lemma nodePoolScalingMode_inv cmd cluster args w nm w' :
  nodePoolScalingMode C cmd cluster args w = (Ret nm, w') ->
  exists w1, resolveName C args w = (Ret (nm_name nm), w1).
Proof.
  unfold nodePoolScalingMode. intros H. run_inv H.
  inversion H; subst; locals. eauto.
Qed.

End RunFacts.

(** ** Runs from a script *)

Section ScriptFacts.

Context {U : Type}.
Implicit Types w : World U.

Lemma scriptedWith_ret {A} (P : A -> Prop) a :
  P a -> scriptedWith P (ret a : M U A).
Proof.
  intros Ha w r w' Hi H. inversion H; subst.
  split; [split; [assumption | reflexivity]|].
  intros b Hb. inversion Hb; subst. exact Ha.
Qed.

Lemma scriptedWith_fail {A} (P : A -> Prop) e : scriptedWith P (@fail U A e).
Proof.
  intros w r w' Hi H. inversion H; subst.
  split; [split; [assumption | reflexivity]|]. intros b Hb. discriminate.
Qed.

Lemma scriptedWith_panic {A} (P : A -> Prop) why :
  scriptedWith P (@panic U A why).
Proof.
  intros w r w' Hi H. inversion H; subst.
  split; [split; [assumption | reflexivity]|]. intros b Hb. discriminate.
Qed.

Lemma scriptedWith_weaken {A} (P Q : A -> Prop) (m : M U A) :
  (forall a, P a -> Q a) -> scriptedWith P m -> scriptedWith Q m.
Proof.
  intros HPQ Hm w r w' Hi H. destruct (Hm _ _ _ Hi H) as [Hs Hv].
  split; [exact Hs | intros a Ha; apply HPQ, Hv, Ha].
Qed.

Lemma scriptedWith_bind {A B} (Q : A -> Prop) (P : B -> Prop)
    (m : M U A) (k : A -> M U B) :
  scriptedWith Q m -> (forall a, Q a -> scriptedWith P (k a)) ->
  scriptedWith P (bind m k).
Proof.
  intros Hm Hk w r w' Hi. unfold bind.
  destruct (m w) as [[a|e|why] w1] eqn:E;
    destruct (Hm _ _ _ Hi E) as [[Hi1 Hq1] Hv]; intros H.
  - destruct (Hk a (Hv a eq_refl) _ _ _ Hi1 H) as [[Hi2 Hq2] Hv2].
    split; [split; [assumption | congruence] | assumption].
  - inversion H; subst. split; [split; assumption|]. intros b Hb. discriminate.
  - inversion H; subst. split; [split; assumption|]. intros b Hb. discriminate.
Qed.

Lemma scriptedWith_bind_Enabled {B} (P : B -> Prop) (k : bool -> M U B) :
  scriptedWith P (k false) -> scriptedWith P (bind Enabled k).
Proof.
  intros Hk w r w' Hi. unfold bind, Enabled. rewrite Hi. now apply Hk.
Qed.

Lemma scriptedWith_bind_ret {A B} (P : B -> Prop) (a : A) (k : A -> M U B) :
  scriptedWith P (k a) -> scriptedWith P (bind (ret a) k).
Proof. intros Hk w r w' Hi H. exact (Hk w r w' Hi H). Qed.

Lemma scriptedWith_wrap {A} (P : A -> Prop) f (m : M U A) :
  scriptedWith P m -> scriptedWith P (wrap f m).
Proof.
  intros Hm w r w' Hi. unfold wrap.
  destruct (m w) as [[a|e|why] w1] eqn:E;
    destruct (Hm _ _ _ Hi E) as [Hs Hv]; intros H; inversion H; subst;
    (split; [exact Hs|]); try (intros b Hb; discriminate).
  exact Hv.
Qed.

Lemma scriptedWith_emit e :
  isAsked e = false -> scriptedWith (fun _ => True) (emit e : M U unit).
Proof.
  intros He w r w' Hi H. inversion H; subst; simpl.
  split; [|trivial]. split; [assumption|].
  unfold questions. rewrite List.filter_app. simpl. rewrite He.
  apply app_nil_r.
Qed.

Lemma scriptedWith_call {A} (f : ext U A) :
  scriptedWith (fun _ => True) (call f).
Proof.
  intros w r w' Hi. unfold call.
  destruct (f _ _) as [r0 u]. intros H. inversion H; subst; simpl.
  split; [split; [assumption | reflexivity] | trivial].
Qed.

Lemma scriptedWith_first {A} (l : list A) :
  scriptedWith (fun _ => True) (@first U A l).
Proof.
  destruct l; [apply scriptedWith_panic | now apply scriptedWith_ret].
Qed.

Lemma scriptedWith_check e : scriptedWith (fun _ => True) (@check U e).
Proof.
  destruct e; [apply scriptedWith_fail | now apply scriptedWith_ret].
Qed.

Lemma scriptedWith_lift {A} (r : error + A) :
  scriptedWith (fun _ => True) (@lift U A r).
Proof.
  destruct r; [apply scriptedWith_fail | now apply scriptedWith_ret].
Qed.

Lemma scriptedWith_if {A} (P : A -> Prop) (b : bool) (m1 m2 : M U A) :
  scriptedWith P m1 -> scriptedWith P m2 ->
  scriptedWith P (if b then m1 else m2).
Proof. now destruct b. Qed.

Lemma scriptedWith_request {A} op arguments (f : ext U A) :
  scriptedWith (fun _ => True) (request op arguments f).
Proof.
  unfold request. apply (scriptedWith_bind (fun _ => True)).
  - now apply scriptedWith_emit.
  - intros _ _. apply scriptedWith_call.
Qed.

Lemma scriptedWith_usage cmd name :
  scriptedWith (fun _ => True) (@usage U cmd name).
Proof.
  unfold usage. destruct (Lookup cmd name);
    [now apply scriptedWith_ret | apply scriptedWith_panic].
Qed.

Lemma scriptedWith_scripted {A} (P : A -> Prop) (m : M U A) :
  scriptedWith P m -> scripted m.
Proof. intros Hm w r w' Hi H. exact (proj1 (Hm w r w' Hi H)). Qed.

(** *** Interactive mode, once on, stays on *)

Lemma stays_ret {A} (a : A) : staysInteractive (ret a : M U A).
Proof. intros w r w' Hi H. now inversion H; subst. Qed.

Lemma stays_fail {A} e : staysInteractive (@fail U A e).
Proof. intros w r w' Hi H. now inversion H; subst. Qed.

Lemma stays_panic {A} why : staysInteractive (@panic U A why).
Proof. intros w r w' Hi H. now inversion H; subst. Qed.

Lemma stays_bind {A B} (m : M U A) (k : A -> M U B) :
  staysInteractive m -> (forall a, staysInteractive (k a)) ->
  staysInteractive (bind m k).
Proof.
  intros Hm Hk w r w' Hi. unfold bind.
  destruct (m w) as [[a|e|why] w1] eqn:E; pose proof (Hm _ _ _ Hi E) as Hi1;
    intros H.
  - exact (Hk a _ _ _ Hi1 H).
  - now inversion H; subst.
  - now inversion H; subst.
Qed.

Lemma stays_wrap {A} f (m : M U A) :
  staysInteractive m -> staysInteractive (wrap f m).
Proof.
  intros Hm w r w' Hi. unfold wrap.
  destruct (m w) as [[a|e|why] w1] eqn:E; pose proof (Hm _ _ _ Hi E) as Hi1;
    intros H; now inversion H; subst.
Qed.

Lemma stays_emit e : staysInteractive (emit e : M U unit).
Proof. intros w r w' Hi H. now inversion H; subst. Qed.

Lemma stays_call {A} (f : ext U A) : staysInteractive (call f).
Proof.
  intros w r w' Hi. unfold call.
  destruct (f _ _) as [r0 u]. intros H. now inversion H; subst.
Qed.

Lemma stays_Enabled : staysInteractive (@Enabled U).
Proof. intros w r w' Hi H. now inversion H; subst. Qed.

Lemma stays_Enable : staysInteractive (@Enable U).
Proof. intros w r w' Hi H. now inversion H; subst. Qed.

Lemma stays_first {A} (l : list A) : staysInteractive (@first U A l).
Proof. destruct l; [apply stays_panic | apply stays_ret]. Qed.

Lemma stays_check e : staysInteractive (@check U e).
Proof. destruct e; [apply stays_fail | apply stays_ret]. Qed.

Lemma stays_lift {A} (r : error + A) : staysInteractive (@lift U A r).
Proof. destruct r; [apply stays_fail | apply stays_ret]. Qed.

Lemma stays_if {A} (b : bool) (m1 m2 : M U A) :
  staysInteractive m1 -> staysInteractive m2 ->
  staysInteractive (if b then m1 else m2).
Proof. now destruct b. Qed.

End ScriptFacts.

Create HintDb scripted.
Create HintDb stays.

#[export] Hint Resolve scriptedWith_fail scriptedWith_panic scriptedWith_call
  scriptedWith_first scriptedWith_check scriptedWith_lift
  scriptedWith_request scriptedWith_usage : scripted.

#[export] Hint Resolve stays_ret stays_fail stays_panic stays_emit
  stays_call stays_Enabled stays_Enable stays_first stays_check stays_lift
  : stays.

Ltac script_simpl :=
cbv beta zeta;
repeat match goal with
       | H : ?b = false |- context [?b] => rewrite H
       | H : ?b = true |- context [?b] => rewrite H
       end;
rewrite ?andb_false_r, ?orb_false_r, ?andb_true_r;
cbn [negb andb orb];
rewrite ?andb_false_r, ?orb_false_r, ?andb_true_r;
cbv beta iota.

(** Goes through the steps of a run from a script; a prompt or a switch
    to interactive mode that can be reached is left over. *)
Ltac scripted :=
repeat first
  [ exact I
  | match goal with
    | |- scriptedWith _ (bind Enabled _) =>
        apply scriptedWith_bind_Enabled; script_simpl
    | |- scriptedWith _ (bind (ret _) _) =>
        apply scriptedWith_bind_ret; script_simpl
    | |- scriptedWith _ (fail _) => apply scriptedWith_fail
    | |- scriptedWith _ (panic _) => apply scriptedWith_panic
    | |- scriptedWith _ (ret _) => apply scriptedWith_ret
    | |- scriptedWith _ (emit _) => apply scriptedWith_emit; reflexivity
    | |- scriptedWith _ (bind _ _) =>
        apply (scriptedWith_bind (fun _ => True));
        [ | intros ? _; script_simpl ]
    | |- scriptedWith _ (if _ then _ else _) => apply scriptedWith_if
    | |- scriptedWith _ (wrap _ _) => apply scriptedWith_wrap
    | |- scriptedWith _ (match ?x with _ => _ end) => destruct x
    end
  | solve [ auto with scripted ] ].

Ltac script_step lemma :=
eapply scriptedWith_bind; [ apply lemma; try assumption | cbv beta ].

Ltac stays :=
repeat first
  [ apply stays_bind; [ | intros ? ]
  | apply stays_if
  | apply stays_wrap
  | solve [ auto with stays ]
  | match goal with
    | |- staysInteractive (match ?x with _ => _ end) => destruct x
    end ].

Section Scripts.

Context {U : Type} (C : Collaborators U).
Implicit Types w : World U.

Lemma stays_ask {A} (get : Input -> ext U A) input :
  staysInteractive (ask get input).
Proof. unfold ask. stays. Qed.

Lemma stays_request {A} op arguments (f : ext U A) :
  staysInteractive (request op arguments f).
Proof. unfold request. stays. Qed.

Lemma stays_usage cmd name : staysInteractive (@usage U cmd name).
Proof. unfold usage. stays. Qed.

Hint Resolve stays_ask stays_request stays_usage : stays.

(** *** What the steps return in a run from a script *)

Lemma scripted_resolveName args :
  Go.Trim (Name args) spaceTab <> "" ->
  scriptedWith (fun name => name = Go.Trim (Name args) spaceTab)
    (resolveName C args).
Proof.
  intros Hn. apply String.eqb_neq in Hn. unfold resolveName.
  scripted. apply Trim_idem.
Qed.

Lemma scripted_resolvePlacement cmd cluster args fl :
  scriptedWith (fun _ => True) (resolvePlacement C cmd cluster args fl).
Proof. unfold resolvePlacement. scripted. Qed.

Lemma scripted_resolveAutoscaling cmd args :
  scriptedWith (fun a => a = AutoscalingEnabled args)
    (resolveAutoscaling C cmd args).
Proof. unfold resolveAutoscaling. scripted. Qed.

Lemma scripted_resolveReplicas cmd args multiAZ :
  (if AutoscalingEnabled args
   then Changed cmd "min-replicas" = true /\ Changed cmd "max-replicas" = true
   else Changed cmd "replicas" = true) ->
  scriptedWith
    (fun sc =>
       sc = {| autoscaling := AutoscalingEnabled args;
               minReplicas := MinReplicas args;
               maxReplicas := MaxReplicas args;
               replicas := Replicas args |})
    (resolveReplicas C cmd args multiAZ (AutoscalingEnabled args)).
Proof.
  unfold resolveReplicas. destruct (AutoscalingEnabled args).
  - intros [Hmin Hmax]. scripted.
  - intros Hr. scripted.
Qed.

Lemma scripted_resolveSecurityGroups cmd cluster args fl :
  scriptedWith
    (fun ids => ids = map (strings_TrimSpace C) (SecurityGroupIds args))
    (resolveSecurityGroups C cmd cluster args fl).
Proof. unfold resolveSecurityGroups. scripted. Qed.

Lemma scripted_resolveInstanceType cmd cluster args name pl :
  scriptedWith (fun it => fst it = InstanceType args)
    (resolveInstanceType C cmd cluster args name pl).
Proof.
  unfold resolveInstanceType, getMachinePoolAvailabilityZones.
  scripted.
Qed.

Lemma scripted_resolveSpot cmd args subnet zones :
  scriptedWith
    (fun sp => useSpotInstances sp = UseSpotInstances args /\
               spotMaxPrice sp = SpotMaxPrice args)
    (resolveSpot C cmd args subnet zones).
Proof. unfold resolveSpot. scripted. Qed.

Lemma scripted_resolveRootDisk cmd cluster args :
  scriptedWith (fun rootVolume => RootDiskSize args = "" -> rootVolume = None)
    (resolveRootDisk C cmd cluster args).
Proof.
  unfold resolveRootDisk.
  destruct (String.eqb (RootDiskSize args) "") eqn:Hd; scripted.
  intros E. apply String.eqb_neq in Hd. contradiction.
Qed.

Lemma scripted_submitMachinePool key cluster name builder :
  scriptedWith (fun _ => True) (submitMachinePool C key cluster name builder).
Proof. unfold submitMachinePool. scripted. Qed.

Lemma scripted_validateFlags cmd cluster args :
  scriptedWith (fun _ => True) (validateFlags C cmd cluster args).
Proof. unfold validateFlags. scripted. Qed.

Lemma scripted_hostedClusterOnlyFlags cmd :
  scriptedWith (fun _ => True) (hostedClusterOnlyFlags C cmd).
Proof. unfold hostedClusterOnlyFlags. scripted. Qed.

Lemma scripted_machinePoolScalingMode cmd cluster args :
  Go.Trim (Name args) spaceTab <> "" ->
  scriptedWith
    (fun sm => sm_name sm = Go.Trim (Name args) spaceTab /\
               sm_autoscaling sm = AutoscalingEnabled args)
    (machinePoolScalingMode C cmd cluster args).
Proof.
  intros Hn. unfold machinePoolScalingMode.
  script_step scripted_validateFlags. intros fl _.
  script_step scripted_hostedClusterOnlyFlags. intros _ _.
  script_step scripted_resolveName. intros name ->.
  script_step scripted_resolvePlacement. intros pl _.
  script_step scripted_resolveAutoscaling. intros a ->.
  now apply scriptedWith_ret.
Qed.

Lemma scripted_machinePoolBeforeSpot cmd cluster args :
  Go.Trim (Name args) spaceTab <> "" ->
  (if AutoscalingEnabled args
   then Changed cmd "min-replicas" = true /\ Changed cmd "max-replicas" = true
   else Changed cmd "replicas" = true) ->
  scriptedWith
    (fun bs =>
       sm_name (bs_mode bs) = Go.Trim (Name args) spaceTab /\
       bs_scaling bs = {| autoscaling := AutoscalingEnabled args;
                          minReplicas := MinReplicas args;
                          maxReplicas := MaxReplicas args;
                          replicas := Replicas args |} /\
       bs_securityGroupIds bs
       = map (strings_TrimSpace C) (SecurityGroupIds args) /\
       bs_instanceType bs = InstanceType args)
    (machinePoolBeforeSpot C cmd cluster args).
Proof.
  intros Hn Hf. unfold machinePoolBeforeSpot.
  script_step scripted_machinePoolScalingMode. intros sm [Hname ->].
  script_step scripted_resolveReplicas. intros sc ->.
  script_step scripted_resolveSecurityGroups. intros ids ->.
  script_step scripted_resolveInstanceType. intros it Hit.
  script_step (@scriptedWith_call U). intros labelMap _.
  script_step (@scriptedWith_call U). intros taintBuilders _.
  apply scriptedWith_ret. locals. auto.
Qed.

Lemma scripted_machinePoolResolved cmd cluster args :
  Go.Trim (Name args) spaceTab <> "" ->
  (if AutoscalingEnabled args
   then Changed cmd "min-replicas" = true /\ Changed cmd "max-replicas" = true
   else Changed cmd "replicas" = true) ->
  scriptedWith
    (fun rs =>
       (sm_name (bs_mode (rs_before rs)) = Go.Trim (Name args) spaceTab /\
        bs_scaling (rs_before rs)
        = {| autoscaling := AutoscalingEnabled args;
             minReplicas := MinReplicas args;
             maxReplicas := MaxReplicas args;
             replicas := Replicas args |} /\
        bs_securityGroupIds (rs_before rs)
        = map (strings_TrimSpace C) (SecurityGroupIds args) /\
        bs_instanceType (rs_before rs) = InstanceType args) /\
       (useSpotInstances (rs_spot rs) = UseSpotInstances args /\
        spotMaxPrice (rs_spot rs) = SpotMaxPrice args) /\
       (RootDiskSize args = "" -> rs_rootVolume rs = None))
    (machinePoolResolved C cmd cluster args).
Proof.
  intros Hn Hf. unfold machinePoolResolved.
  script_step scripted_machinePoolBeforeSpot. intros bs Hbs.
  script_step scripted_resolveSpot. intros sp Hsp.
  script_step (@scriptedWith_call U). intros awsTags _.
  script_step scripted_resolveRootDisk. intros rootVolume Hroot.
  apply scriptedWith_ret. locals. auto.
Qed.

Lemma scripted_CreateMachinePool cmd key cluster args :
  Go.Trim (Name args) spaceTab <> "" ->
  (if AutoscalingEnabled args
   then Changed cmd "min-replicas" = true /\ Changed cmd "max-replicas" = true
   else Changed cmd "replicas" = true) ->
  scripted (CreateMachinePool C cmd key cluster args).
Proof.
  intros Hn Hf w r w' Hi H. rewrite CreateMachinePool_split in H.
  revert H. apply (scriptedWith_scripted (fun _ => True)); [|exact Hi].
  script_step scripted_machinePoolResolved. intros rs _.
  apply scripted_submitMachinePool.
Qed.

End Scripts.

#[export] Hint Resolve stays_ask stays_request stays_usage : stays.

(** ** What the two functions create *)

Section Created.

Context {U : Type} (C : Collaborators U).
Implicit Types w : World U.

Lemma machinePoolScalingMode_placement cmd cluster args w sm w' :
  machinePoolScalingMode C cmd cluster args w = (Ret sm, w') ->
  exists w1 w2,
    resolvePlacement C cmd cluster args (sm_flags sm) w1
    = (Ret (sm_placement sm), w2).
Proof.
  unfold machinePoolScalingMode. intros H. run_inv H.
  inversion H; subst; locals. eauto.
Qed.

Lemma questions_snoc (l : list Event) e :
  questions (l ++ [e]) =
  (questions l ++ (if isAsked e then [e] else []))%list.
Proof.
  unfold questions. rewrite List.filter_app. simpl. now destruct (isAsked e).
Qed.

(** X1.  Whatever CreateMachinePool creates is placed in at most one
    way: the request names availability zones or subnets, never both,
    and at most one of either.  A zone is named only on a multi-AZ
    cluster and only when [helper.Contains] finds it among the zones of
    the cluster; a subnet that is named is not the empty text. *)
Theorem X1_created_machine_pool_is_placed_once cmd key cluster args w r w' :
  CreateMachinePool C cmd key cluster args w = (r, w') ->
  createsMachinePool cluster
    (fun machinePool =>
       (cmv1.AvailabilityZones machinePool = [] \/
        cmv1.Subnets machinePool = []) /\
       (forall zone,
          In zone (cmv1.AvailabilityZones machinePool) ->
          cmv1.AvailabilityZones machinePool = [zone] /\
          cluster_MultiAZ cluster = true /\
          helper_Contains C (cluster_Nodes_AvailabilityZones cluster) zone
          = true) /\
       (forall subnet,
          In subnet (cmv1.Subnets machinePool) ->
          cmv1.Subnets machinePool = [subnet] /\ subnet <> ""))
    w r w'.
Proof.
  intros H.
  apply CreateMachinePool_run in H as [H | (rs & w1 & Hrs & Hc)];
    [now left | right].
  exists (machinePoolPayload cluster rs). split; [exact Hc|].
  apply machinePoolResolved_inv in Hrs as (w2 & w3 & Hbs & _).
  apply machinePoolBeforeSpot_inv in Hbs as (w4 & w5 & Hsm & _).
  apply machinePoolScalingMode_placement in Hsm as (w6 & w7 & Hpl).
  apply resolvePlacement_Ret in Hpl as [_ Hzone].
  unfold machinePoolPayload, mpBuilder.
  cbn [cmv1.AvailabilityZones cmv1.Subnets].
  set (pl := sm_placement (bs_mode (rs_before rs))) in *.
  destruct (String.eqb (availabilityZone pl) "") eqn:Ez;
    [apply String.eqb_eq in Ez | apply String.eqb_neq in Ez];
    (destruct (String.eqb (subnet pl) "") eqn:Es;
     [apply String.eqb_eq in Es | apply String.eqb_neq in Es]);
    rewrite ?andb_false_r; cbn [negb andb].
  - split; [now left|]. split; intros x [].
  - split; [now left|]. split; [intros x []|].
    intros x [<-|[]]. now split.
  - destruct (Hzone Ez) as (Hm & Hmulti & _ & Hin).
    rewrite Hm, Hmulti. cbn [negb andb].
    split; [now right|]. split; [|intros x []].
    intros x [<-|[]]. auto.
  - destruct (Hzone Ez) as (_ & _ & Hs & _). contradiction.
Qed.

(** X2.  Whatever CreateMachinePool creates has an identifier that
    [machinePoolKeyRE] accepts and exactly one size: an autoscaling
    with 0 <= min <= max and no replica count, or a replica count that
    is not negative and no autoscaling. *)
Theorem X2_created_machine_pool_has_a_key_and_one_size
    cmd key cluster args w r w' :
  CreateMachinePool C cmd key cluster args w = (r, w') ->
  createsMachinePool cluster
    (fun machinePool =>
       Regexp.MatchString machinePoolKeyRE (cmv1.ID machinePool) = true /\
       match cmv1.Autoscaling machinePool, cmv1.Replicas machinePool with
       | Some a, None => 0 <= cmv1.MinReplicas a <= cmv1.MaxReplicas a
       | None, Some n => 0 <= n
       | _, _ => False
       end)
    w r w'.
Proof.
  intros H.
  apply CreateMachinePool_run in H as [H | (rs & w1 & Hrs & Hc)];
    [now left | right].
  exists (machinePoolPayload cluster rs). split; [exact Hc|].
  apply machinePoolResolved_inv in Hrs as (w2 & w3 & Hbs & _).
  apply machinePoolBeforeSpot_inv in Hbs as (w4 & w5 & Hsm & Hsc).
  apply machinePoolScalingMode_inv in Hsm as (_ & w6 & w7 & Hname).
  apply resolveName_Ret in Hname as [Hname _].
  apply resolveReplicas_Ret in Hsc as [Ha Hsc].
  unfold machinePoolPayload, mpBuilder.
  cbn [cmv1.ID cmv1.Autoscaling cmv1.Replicas].
  split; [exact Hname|]. rewrite Ha.
  destruct (sm_autoscaling _); cbn.
  - destruct Hsc as (_ & Hsc & _). exact Hsc.
  - destruct Hsc as (_ & _ & Hsc & _). exact Hsc.
Qed.

(** X3.  Whatever CreateNodePools creates has an identifier that
    [machinePoolKeyRE] accepts, exactly one of an autoscaling and a
    replica count, a value for auto repair and an AWS part; its subnet
    and its version, when it has one, are not the empty text. *)
Theorem X3_created_node_pool_is_well_formed cmd key cluster args w r w' :
  CreateNodePools C cmd key cluster args w = (r, w') ->
  createsNodePool cluster
    (fun nodePool =>
       Regexp.MatchString machinePoolKeyRE (cmv1.np_ID nodePool) = true /\
       match cmv1.np_Autoscaling nodePool, cmv1.np_Replicas nodePool with
       | Some _, None | None, Some _ => True
       | _, _ => False
       end /\
       cmv1.np_AutoRepair nodePool <> None /\
       cmv1.np_AWSNodePool nodePool <> None /\
       cmv1.np_Subnet nodePool <> Some "" /\
       cmv1.np_Version nodePool <> Some "")
    w r w'.
Proof.
  intros H.
  apply CreateNodePools_run in H as [H | (nr & w1 & Hnr & Hc)];
    [now left | right].
  exists (nodePoolPayload C nr). split; [exact Hc|].
  apply nodePoolResolved_inv in Hnr as (w2 & w3 & Hnm & _).
  apply nodePoolScalingMode_inv in Hnm as (w4 & Hname).
  apply resolveName_Ret in Hname as [Hname _].
  unfold nodePoolPayload, npBuilder.
  cbn [cmv1.np_ID cmv1.np_Autoscaling cmv1.np_Replicas cmv1.np_AutoRepair
       cmv1.np_AWSNodePool cmv1.np_Subnet cmv1.np_Version].
  split; [exact Hname|].
  split; [now destruct (autoscaling _)|].
  split; [discriminate|]. split; [discriminate|].
  split.
  - destruct (String.eqb (nm_subnet _) "") eqn:E; cbn; [discriminate|].
    apply String.eqb_neq in E. congruence.
  - destruct (String.eqb (nm_version _) "") eqn:E; cbn; [discriminate|].
    apply String.eqb_neq in E. congruence.
Qed.

(** X4.  A run of CreateMachinePool that starts without interactive
    mode, with a name that is not blank and with the flags of its size
    given ([min-replicas] and [max-replicas] when the arguments ask for
    autoscaling, [replicas] when they do not), puts no question of its
    own and does not switch interactive mode on, whatever its
    outcome. *)
Theorem X4_script_with_name_and_size_is_not_asked
    cmd key cluster args w r w' :
  interactive_Enabled w = false ->
  Go.Trim (Name args) spaceTab <> "" ->
  (if AutoscalingEnabled args
   then Changed cmd "min-replicas" = true /\ Changed cmd "max-replicas" = true
   else Changed cmd "replicas" = true) ->
  CreateMachinePool C cmd key cluster args w = (r, w') ->
  interactive_Enabled w' = false /\
  questions (trace w') = questions (trace w).
Proof.
  intros Hi Hn Hf H.
  exact (scripted_CreateMachinePool C cmd key cluster args Hn Hf w r w' Hi H).
Qed.

(** X5.  In such a run from a script, what is created is what was
    passed: the identifier is the name argument trimmed of blanks, the
    instance type and the size are those of the arguments, the
    security groups are those of the arguments with
    [strings.TrimSpace] applied to each, there are no spot market
    options unless the arguments ask for spot instances, and there is
    no root volume when no disk size was passed. *)
Theorem X5_script_creates_what_was_passed cmd key cluster args w r w' :
  interactive_Enabled w = false ->
  Go.Trim (Name args) spaceTab <> "" ->
  (if AutoscalingEnabled args
   then Changed cmd "min-replicas" = true /\ Changed cmd "max-replicas" = true
   else Changed cmd "replicas" = true) ->
  CreateMachinePool C cmd key cluster args w = (r, w') ->
  createsMachinePool cluster
    (fun machinePool =>
       cmv1.ID machinePool = Go.Trim (Name args) spaceTab /\
       cmv1.InstanceType machinePool = InstanceType args /\
       cmv1.Autoscaling machinePool
       = (if AutoscalingEnabled args
          then Some {| cmv1.MinReplicas := MinReplicas args;
                       cmv1.MaxReplicas := MaxReplicas args |}
          else None) /\
       cmv1.Replicas machinePool
       = (if AutoscalingEnabled args then None else Some (Replicas args)) /\
       cmv1.AdditionalSecurityGroupIds (cmv1.AWS machinePool)
       = map (strings_TrimSpace C) (SecurityGroupIds args) /\
       (UseSpotInstances args = false ->
        cmv1.SpotMarketOptions (cmv1.AWS machinePool) = None) /\
       (RootDiskSize args = "" -> cmv1.RootVolume machinePool = None))
    w r w'.
Proof.
  intros Hi Hn Hf H.
  apply CreateMachinePool_run in H as [H | (rs & w1 & Hrs & Hc)];
    [now left | right].
  exists (machinePoolPayload cluster rs). split; [exact Hc|].
  destruct (scripted_machinePoolResolved C cmd cluster args Hn Hf _ _ _ Hi Hrs)
    as [_ Hv].
  destruct (Hv rs eq_refl)
    as ((Hname & Hsc & Hsg & Hit) & (Hspot & _) & Hroot).
  unfold machinePoolPayload, mpBuilder, awsMpBuilder.
  cbn [cmv1.ID cmv1.InstanceType cmv1.Autoscaling cmv1.Replicas cmv1.AWS
       cmv1.AdditionalSecurityGroupIds cmv1.SpotMarketOptions cmv1.RootVolume].
  rewrite Hname, Hsc, Hsg, Hit, Hspot. cbn [autoscaling minReplicas maxReplicas replicas].
  repeat (split; [reflexivity|]).
  split; [|split; [|exact Hroot]].
  - now destruct (map _ _).
  - now intros ->.
Qed.

(** X7.  With a name argument that is blank, the name step of a run
    without interactive mode switches it on, reports "Enabling
    interactive mode" and asks for the name; a run of CreateNodePools
    that gets past its check of the flags therefore ends in interactive
    mode, whatever its outcome. *)
Theorem X7_blank_name_switches_interactive_mode_on
    cmd key cluster args w :
  interactive_Enabled w = false ->
  Go.Trim (Name args) spaceTab = "" ->
  (forall r w',
     resolveName C args w = (r, w') ->
     interactive_Enabled w' = true /\
     trace w' = (trace w ++ [Infof "Enabling interactive mode";
                            Asked "Machine pool name"])%list) /\
  (forall r w',
     Changed cmd "subnet" && Changed cmd "availability-zone" = false ->
     CreateNodePools C cmd key cluster args w = (r, w') ->
     interactive_Enabled w' = true).
Proof.
  intros Hi Hn.
  assert (Hname : forall r w',
            resolveName C args w = (r, w') ->
            interactive_Enabled w' = true /\
            trace w' = (trace w ++ [Infof "Enabling interactive mode";
                                   Asked "Machine pool name"])%list).
  { intros r w'. unfold resolveName. rewrite Hn.
    unfold bind, Enabled, Enable, emit, wrap, ask, call, ret. cbn.
    rewrite Hi. cbn.
    destruct (interactive_GetString C _ true (outside w)) as [[a|e|why] u];
      cbn; try destruct (negb _); intros H; inversion H; subst; cbn;
      rewrite <- app_assoc; auto. }
  split; [exact Hname|].
  intros r w' Hflags. unfold CreateNodePools. rewrite Hflags.
  unfold bind at 1.
  destruct (resolveName C args w) as [[name|e|why] w1] eqn:E;
    destruct (Hname _ _ eq_refl) as [Hi1 _].
  - match goal with
    | |- ?m w1 = _ -> _ =>
        assert (S : staysInteractive m); [|exact (S w1 r w' Hi1)]
    end.
    unfold resolveVersion, getSubnetFromAvailabilityZone, resolveAutoscaling,
      resolveNodePoolReplicas, resolveNodePoolSecurityGroups,
      resolveNodePoolInstanceType, resolveAutorepair, resolveTuningConfigs,
      resolveKubeletConfigs, resolveNodeDrainGracePeriod, submitNodePool.
    stays.
  - intros H. now inversion H; subst.
  - intros H. now inversion H; subst.
Qed.

(** X8.  The replica count is asked for whenever its flag was not
    given, interactive mode or not: without autoscaling and with the
    [replicas] flag registered but not given, the replica step of both
    functions asks "Replicas" in a run from a script too, without
    switching interactive mode on, and the count it returns is the
    answer. *)
Theorem X8_replicas_without_flag_are_asked_for
    cmd args multiAZ flag w r1 w1 r2 w2 :
  interactive_Enabled w = false ->
  Lookup cmd "replicas" = Some flag ->
  flag_Changed flag = false ->
  Changed cmd "min-replicas" = false ->
  Changed cmd "max-replicas" = false ->
  resolveReplicas C cmd args multiAZ false w = (r1, w1) ->
  resolveNodePoolReplicas C cmd args false w = (r2, w2) ->
  (interactive_Enabled w1 = false /\
   trace w1 = (trace w ++ [Asked "Replicas"])%list /\
   forall sc, r1 = Ret sc ->
     exists u,
       interactive_GetInt C
         (intInput "Replicas" (Usage flag) (Replicas args)
            (minReplicaValidator multiAZ)) false (outside w)
       = (Ret (replicas sc), u)) /\
  (interactive_Enabled w2 = false /\
   trace w2 = (trace w ++ [Asked "Replicas"])%list /\
   forall sc, r2 = Ret sc ->
     exists u,
       interactive_GetInt C
         (intInput "Replicas" (Usage flag) (Replicas args)
            (mpHelpers_MinNodePoolReplicaValidator C false)) false (outside w)
       = (Ret (replicas sc), u)).
Proof.
  intros Hi Hl Hc Hmin Hmax H1 H2.
  assert (Hr : Changed cmd "replicas" = false)
    by (unfold Changed; now rewrite Hl).
  split.
  - revert H1. unfold resolveReplicas. rewrite Hmin, Hmax, Hr. cbn [orb].
    unfold bind, Enabled, usage, wrap, ask, emit, call, ret, check, fail.
    rewrite Hi, Hl. cbn. rewrite ?Hi.
    destruct (interactive_GetInt C _ false (outside w)) as [[n|e|why] u] eqn:E;
      cbn; try (destruct (minReplicaValidator multiAZ (VInt n)); cbn);
      intros H; inversion H; subst; cbn;
      (split; [first [reflexivity | exact Hi]|]); (split; [reflexivity|]);
      intros sc Hsc; inversion Hsc; subst; cbn; eauto.
  - revert H2. unfold resolveNodePoolReplicas. rewrite Hmin, Hmax, Hr. cbn [orb].
    unfold bind, Enabled, usage, wrap, ask, emit, call, ret, check, fail.
    rewrite Hi, Hl. cbn. rewrite ?Hi.
    destruct (interactive_GetInt C _ false (outside w)) as [[n|e|why] u] eqn:E;
      cbn;
      try (destruct (mpHelpers_MinNodePoolReplicaValidator C false (VInt n));
           cbn);
      intros H; inversion H; subst; cbn;
      (split; [first [reflexivity | exact Hi]|]); (split; [reflexivity|]);
      intros sc Hsc; inversion Hsc; subst; cbn; eauto.
Qed.

End Created.

(** ** A machine pool over all the zones *)

Section Spread.

Context {U : Type} (C : Collaborators U).
Implicit Types w : World U.

Lemma scriptedWith_of {A} (P : A -> Prop) (m : M U A) :
  scriptedWith (fun _ => True) m ->
  (forall w a w', m w = (Ret a, w') -> P a) ->
  scriptedWith P m.
Proof.
  intros Hm HP w r w' Hi H. split; [exact (proj1 (Hm w r w' Hi H))|].
  intros a ->. exact (HP _ _ _ H).
Qed.

Lemma scripted_resolvePlacement_spread cmd cluster args fl :
  cluster_MultiAZ cluster = true ->
  isAvailabilityZoneSet fl = false ->
  isSubnetSet fl = false ->
  MultiAvailabilityZone args = true ->
  scriptedWith
    (fun pl => pl = {| subnet := ""; multiAZMachinePool := true;
                       availabilityZone := "" |})
    (resolvePlacement C cmd cluster args fl).
Proof.
  intros Hm Hz Hs Ha. unfold resolvePlacement.
  rewrite Hm, Hz, Hs. cbn [negb andb orb]. scripted.
Qed.

Lemma scripted_machinePoolScalingMode_spread cmd cluster args :
  Go.Trim (Name args) spaceTab <> "" ->
  cluster_MultiAZ cluster = true ->
  Changed cmd "availability-zone" = false ->
  Changed cmd "subnet" = false ->
  MultiAvailabilityZone args = true ->
  scriptedWith
    (fun sm => sm_placement sm
               = {| subnet := ""; multiAZMachinePool := true;
                    availabilityZone := "" |})
    (machinePoolScalingMode C cmd cluster args).
Proof.
  intros Hn Hm Hz Hs Ha. unfold machinePoolScalingMode.
  eapply scriptedWith_bind.
  { apply (scriptedWith_of
             (fun fl => isSubnetSet fl = false /\
                        isAvailabilityZoneSet fl = false)).
    - apply scripted_validateFlags.
    - intros w fl w' H.
      apply validateFlags_Ret in H as (H1 & H2 & _). split; congruence. }
  cbv beta. intros fl [Hfs Hfz].
  script_step (scripted_hostedClusterOnlyFlags C). intros _ _.
  script_step (scripted_resolveName C). intros name _.
  script_step scripted_resolvePlacement_spread. intros pl ->.
  script_step (scripted_resolveAutoscaling C). intros a _.
  now apply scriptedWith_ret.
Qed.

(** X12.  With [MultiAvailabilityZone] true in the arguments (the value
    that NewCreateMachinepoolUserOptions gives it), a run of
    CreateMachinePool from a script on a multi-AZ cluster, with a name
    that is not blank and neither the [availability-zone] nor the
    [subnet] flag, creates only a pool over all the zones: the request
    names no zone and no subnet, and its replica count, or the two
    bounds of its autoscaling, are multiples of three. *)
Theorem X12_default_pool_of_a_multi_az_cluster
    cmd key cluster args w r w' :
  interactive_Enabled w = false ->
  Go.Trim (Name args) spaceTab <> "" ->
  cluster_MultiAZ cluster = true ->
  Changed cmd "availability-zone" = false ->
  Changed cmd "subnet" = false ->
  MultiAvailabilityZone args = true ->
  CreateMachinePool C cmd key cluster args w = (r, w') ->
  createsMachinePool cluster
    (fun machinePool =>
       cmv1.AvailabilityZones machinePool = [] /\
       cmv1.Subnets machinePool = [] /\
       (forall n, cmv1.Replicas machinePool = Some n -> (3 | n)) /\
       (forall a, cmv1.Autoscaling machinePool = Some a ->
                  (3 | cmv1.MinReplicas a) /\ (3 | cmv1.MaxReplicas a)))
    w r w'.
Proof.
  intros Hi Hn Hm Hz Hs Ha H.
  apply CreateMachinePool_run in H as [H | (rs & w1 & Hrs & Hc)];
    [now left | right].
  exists (machinePoolPayload cluster rs). split; [exact Hc|].
  apply machinePoolResolved_inv in Hrs as (w2 & w3 & Hbs & _).
  apply machinePoolBeforeSpot_inv in Hbs as (w4 & w5 & Hsm & Hsc).
  destruct (scripted_machinePoolScalingMode_spread cmd cluster args
              Hn Hm Hz Hs Ha _ _ _ Hi Hsm) as [_ Hpl].
  specialize (Hpl _ eq_refl). cbv beta in Hpl.
  rewrite Hpl in Hsc. cbn [multiAZMachinePool] in Hsc.
  apply resolveReplicas_Ret in Hsc as [Hauto Hsc].
  unfold machinePoolPayload, mpBuilder.
  cbn [cmv1.AvailabilityZones cmv1.Subnets cmv1.Replicas cmv1.Autoscaling].
  rewrite Hpl, Hauto. cbn [multiAZMachinePool availabilityZone subnet].
  rewrite andb_false_r. cbn.
  split; [reflexivity|]. split; [reflexivity|].
  destruct (sm_autoscaling _).
  - destruct Hsc as (_ & _ & H3). destruct (H3 eq_refl) as [Hmin Hmax].
    split; [discriminate|]. intros a Heq. inversion Heq; subst. cbn. auto.
  - destruct Hsc as (_ & _ & _ & H3). split; [|discriminate].
    intros n Heq. inversion Heq; subst. auto.
Qed.

End Spread.

(** ** The subnet of a node pool *)

Section Subnets.

Context {U : Type} (C : Collaborators U).
Implicit Types w : World U.

Lemma subnetsPerZone_fold privateSubnets (subnetsMap : gmap string (list string))
    zone :
  fold_left
    (fun (subnetsMap : gmap string (list string)) privateSubnet =>
       let subnetsPerAZ :=
         match subnetsMap !! subnet_AvailabilityZone privateSubnet with
         | None => [SubnetId privateSubnet]
         | Some subnetsPerAZ => (subnetsPerAZ ++ [SubnetId privateSubnet])%list
         end in
       <[subnet_AvailabilityZone privateSubnet := subnetsPerAZ]> subnetsMap)
    privateSubnets subnetsMap !! zone =
  match subnetsMap !! zone,
        map SubnetId
          (List.filter
             (fun privateSubnet =>
                String.eqb (subnet_AvailabilityZone privateSubnet) zone)
             privateSubnets) with
  | None, [] => None
  | None, ids => Some ids
  | Some found, ids => Some (found ++ ids)%list
  end.
Proof.
  revert subnetsMap.
  induction privateSubnets as [|s rest IH]; intros subnetsMap.
  - cbn. destruct (subnetsMap !! zone); [now rewrite app_nil_r | reflexivity].
  - cbn [fold_left List.filter map]. rewrite IH.
    destruct (String.eqb (subnet_AvailabilityZone s) zone) eqn:E.
    + apply String.eqb_eq in E. subst zone. rewrite lookup_insert_eq.
      cbn [map].
      destruct (subnetsMap !! subnet_AvailabilityZone s) as [found|].
      * now rewrite <- app_assoc.
      * reflexivity.
    + apply String.eqb_neq in E. now rewrite lookup_insert_ne.
Qed.

Lemma subnetsPerZone_lookup privateSubnets zone :
  subnetsPerZone privateSubnets !! zone =
  match map SubnetId
          (List.filter
             (fun privateSubnet =>
                String.eqb (subnet_AvailabilityZone privateSubnet) zone)
             privateSubnets) with
  | [] => None
  | ids => Some ids
  end.
Proof.
  unfold subnetsPerZone. rewrite subnetsPerZone_fold.
  now rewrite lookup_empty.
Qed.

(** X9.  The map that getSubnetFromAvailabilityZone builds from the
    private subnets holds, for each availability zone, the identifiers
    of the subnets of that zone in the order of the listing, and holds
    nothing for a zone without subnets: no zone is mapped to an empty
    list. *)
Theorem X9_subnets_are_grouped_by_zone privateSubnets zone :
  subnetsPerZone privateSubnets !! zone =
  match map SubnetId
          (List.filter
             (fun privateSubnet =>
                String.eqb (subnet_AvailabilityZone privateSubnet) zone)
             privateSubnets) with
  | [] => None
  | ids => Some ids
  end.
Proof. apply subnetsPerZone_lookup. Qed.

(** X10.  With the [availability-zone] flag given, on a cluster with a
    subnet and a zone, and the private subnets listed, the subnet of a
    node pool is settled by the subnets of the zone of the arguments:
    without one the function fails with "Failed to find a private
    subnet for '<zone>' availability zone"; with exactly one it returns
    it, without a question and without touching interactive mode; with
    several it reports so, switches interactive mode on and hands over
    to [getSubnetFromUser]. *)
Theorem X10_subnet_of_the_given_zone
    cmd cluster args w subnetID others privateSubnets u :
  cluster_AWS_SubnetIDs cluster = subnetID :: others ->
  cluster_Nodes_AvailabilityZones cluster <> [] ->
  AWSClient_GetVPCPrivateSubnets C subnetID (interactive_Enabled w) (outside w)
  = (Ret privateSubnets, u) ->
  let listed :=
    mkWorld (interactive_Enabled w)
      (trace w ++ [Request "GetVPCPrivateSubnets" [subnetID]]) u in
  let zone := AvailabilityZone args in
  getSubnetFromAvailabilityZone C cmd true cluster args w =
  match map SubnetId
          (List.filter
             (fun privateSubnet =>
                String.eqb (subnet_AvailabilityZone privateSubnet) zone)
             privateSubnets) with
  | [] =>
      (Fail ("Failed to find a private subnet for '" +:+ zone
             +:+ "' availability zone"), listed)
  | [subnet] => (Ret subnet, listed)
  | _ =>
      call (getSubnetFromUser C cmd false cluster args)
        (mkWorld true
           (trace listed
              ++ [Infof ("There are several subnets for availability zone '"
                         +:+ zone +:+ "'")])
           u)
  end.
Proof.
  intros Hs Hz Hlist listed zone.
  unfold getSubnetFromAvailabilityZone. rewrite Hs.
  destruct (cluster_Nodes_AvailabilityZones cluster) as [|z zs];
    [contradiction|].
  unfold request, first, bind, ret, emit, call, Enabled.
  cbn -[subnetsPerZone]. rewrite Hlist. cbn -[subnetsPerZone].
  rewrite subnetsPerZone_lookup. fold zone.
  destruct (map SubnetId _) as [|id [|id' ids]]; reflexivity.
Qed.

End Subnets.

(** ** The replica validators *)

(** X11.  The replica validators are monotone: what is accepted as a
    maximum above some minimum is accepted above every smaller one;
    what is accepted for a multi-AZ pool is accepted for a single-AZ
    one; and a maximum is accepted above zero exactly when it is
    accepted as a minimum. *)
Theorem X11_replica_validators_are_monotone
    minReplicas minReplicas' multiAZ val :
  minReplicas <= minReplicas' ->
  (maxReplicaValidator minReplicas' multiAZ val = None ->
   maxReplicaValidator minReplicas multiAZ val = None) /\
  (maxReplicaValidator minReplicas true val = None ->
   maxReplicaValidator minReplicas false val = None) /\
  (minReplicaValidator true val = None ->
   minReplicaValidator false val = None) /\
  (maxReplicaValidator 0 multiAZ val = None <->
   minReplicaValidator multiAZ val = None).
Proof.
  intros Hle. repeat rewrite maxReplicaValidator_accepts.
  repeat rewrite minReplicaValidator_accepts.
  split; [|split; [|split]].
  - intros (n & Hn & Hmin & H3). exists n. repeat split; auto. lia.
  - intros (n & Hn & Hmin & _). exists n. repeat split; auto. discriminate.
  - intros (n & Hn & Hmin & _). exists n. repeat split; auto. discriminate.
  - reflexivity.
Qed.

(** ** Deleting, describing and listing *)

Section Managing.

Context {U : Type} (C : Collaborators U) (S : Services U).
Implicit Types w : World U.

(** The loop of DeleteMachinePool finds a pool exactly when one of the
    listing has the identifier, and the pool found has it. *)
Lemma lastMatch_spec (machinePools : list cmv1.MachinePool) machinePoolId acc :
  let found :=
    fold_left
      (fun machinePool item =>
         if String.eqb (cmv1.ID item) machinePoolId then Some item
         else machinePool)
      machinePools acc in
  (found = acc /\ ~ In machinePoolId (map cmv1.ID machinePools)) \/
  (exists item, found = Some item /\ In item machinePools /\
                cmv1.ID item = machinePoolId).
Proof.
  revert acc. induction machinePools as [|x rest IH]; intros acc; cbn.
  - left. split; [reflexivity | tauto].
  - destruct (String.eqb (cmv1.ID x) machinePoolId) eqn:E.
    + apply String.eqb_eq in E.
      destruct (IH (Some x)) as [[Hf Hn] | (item & Hf & Hin & Hid)].
      * right. exists x. cbn in Hf. auto.
      * right. exists item. cbn in Hf. auto.
    + apply String.eqb_neq in E.
      destruct (IH acc) as [[Hf Hn] | (item & Hf & Hin & Hid)].
      * left. cbn in Hf. split; [exact Hf|]. intros [Hx|Hr]; auto.
      * right. exists item. cbn in Hf. auto.
Qed.

Lemma deletions_snoc (l : list Event) e :
  deletions (l ++ [e]) = (deletions l ++ (if isDelete e then [e] else []))%list.
Proof.
  unfold deletions. rewrite List.filter_app. simpl. now destruct (isDelete e).
Qed.

Lemma requests_snoc (l : list Event) e :
  requests (l ++ [e]) = (requests l ++ (if isRequest e then [e] else []))%list.
Proof.
  unfold requests. rewrite List.filter_app. simpl. now destruct (isRequest e).
Qed.

(** X13.  DeleteMachinePool asks for at most one deletion, and only
    for a pool that was found and that the user confirmed.  On a
    classic cluster the pool deleted is the one whose identifier was
    passed, which the listing of the machine pools holds; on a cluster
    with a hosted control plane it is the node pool that the lookup of
    that identifier returned. *)
Theorem X13_only_a_found_and_confirmed_pool_is_deleted
    machinePoolId clusterKey cluster w r w' :
  DeleteMachinePool S machinePoolId clusterKey cluster w = (r, w') ->
  deletions (trace w') = deletions (trace w) \/
  (cluster_Hypershift_Enabled cluster = false /\
   deletions (trace w') =
   (deletions (trace w)
      ++ [Request "DeleteMachinePool" [cluster_ID cluster; machinePoolId]])%list /\
   exists machinePools u1 u2,
     OCMClient_GetMachinePools S (cluster_ID cluster) (interactive_Enabled w)
       (Reporter_Debugf S
          ("Loading machine pools for cluster '" +:+ clusterKey +:+ "'")
          (outside w))
     = (Ret machinePools, u1) /\
     In machinePoolId (map cmv1.ID machinePools) /\
     confirm_Confirm S
       ("delete machine pool '" +:+ machinePoolId +:+ "' on cluster '"
        +:+ clusterKey +:+ "'")
       (interactive_Enabled w) u1
     = (Ret true, u2)) \/
  (cluster_Hypershift_Enabled cluster = true /\
   exists nodePool u1 u2,
     deletions (trace w') =
     (deletions (trace w)
        ++ [Request "DeleteNodePool"
              [cluster_ID cluster; cmv1.np_ID nodePool]])%list /\
     OCMClient_GetNodePool S (cluster_ID cluster) machinePoolId
       (interactive_Enabled w)
       (Reporter_Debugf S
          ("Loading machine pools for hosted cluster '" +:+ clusterKey +:+ "'")
          (outside w))
     = (Ret (Some nodePool), u1) /\
     confirm_Confirm S
       ("delete machine pool '" +:+ machinePoolId +:+ "' on hosted cluster '"
        +:+ clusterKey +:+ "'")
       (interactive_Enabled w) u1
     = (Ret true, u2)).
Proof.
  unfold DeleteMachinePool, deleteNodePool.
  destruct (cluster_Hypershift_Enabled cluster) eqn:Hh.
  - unfold bind, act, wrap, request, emit, call, ret, fail. cbn.
    destruct (OCMClient_GetNodePool S _ _ _ _) as [[[nodePool|]|e|why] u1] eqn:Eget;
      cbn; try solve [intros H; inversion H; subst; cbn;
                      left; rewrite deletions_snoc; cbn; apply app_nil_r].
    destruct (confirm_Confirm S _ _ u1) as [[[|]|e|why] u2] eqn:Econf;
      cbn; try solve [intros H; inversion H; subst; cbn;
                      left; rewrite deletions_snoc; cbn; apply app_nil_r].
    destruct (OCMClient_DeleteNodePool S _ _ _ _) as [[[]|e|why] u3];
      cbn; intros H; inversion H; subst; cbn;
      right; right; (split; [reflexivity|]);
      exists nodePool, u1, u2;
      rewrite ?deletions_snoc; cbn; rewrite ?app_nil_r, <- ?app_assoc; cbn;
      auto.
  - unfold bind, act, wrap, request, emit, call, ret, fail. cbn.
    destruct (OCMClient_GetMachinePools S _ _ _) as [[machinePools|e|why] u1]
      eqn:Eget;
      cbn; try solve [intros H; inversion H; subst; cbn;
                      left; rewrite deletions_snoc; cbn; apply app_nil_r].
    destruct (lastMatch_spec machinePools machinePoolId None)
      as [[Hf Hn] | (item & Hf & Hin & Hid)]; cbv zeta in Hf; rewrite Hf.
    { intros H; inversion H; subst; cbn.
      left; rewrite deletions_snoc; cbn; apply app_nil_r. }
    cbn. rewrite ?Hid.
    match goal with
    | |- context [confirm_Confirm S ?q ?i u1] =>
        destruct (confirm_Confirm S q i u1) as [[[|]|e|why] u2] eqn:Econf
    end;
      cbn; try solve [intros H; inversion H; subst; cbn;
                      left; rewrite deletions_snoc; cbn; apply app_nil_r].
    assert (Hlisted : In machinePoolId (map cmv1.ID machinePools))
      by (rewrite <- Hid; now apply in_map).
    destruct (OCMClient_DeleteMachinePool S _ _ _ _) as [[[]|e|why] u3];
      cbn; intros H; inversion H; subst; cbn;
      right; left; (split; [reflexivity|]);
      rewrite ?deletions_snoc; cbn; rewrite ?app_nil_r, <- ?app_assoc; cbn;
      (split; [reflexivity|]); exists machinePools, u1, u2; auto.
Qed.

(** X14.  Deleting a pool that is not there fails before anything is
    asked of the user: on a classic cluster whose listing holds no pool
    with the identifier, with "Failed to get machine pool '<id>' for
    cluster '<key>'"; on a cluster with a hosted control plane where
    the lookup finds no node pool, with "Machine pool '<id>' does not
    exist for hosted cluster '<key>'".  The listing or the lookup is
    the only request. *)
Theorem X14_deleting_a_pool_that_is_not_there
    machinePoolId clusterKey cluster w u1 :
  (forall machinePools,
     cluster_Hypershift_Enabled cluster = false ->
     OCMClient_GetMachinePools S (cluster_ID cluster) (interactive_Enabled w)
       (Reporter_Debugf S
          ("Loading machine pools for cluster '" +:+ clusterKey +:+ "'")
          (outside w))
     = (Ret machinePools, u1) ->
     ~ In machinePoolId (map cmv1.ID machinePools) ->
     DeleteMachinePool S machinePoolId clusterKey cluster w =
     (Fail ("Failed to get machine pool '" +:+ machinePoolId
            +:+ "' for cluster '" +:+ clusterKey +:+ "'"),
      mkWorld (interactive_Enabled w)
        (trace w ++ [Request "GetMachinePools" [cluster_ID cluster]]) u1)) /\
  (cluster_Hypershift_Enabled cluster = true ->
   OCMClient_GetNodePool S (cluster_ID cluster) machinePoolId
     (interactive_Enabled w)
     (Reporter_Debugf S
        ("Loading machine pools for hosted cluster '" +:+ clusterKey +:+ "'")
        (outside w))
   = (Ret None, u1) ->
   DeleteMachinePool S machinePoolId clusterKey cluster w =
   (Fail ("Machine pool '" +:+ machinePoolId
          +:+ "' does not exist for hosted cluster '" +:+ clusterKey +:+ "'"),
    mkWorld (interactive_Enabled w)
      (trace w ++ [Request "GetNodePool" [cluster_ID cluster; machinePoolId]])
      u1)).
Proof.
  split.
  - intros machinePools Hh Hget Hn. unfold DeleteMachinePool. rewrite Hh.
    unfold bind, act, wrap, request, emit, call, ret, fail. cbn.
    rewrite Hget. cbn.
    destruct (lastMatch_spec machinePools machinePoolId None)
      as [[Hf _] | (item & _ & Hin & Hid)].
    + cbv zeta in Hf. rewrite Hf. reflexivity.
    + exfalso. apply Hn. rewrite <- Hid. now apply in_map.
  - intros Hh Hget. unfold DeleteMachinePool, deleteNodePool. rewrite Hh.
    unfold bind, act, wrap, request, emit, call, ret, fail. cbn.
    rewrite Hget. reflexivity.
Qed.

(** X15.  Describing a pool that does not exist fails with "Machine
    pool '<id>' not found" on both kinds of cluster, after the one
    lookup (of the node pool on a cluster with a hosted control plane,
    of the machine pool otherwise) and with nothing printed. *)
Theorem X15_describing_a_pool_that_does_not_exist
    cluster clusterKey machinePoolId w u1 :
  (if cluster_Hypershift_Enabled cluster then
     OCMClient_GetNodePool S (cluster_ID cluster) machinePoolId
       (interactive_Enabled w)
       (Reporter_Debugf S (fetchMessage "node pool" machinePoolId clusterKey)
          (outside w))
     = (Ret None, u1)
   else
     OCMClient_GetMachinePool S (cluster_ID cluster) machinePoolId
       (interactive_Enabled w)
       (Reporter_Debugf S (fetchMessage "machine pool" machinePoolId clusterKey)
          (outside w))
     = (Ret None, u1)) ->
  DescribeMachinePool C S cluster clusterKey machinePoolId w =
  (Fail ("Machine pool '" +:+ machinePoolId +:+ "' not found"),
   mkWorld (interactive_Enabled w)
     (trace w
        ++ [Request (if cluster_Hypershift_Enabled cluster then "GetNodePool"
                     else "GetMachinePool")
              [cluster_ID cluster; machinePoolId]])
     u1).
Proof.
  unfold DescribeMachinePool, describeNodePool.
  destruct (cluster_Hypershift_Enabled cluster); intros Hget;
    unfold bind, act, request, emit, call, ret, fail; cbn;
    rewrite Hget; reflexivity.
Qed.

(** X16.  ListMachinePools makes exactly one request, whatever its
    outcome: the listing of the node pools on a cluster with a hosted
    control plane, of the machine pools otherwise.  It leaves no other
    event and does not touch interactive mode. *)
Theorem X16_listing_asks_for_one_kind_of_pool clusterKey cluster w r w' :
  ListMachinePools C S clusterKey cluster w = (r, w') ->
  trace w' =
  (trace w
     ++ [Request (if cluster_Hypershift_Enabled cluster then "GetNodePools"
                  else "GetMachinePools")
           [cluster_ID cluster]])%list /\
  interactive_Enabled w' = interactive_Enabled w.
Proof.
  unfold ListMachinePools.
  unfold bind, act, request, emit, call, ret. cbn.
  destruct (cluster_Hypershift_Enabled cluster); cbn.
  - destruct (OCMClient_GetNodePools S _ _ _) as [[nodePools|e|why] u1]; cbn;
      try solve [intros H; inversion H; subst; cbn; auto].
    destruct (output_HasFlag C); cbn;
      try destruct (output_Print_NodePools S _ _ _) as [r0 u2];
      intros H; inversion H; subst; cbn; auto.
  - destruct (OCMClient_GetMachinePools S _ _ _) as [[machinePools|e|why] u1];
      cbn; try solve [intros H; inversion H; subst; cbn; auto].
    destruct (output_HasFlag C); cbn;
      try destruct (output_Print_MachinePools S _ _ _) as [r0 u2];
      intros H; inversion H; subst; cbn; auto.
Qed.


(** X18.  [Create] of the KubeletConfig command asks for the creation
    at most once, after one lookup of the KubeletConfig of the cluster
    and nothing else, and only when the cluster has no hosted control
    plane, is in state "ready", has no KubeletConfig yet, the limit
    passed validation and the user confirmed the reboot of the nodes;
    the request carries the limit that validation returned. *)
Theorem X18_kubelet_config_is_created_when_confirmed podPidsLimit w r w' :
  Create S podPidsLimit w = (r, w') ->
  requests (trace w') = requests (trace w) \/
  (exists cluster,
     requests (trace w') =
     (requests (trace w)
        ++ [Request "GetClusterKubeletConfig" [cluster_ID cluster]])%list) \/
  (exists clusterKey cluster requestedPids,
     requests (trace w') =
     (requests (trace w)
        ++ [Request "GetClusterKubeletConfig" [cluster_ID cluster];
            Request "CreateKubeletConfig"
              [cluster_ID cluster; Go.FormatInt requestedPids]])%list /\
     cluster_Hypershift_Enabled cluster = false /\
     cluster_State S cluster = "ready" /\
     (exists u u', OCMClient_GetClusterKubeletConfig S (cluster_ID cluster)
                     (interactive_Enabled w) u = (Ret None, u')) /\
     (exists u u', ValidateOrPromptForRequestedPidsLimit S podPidsLimit
                     clusterKey None (interactive_Enabled w) u
                   = (Ret requestedPids, u')) /\
     (exists u u',
        confirm_ConfirmRaw S
          ("Creating the custom KubeletConfig for cluster '" +:+ clusterKey
           +:+ "' will cause all non-Control Plane "
           +:+ "nodes to reboot. This may cause outages to your applications. Do you wish to continue?")
          (interactive_Enabled w) u = (Ret true, u'))).
Proof.
  unfold Create.
  unfold bind, act, wrap, request, emit, call, ret, fail. cbn.
  destruct (runtime_GetClusterKey S _ _) as [[clusterKey|e|why] u1]; cbn;
    try solve [intros H; inversion H; subst; cbn; now left].
  destruct (runtime_FetchCluster S _ u1) as [[cluster|e|why] u2]; cbn;
    try solve [intros H; inversion H; subst; cbn; now left].
  destruct (cluster_Hypershift_Enabled cluster) eqn:Hh; cbn;
    try solve [intros H; inversion H; subst; cbn; now left].
  destruct (String.eqb (cluster_State S cluster) cmv1_ClusterStateReady) eqn:Hs;
    cbn; try solve [intros H; inversion H; subst; cbn; now left].
  apply String.eqb_eq in Hs.
  destruct (OCMClient_GetClusterKubeletConfig S _ _ u2)
    as [[[existing|]|e|why] u3] eqn:Eget; cbn;
    try solve [intros H; inversion H; subst; cbn;
               right; left; exists cluster; rewrite requests_snoc; reflexivity].
  destruct (ValidateOrPromptForRequestedPidsLimit S _ _ _ _ u3)
    as [[requestedPids|e|why] u4] eqn:Eval; cbn;
    try solve [intros H; inversion H; subst; cbn;
               right; left; exists cluster; rewrite requests_snoc; reflexivity].
  match goal with
  | |- context [confirm_ConfirmRaw S ?q ?i u4] =>
      destruct (confirm_ConfirmRaw S q i u4) as [[[|]|e|why] u5] eqn:Econf
  end; cbn;
    try solve [intros H; inversion H; subst; cbn;
               right; left; exists cluster;
               rewrite ?requests_snoc; cbn; rewrite ?app_nil_r;
               reflexivity].
  destruct (OCMClient_CreateKubeletConfig S _ _ _ _) as [[[]|e|why] u6]; cbn;
    intros H; inversion H; subst; cbn;
    right; right; exists clusterKey, cluster, requestedPids;
    rewrite ?requests_snoc; cbn; rewrite ?app_nil_r, <- ?app_assoc; cbn;
    (split; [reflexivity|]); (split; [exact Hh|]);
    (split; [exact Hs|]); eauto 10.
Qed.

End Managing.

(** ** The properties at work on the stand-in *)

Import Scenes.

Lemma X1_witness :
  let result :=
    run ["replicas"; "availability-zone"] multiAZCluster
      (zoned "us-east-1a"
         (optionsOf "machinepool1" false 0 0 2 false "on-demand" "")) in
  fst result = Ret tt /\
  exists machinePool,
    creations (trace (snd result))
    = [CreateMachinePoolRequest (cluster_ID multiAZCluster) machinePool] /\
    (cmv1.AvailabilityZones machinePool = [] \/
     cmv1.Subnets machinePool = []) /\
    (forall subnet,
       In subnet (cmv1.Subnets machinePool) ->
       cmv1.Subnets machinePool = [subnet] /\ subnet <> "").
Proof.
  intros result.
  assert (Hret : fst result = Ret tt) by (vm_compute; reflexivity).
  split; [exact Hret|].
  destruct (X1_created_machine_pool_is_placed_once collaborators _ _ _ _ _ _ _
              (surjective_pairing result))
    as [[Hno _] | (machinePool & Hc & Hone & _ & Hsubnet)].
  - contradiction.
  - exists machinePool. split; [exact Hc|]. split; [exact Hone | exact Hsubnet].
Defined.

Lemma X2_witness :
  let result :=
    run ["enable-autoscaling"; "min-replicas"; "max-replicas"] cluster
      (optionsOf "machinepool1" true 1 3 0 false "on-demand" "") in
  fst result = Ret tt /\
  exists machinePool,
    creations (trace (snd result))
    = [CreateMachinePoolRequest (cluster_ID cluster) machinePool] /\
    Regexp.MatchString machinePoolKeyRE (cmv1.ID machinePool) = true /\
    match cmv1.Autoscaling machinePool, cmv1.Replicas machinePool with
    | Some a, None => 0 <= cmv1.MinReplicas a <= cmv1.MaxReplicas a
    | None, Some n => 0 <= n
    | _, _ => False
    end.
Proof.
  intros result.
  assert (Hret : fst result = Ret tt) by (vm_compute; reflexivity).
  split; [exact Hret|].
  destruct (X2_created_machine_pool_has_a_key_and_one_size collaborators
              _ _ _ _ _ _ _ (surjective_pairing result))
    as [[Hno _] | (machinePool & Hc & Hkey & Hsize)].
  - contradiction.
  - exists machinePool. split; [exact Hc|]. split; [exact Hkey | exact Hsize].
Defined.

Lemma X3_witness :
  let result :=
    runNodePools ["replicas"] hostedCluster
      (optionsOf "machinepool1" false 0 0 2 false "on-demand" "") in
  fst result = Ret tt /\
  exists nodePool,
    creations (trace (snd result))
    = [CreateNodePoolRequest (cluster_ID hostedCluster) nodePool] /\
    Regexp.MatchString machinePoolKeyRE (cmv1.np_ID nodePool) = true /\
    cmv1.np_Subnet nodePool <> Some "".
Proof.
  intros result.
  assert (Hret : fst result = Ret tt) by (vm_compute; reflexivity).
  split; [exact Hret|].
  destruct (X3_created_node_pool_is_well_formed collaborators
              _ _ _ _ _ _ _ (surjective_pairing result))
    as [[Hno _] | (nodePool & Hc & Hkey & _ & _ & _ & Hsubnet & _)].
  - contradiction.
  - exists nodePool. split; [exact Hc|]. split; [exact Hkey | exact Hsubnet].
Defined.

Lemma X4_witness :
  let result :=
    run ["replicas"] cluster
      (optionsOf " machinepool1 " false 0 0 2 false "on-demand" "") in
  interactive_Enabled (snd result) = false /\
  questions (trace (snd result)) = [].
Proof.
  intros result.
  apply (X4_script_with_name_and_size_is_not_asked collaborators
           (flags ["replicas"]) "mycluster" cluster
           (optionsOf " machinepool1 " false 0 0 2 false "on-demand" "")
           batch (fst result) (snd result)).
  - reflexivity.
  - vm_compute. discriminate.
  - vm_compute. reflexivity.
  - apply surjective_pairing.
Defined.

Lemma X5_witness :
  let args := optionsOf " machinepool1 " false 0 0 2 false "on-demand" "" in
  let result := run ["replicas"] cluster args in
  fst result = Ret tt /\
  exists machinePool,
    creations (trace (snd result))
    = [CreateMachinePoolRequest (cluster_ID cluster) machinePool] /\
    cmv1.ID machinePool = "machinepool1" /\
    cmv1.InstanceType machinePool = "m5.xlarge" /\
    cmv1.Replicas machinePool = Some 2.
Proof.
  intros args result.
  assert (Hret : fst result = Ret tt) by (vm_compute; reflexivity).
  split; [exact Hret|].
  assert (Hname : Go.Trim (Name args) spaceTab <> "")
    by (vm_compute; discriminate).
  assert (Hflags : if AutoscalingEnabled args
                   then Changed (flags ["replicas"]) "min-replicas" = true /\
                        Changed (flags ["replicas"]) "max-replicas" = true
                   else Changed (flags ["replicas"]) "replicas" = true)
    by (vm_compute; reflexivity).
  destruct (X5_script_creates_what_was_passed collaborators
              (flags ["replicas"]) "mycluster" cluster args batch _ _
              eq_refl Hname Hflags (surjective_pairing result))
    as [[Hno _] | (machinePool & Hc & Hid & Htype & _ & Hreplicas & _)].
  - contradiction.
  - exists machinePool. split; [exact Hc|].
    split; [exact Hid|]. split; [exact Htype | exact Hreplicas].
Defined.

Lemma X7_witness :
  let args := optionsOf "  " false 0 0 2 false "on-demand" "" in
  interactive_Enabled (snd (runNodePools ["replicas"] hostedCluster args))
  = true /\
  trace (snd (resolveName collaborators args batch))
  = [Infof "Enabling interactive mode"; Asked "Machine pool name"].
Proof.
  intros args.
  assert (Hname : Go.Trim (Name args) spaceTab = "")
    by (vm_compute; reflexivity).
  destruct (X7_blank_name_switches_interactive_mode_on collaborators
              (flags ["replicas"]) "mycluster" hostedCluster args batch
              eq_refl Hname) as [Hstep Hrun].
  split.
  - apply (Hrun (fst (runNodePools ["replicas"] hostedCluster args))).
    + vm_compute. reflexivity.
    + apply surjective_pairing.
  - exact (proj2 (Hstep _ _ (surjective_pairing _))).
Defined.

Lemma X8_witness :
  let cmd := registered "replicas" in
  let args := optionsOf "machinepool1" false 0 0 2 false "on-demand" "" in
  trace (snd (resolveReplicas collaborators cmd args false false batch))
  = [Asked "Replicas"] /\
  trace (snd (resolveNodePoolReplicas collaborators cmd args false batch))
  = [Asked "Replicas"].
Proof.
  intros cmd args.
  assert (Hl : Lookup cmd "replicas"
               = Some {| Usage := "Count of machines for the machine pool";
                         flag_Changed := false |})
    by (vm_compute; reflexivity).
  assert (Hmin : Changed cmd "min-replicas" = false)
    by (vm_compute; reflexivity).
  assert (Hmax : Changed cmd "max-replicas" = false)
    by (vm_compute; reflexivity).
  destruct (X8_replicas_without_flag_are_asked_for collaborators cmd args
              false _ batch _ _ _ _ eq_refl Hl eq_refl Hmin Hmax
              (surjective_pairing _) (surjective_pairing _))
    as [(_ & H1 & _) (_ & H2 & _)].
  split; [exact H1 | exact H2].
Defined.

Lemma X10_witness :
  getSubnetFromAvailabilityZone collaborators (flags ["availability-zone"])
    true hostedCluster (zoned "us-east-1a" options) batch
  = (Ret "subnet-a",
     mkWorld false [Request "GetVPCPrivateSubnets" ["subnet-a"]] tt).
Proof.
  apply (X10_subnet_of_the_given_zone collaborators
           (flags ["availability-zone"]) hostedCluster
           (zoned "us-east-1a" options) batch "subnet-a" [] subnets tt).
  - reflexivity.
  - discriminate.
  - reflexivity.
Defined.

Lemma X11_witness :
  3 <= 6 /\ maxReplicaValidator 3 true (VStr "9") = None.
Proof.
  assert (H : 3 <= 6) by lia.
  split; [exact H|].
  apply (proj1 (X11_replica_validators_are_monotone 3 6 true (VStr "9") H)).
  vm_compute. reflexivity.
Defined.

Lemma X12_witness :
  let args := optionsOf "machinepool1" false 0 0 3 false "on-demand" "" in
  let result := run ["replicas"] multiAZCluster args in
  fst result = Ret tt /\
  exists machinePool,
    creations (trace (snd result))
    = [CreateMachinePoolRequest (cluster_ID multiAZCluster) machinePool] /\
    cmv1.AvailabilityZones machinePool = [] /\
    cmv1.Subnets machinePool = [].
Proof.
  intros args result.
  assert (Hret : fst result = Ret tt) by (vm_compute; reflexivity).
  split; [exact Hret|].
  assert (Hname : Go.Trim (Name args) spaceTab <> "")
    by (vm_compute; discriminate).
  destruct (X12_default_pool_of_a_multi_az_cluster collaborators
              (flags ["replicas"]) "mycluster" multiAZCluster args batch _ _
              eq_refl Hname eq_refl eq_refl eq_refl eq_refl
              (surjective_pairing result))
    as [[Hno _] | (machinePool & Hc & Hzones & Hsubnets & _)].
  - contradiction.
  - exists machinePool. split; [exact Hc|].
    split; [exact Hzones | exact Hsubnets].
Defined.

Import Console.

Lemma X13_witness :
  let yes := services true cluster "ready" None in
  deletions (trace (snd (DeleteMachinePool yes "machinepool1" "mycluster"
                           cluster batch)))
  = [Request "DeleteMachinePool" [cluster_ID cluster; "machinepool1"]] /\
  In "machinepool1" (map cmv1.ID machinePools).
Proof.
  intros yes.
  destruct (X13_only_a_found_and_confirmed_pool_is_deleted yes
              "machinepool1" "mycluster" cluster batch _ _
              (surjective_pairing _))
    as [Hnone | [(_ & Hone & pools & u1 & u2 & Hget & Hin & _)
                | (Hhosted & _)]].
  - vm_compute in Hnone. discriminate.
  - split; [exact Hone|]. vm_compute in Hget. inversion Hget; subst. exact Hin.
  - discriminate.
Defined.

Lemma X14_witness :
  let yes := services true cluster "ready" None in
  DeleteMachinePool yes "absent" "mycluster" cluster batch
  = (Fail "Failed to get machine pool 'absent' for cluster 'mycluster'",
     mkWorld false [Request "GetMachinePools" [cluster_ID cluster]] tt) /\
  DeleteMachinePool yes "absent" "mycluster" hostedCluster batch
  = (Fail "Machine pool 'absent' does not exist for hosted cluster 'mycluster'",
     mkWorld false
       [Request "GetNodePool" [cluster_ID hostedCluster; "absent"]] tt).
Proof.
  intros yes. split.
  - apply (proj1 (X14_deleting_a_pool_that_is_not_there yes "absent"
                    "mycluster" cluster batch tt) machinePools).
    + reflexivity.
    + reflexivity.
    + vm_compute. intros [H|[H|[]]]; discriminate.
  - apply (proj2 (X14_deleting_a_pool_that_is_not_there yes "absent"
                    "mycluster" hostedCluster batch tt)).
    + reflexivity.
    + reflexivity.
Defined.

Lemma X15_witness :
  DescribeMachinePool collaborators (services true cluster "ready" None)
    hostedCluster "mycluster" "absent" batch
  = (Fail "Machine pool 'absent' not found",
     mkWorld false
       [Request "GetNodePool" [cluster_ID hostedCluster; "absent"]] tt).
Proof.
  apply (X15_describing_a_pool_that_does_not_exist collaborators
           (services true cluster "ready" None) hostedCluster "mycluster"
           "absent" batch tt).
  reflexivity.
Defined.

Lemma X16_witness :
  let result :=
    ListMachinePools collaborators (services true cluster "ready" None)
      "mycluster" hostedCluster batch in
  trace (snd result) = [Request "GetNodePools" [cluster_ID hostedCluster]] /\
  interactive_Enabled (snd result) = false.
Proof.
  intros result.
  exact (X16_listing_asks_for_one_kind_of_pool collaborators
           (services true cluster "ready" None) "mycluster" hostedCluster
           batch (fst result) (snd result) (surjective_pairing result)).
Defined.


Lemma X18_witness :
  let yes := services true cluster "ready" None in
  requests (trace (snd (Create yes 5000 batch)))
  = [Request "GetClusterKubeletConfig" [cluster_ID cluster];
     Request "CreateKubeletConfig" [cluster_ID cluster; "5000"]] /\
  exists found,
    cluster_ID found = cluster_ID cluster /\
    cluster_Hypershift_Enabled found = false.
Proof.
  intros yes.
  assert (Hrun : requests (trace (snd (Create yes 5000 batch)))
                 = [Request "GetClusterKubeletConfig" [cluster_ID cluster];
                    Request "CreateKubeletConfig" [cluster_ID cluster; "5000"]])
    by (vm_compute; reflexivity).
  split; [exact Hrun|].
  destruct (X18_kubelet_config_is_created_when_confirmed yes 5000 batch _ _
              (surjective_pairing _))
    as [Hnone | [(found & Hone)
                | (key & found & pids & Hboth & Hh & _)]].
  - rewrite Hrun in Hnone. discriminate.
  - rewrite Hrun in Hone. discriminate.
  - exists found. rewrite Hrun in Hboth.
    change (requests (trace batch)) with (@nil Event) in Hboth.
    cbn [app] in Hboth. split; [congruence | exact Hh].
Defined.
